(** * LTDC controller driver and ILI9341 panel driver: a shallow embedding

    Sources embedded here:
    - [os/hal/platforms/STM32/LTDCv1/stm32_ltdc.c] (the LTDC driver),
    - [ili9341.c] (the panel driver).

    The embedding is of the build with precondition checking switched on
    ([LTDC_USE_CHECKS], [ILI9341_USE_CHECKS]) and with [LTDC_USE_WAIT]:
    a failed [chDbgCheck] or [chDbgAssert] ends in [chDbgPanic], which halts
    the system; a call therefore either completes or halts with the message
    of the check that failed, and the machine state at that moment is kept.

    C integers are [Z] with the wrap-around of their width written out. *)

From Stdlib Require Import ZArith List String Bool Lia.
Import ListNotations.

Local Open Scope string_scope.
Local Open Scope Z_scope.

(** ** Fixed-width arithmetic *)

Definition u8 (x : Z) : Z := x mod 2 ^ 8.
Definition u16 (x : Z) : Z := x mod 2 ^ 16.
Definition u32 (x : Z) : Z := x mod 2 ^ 32.

(** The values of a [uint32_t]. *)
Definition is_u32 (x : Z) : Prop := 0 <= x < 2 ^ 32.

(** The values of a [uint16_t]. *)
Definition is_u16 (x : Z) : Prop := 0 <= x < 2 ^ 16.

(** [x << n] on [uint32_t]. *)
Definition shl32 (x n : Z) : Z := u32 (Z.shiftl x n).
(** [~x] on [uint32_t]. *)
Definition not32 (x : Z) : Z := Z.lxor x (Z.ones 32).
(** A C condition: non-zero is true. *)
Definition nonzero (x : Z) : bool := negb (x =? 0).

(** ** Calls that may halt *)

Inductive outcome (A : Type) : Type :=
| Done (a : A)
| Halt (msg : string).
Arguments Done {A} a.
Arguments Halt {A} msg.

(** A computation over a machine state [S]: the result, or the halt message,
    together with the state reached. *)
Definition M (S A : Type) : Type := S -> outcome A * S.

Definition ret {S A : Type} (a : A) : M S A := fun s => (Done a, s).

Definition bind {S A B : Type} (m : M S A) (k : A -> M S B) : M S B :=
  fun s =>
    match m s with
    | (Done a, s') => k a s'
    | (Halt msg, s') => (Halt msg, s')
    end.

Notation "x <- m ;; k" := (bind m (fun x => k))
  (at level 61, m at next level, right associativity).
Notation "m ;; k" := (bind m (fun _ => k))
  (at level 61, right associativity).

Definition chDbgPanic {S A : Type} (msg : string) : M S A :=
  fun s => (Halt msg, s).

(** [chDbgAssert(c, m, r)]: halts with the assertion's tag [m] when [c] is false. *)
Definition chDbgAssert {S : Type} (c : bool) (m : string) : M S unit :=
  if c then ret tt else chDbgPanic m.

(** [chDbgCheck(c, func)]: halts with the name of the function when [c] is false. *)
Definition chDbgCheck {S : Type} (c : bool) (func : string) : M S unit :=
  if c then ret tt else chDbgPanic func.

Definition get {S : Type} : M S S := fun s => (Done s, s).
Definition gets {S A : Type} (f : S -> A) : M S A := fun s => (Done (f s), s).
Definition modify {S : Type} (f : S -> S) : M S unit := fun s => (Done tt, f s).

(** A stateless helper that may halt, used inside a stateful call. *)
Definition lift {S A : Type} (o : outcome A) : M S A :=
  fun s => (o, s).

(** [if (c) body] *)
Definition when {S : Type} (c : bool) (body : M S unit) : M S unit :=
  if c then body else ret tt.

(** ** Pixel formats and helper functions (stm32_ltdc.c, "LTDC helper functions") *)

(** Modelled from the spec: the pixel format identifiers of [stm32_ltdc.h]
    (the header is not among the sources); the spec names the eight formats
    in the order of the [ltdc_bpp] table and gives the identifiers 0..7. *)
Definition LTDC_FMT_ARGB8888 : Z := 0.
Definition LTDC_FMT_RGB888 : Z := 1.
Definition LTDC_FMT_RGB565 : Z := 2.
Definition LTDC_FMT_ARGB1555 : Z := 3.
Definition LTDC_FMT_ARGB4444 : Z := 4.
Definition LTDC_FMT_L8 : Z := 5.
Definition LTDC_FMT_AL44 : Z := 6.
Definition LTDC_FMT_AL88 : Z := 7.

(** Modelled from the spec: [LTDC_MIN_PIXFMT_ID] and [LTDC_MAX_PIXFMT_ID] of
    [stm32_ltdc.h], "min and max pixel-format ids (0..7)"; the table below has
    [LTDC_MAX_PIXFMT_ID + 1] entries. *)
Definition LTDC_MIN_PIXFMT_ID : Z := 0.
Definition LTDC_MAX_PIXFMT_ID : Z := 7.

(** Modelled from the spec: [LTDC_MAX_PALETTE_LENGTH] of [stm32_ltdc.h],
    "max palette length (256)". *)
Definition LTDC_MAX_PALETTE_LENGTH : Z := 256.

(** [static const uint8_t ltdc_bpp[LTDC_MAX_PIXFMT_ID + 1]] *)
Definition ltdc_bpp : list Z :=
  [ 32  (* LTDC_FMT_ARGB8888 *)
  ; 24  (* LTDC_FMT_RGB888 *)
  ; 16  (* LTDC_FMT_RGB565 *)
  ; 16  (* LTDC_FMT_ARGB1555 *)
  ; 16  (* LTDC_FMT_ARGB4444 *)
  ;  8  (* LTDC_FMT_L8 *)
  ;  8  (* LTDC_FMT_AL44 *)
  ; 16  (* LTDC_FMT_AL88 *)
  ].

(** [size_t ltdcBitsPerPixel(ltdc_pixfmt_t fmt)] *)
Definition ltdcBitsPerPixel (fmt : Z) : outcome Z :=
  if fmt <? LTDC_MAX_PIXFMT_ID
  then Done (nth (Z.to_nat fmt) ltdc_bpp 0)
  else Halt "ltdcBitsPerPixel(), #1".

(** Modelled from the spec: the macro [ltdcBytesPerPixel] of [stm32_ltdc.h]
    (not among the sources).  The spec has the frame setter compute the line
    size from bpp(format), the table lookup above, and measures pitch and line
    size in bytes per pixel: the bits of the table rounded up to whole bytes. *)
Definition ltdcBytesPerPixel (fmt : Z) : outcome Z :=
  match ltdcBitsPerPixel fmt with
  | Done bits => Done (Z.shiftr (bits + 7) 3)
  | Halt msg => Halt msg
  end.

(** [ltdc_color_t ltdcFromARGB8888(ltdc_color_t c, ltdc_pixfmt_t fmt)] *)
Definition ltdcFromARGB8888 (c fmt : Z) : outcome Z :=
  match fmt with
  | 0 => Done c
  | 1 => Done (Z.land c 0x00FFFFFF)
  | 2 => Done (Z.lor (Z.lor
           (Z.shiftr (Z.land c 0x000000F8) ( 8 -  5))
           (Z.shiftr (Z.land c 0x0000FC00) (16 - 11)))
           (Z.shiftr (Z.land c 0x00F80000) (24 - 16)))
  | 3 => Done (Z.lor (Z.lor (Z.lor
           (Z.shiftr (Z.land c 0x000000F8) ( 8 -  5))
           (Z.shiftr (Z.land c 0x0000F800) (16 - 10)))
           (Z.shiftr (Z.land c 0x00F80000) (24 - 15)))
           (Z.shiftr (Z.land c 0x80000000) (32 - 16)))
  | 4 => Done (Z.lor (Z.lor (Z.lor
           (Z.shiftr (Z.land c 0x000000F0) ( 8 -  4))
           (Z.shiftr (Z.land c 0x0000F000) (16 -  8)))
           (Z.shiftr (Z.land c 0x00F00000) (24 - 12)))
           (Z.shiftr (Z.land c 0xF0000000) (32 - 16)))
  | 5 => Done (Z.land c 0x000000FF)
  | 6 => Done (Z.lor
           (Z.shiftr (Z.land c 0x000000F0) ( 8 - 4))
           (Z.shiftr (Z.land c 0xF0000000) (32 - 8)))
  | 7 => Done (Z.lor
           (Z.shiftr (Z.land c 0x000000FF) ( 8 -  8))
           (Z.shiftr (Z.land c 0xFF000000) (32 - 16)))
  | _ => Halt "invalid format"
  end.

(** [if (c & mask) output |= ((c & mask) << sh) | fill;] *)
Definition expand_channel (c mask sh fill output : Z) : Z :=
  if nonzero (Z.land c mask)
  then Z.lor output (Z.lor (shl32 (Z.land c mask) sh) fill)
  else output.

(** [ltdc_color_t ltdcToARGB8888(ltdc_color_t c, ltdc_pixfmt_t fmt)] *)
Definition ltdcToARGB8888 (c fmt : Z) : outcome Z :=
  match fmt with
  | 0 => Done c
  | 1 => Done (Z.lor (Z.land c 0x00FFFFFF) 0xFF000000)
  | 2 =>
      let output := 0xFF000000 in
      let output := expand_channel c 0x001F ( 8 -  5) 0x00000007 output in
      let output := expand_channel c 0x07E0 (16 - 11) 0x00000300 output in
      let output := expand_channel c 0xF800 (24 - 16) 0x00070000 output in
      Done output
  | 3 =>
      let output := 0x00000000 in
      let output := expand_channel c 0x001F ( 8 -  5) 0x00000007 output in
      let output := expand_channel c 0x03E0 (16 - 10) 0x00000700 output in
      let output := expand_channel c 0x7C00 (24 - 15) 0x00070000 output in
      let output := if nonzero (Z.land c 0x8000)
                    then Z.lor output 0xFF000000 else output in
      Done output
  | 4 =>
      let output := 0x00000000 in
      let output := expand_channel c 0x000F ( 8 -  4) 0x0000000F output in
      let output := expand_channel c 0x00F0 (16 -  8) 0x00000F00 output in
      let output := expand_channel c 0x0F00 (24 - 12) 0x000F0000 output in
      let output := expand_channel c 0xF000 (32 - 16) 0x0F000000 output in
      Done output
  | 5 => Done (Z.lor (Z.land c 0xFF) 0xFF000000)
  | 6 =>
      let output := 0x00000000 in
      let output := expand_channel c 0x0F ( 8 - 4) 0x0000000F output in
      let output := expand_channel c 0xF0 (32 - 8) 0x0F000000 output in
      Done output
  | 7 => Done (Z.lor
           (shl32 (Z.land c 0x00FF) ( 8 -  8))
           (shl32 (Z.land c 0xFF00) (32 - 16)))
  | _ => Halt "(), #1"
  end.

(** *** The RGB-565 conversions, channel by channel

    Two descriptions of the expansion of an [n]-bit channel to 8 bits, and
    the RGB-565 conversions written over the channels, to be compared with
    [ltdcToARGB8888] and [ltdcFromARGB8888] above. *)

(** An [n]-bit channel expanded to 8 bits with the missing low bits filled
    with ones, a channel of 0 staying 0. *)
Definition channel_filled_with_ones (n v : Z) : Z :=
  if v =? 0 then 0 else Z.lor (Z.shiftl v (8 - n)) (Z.ones (8 - n)).

(** The specification's words: an [n]-bit channel expanded to 8 bits with
    its high bits replicated into the missing low bits. *)
Definition channel_replicated (n v : Z) : Z :=
  Z.lor (Z.shiftl v (8 - n)) (Z.shiftr v (2 * n - 8)).

(** An RGB-565 colour expanded to ARGB-8888 by [expand], channel by channel:
    red from the bits 15..11, green from 10..5, blue from 4..0, alpha 0xFF. *)
Definition rgb565_expanded (expand : Z -> Z -> Z) (c : Z) : Z :=
  let r5 := Z.land (Z.shiftr c 11) 0x1F in
  let g6 := Z.land (Z.shiftr c 5) 0x3F in
  let b5 := Z.land c 0x1F in
  Z.lor (Z.lor (Z.lor 0xFF000000 (Z.shiftl (expand 5 r5) 16))
               (Z.shiftl (expand 6 g6) 8))
        (expand 5 b5).

(** An ARGB-8888 colour reduced to RGB-565: the 8-bit red, green and blue
    channels lose their low 3, 2 and 3 bits and are packed red first; alpha
    is dropped. *)
Definition rgb565_reduced (c : Z) : Z :=
  let r8 := Z.land (Z.shiftr c 16) 0xFF in
  let g8 := Z.land (Z.shiftr c 8) 0xFF in
  let b8 := Z.land c 0xFF in
  Z.lor (Z.lor (Z.shiftl (Z.shiftr r8 3) 11) (Z.shiftl (Z.shiftr g8 2) 5))
        (Z.shiftr b8 3).

(** ** What the headers define

    Neither [stm32_ltdc.h] nor the device header is among the sources.  The
    register bit fields ([LTDC_*] masks of the device header) and the parameter
    bounds and flag masks of [stm32_ltdc.h] that the driver code names are
    taken here as parameters; [stm32f4_hw] below gives them the values of the
    target silicon. *)

Class ltdc_hw : Type := {
  (* global register fields *)
  LTDC_SSCR_HSW : Z;  LTDC_SSCR_VSH : Z;
  LTDC_BPCR_AHBP : Z; LTDC_BPCR_AVBP : Z;
  LTDC_AWCR_AAW : Z;  LTDC_AWCR_AAH : Z;
  LTDC_TWCR_TOTALW : Z; LTDC_TWCR_TOTALH : Z;
  LTDC_GCR_LTDCEN : Z;
  LTDC_SRCR_IMR : Z;  LTDC_SRCR_VBR : Z;
  LTDC_IER_LIE : Z; LTDC_IER_FUIE : Z; LTDC_IER_TERRIE : Z; LTDC_IER_RRIE : Z;
  LTDC_ISR_LIF : Z; LTDC_ISR_RRIF : Z;
  LTDC_ICR_CLIF : Z; LTDC_ICR_CRRIF : Z;
  (* layer register fields *)
  LTDC_LxCR_LEN : Z; LTDC_LxCR_COLKEN : Z; LTDC_LxCR_CLUTEN : Z;
  LTDC_LxWHPCR_WHSTPOS : Z; LTDC_LxWHPCR_WHSPPOS : Z;
  LTDC_LxWVPCR_WVSTPOS : Z; LTDC_LxWVPCR_WVSPPOS : Z;
  LTDC_LxPFCR_PF : Z;
  LTDC_LxCACR_CONSTA : Z;
  LTDC_LxBFCR_BF1 : Z; LTDC_LxBFCR_BF2 : Z;
  LTDC_LxCFBAR_CFBADD : Z;
  LTDC_LxCFBLR_CFBP : Z; LTDC_LxCFBLR_CFBLL : Z;
  LTDC_LxCFBLNR_CFBLNBR : Z;
  (* flag groups of stm32_ltdc.h *)
  LTDC_EF_ENABLE : Z; LTDC_EF_MASK : Z; LTDC_LEF_MASK : Z;
  (* named values of stm32_ltdc.h *)
  LTDC_COLOR_BLACK : Z; LTDC_BLEND_FIX1_FIX2 : Z;
  (* parameter bounds of stm32_ltdc.h *)
  LTDC_MIN_HSYNC_WIDTH : Z; LTDC_MAX_HSYNC_WIDTH : Z;
  LTDC_MIN_VSYNC_HEIGHT : Z; LTDC_MAX_VSYNC_HEIGHT : Z;
  LTDC_MIN_HBP_WIDTH : Z; LTDC_MAX_HBP_WIDTH : Z;
  LTDC_MIN_VBP_HEIGHT : Z; LTDC_MAX_VBP_HEIGHT : Z;
  LTDC_MIN_ACC_HBP_WIDTH : Z; LTDC_MAX_ACC_HBP_WIDTH : Z;
  LTDC_MIN_ACC_VBP_HEIGHT : Z; LTDC_MAX_ACC_VBP_HEIGHT : Z;
  LTDC_MIN_SCREEN_WIDTH : Z; LTDC_MAX_SCREEN_WIDTH : Z;
  LTDC_MIN_SCREEN_HEIGHT : Z; LTDC_MAX_SCREEN_HEIGHT : Z;
  LTDC_MIN_ACC_ACTIVE_WIDTH : Z; LTDC_MAX_ACC_ACTIVE_WIDTH : Z;
  LTDC_MIN_ACC_ACTIVE_HEIGHT : Z; LTDC_MAX_ACC_ACTIVE_HEIGHT : Z;
  LTDC_MIN_HFP_WIDTH : Z; LTDC_MAX_HFP_WIDTH : Z;
  LTDC_MIN_VFP_HEIGHT : Z; LTDC_MAX_VFP_HEIGHT : Z;
  LTDC_MIN_ACC_TOTAL_WIDTH : Z; LTDC_MAX_ACC_TOTAL_WIDTH : Z;
  LTDC_MIN_ACC_TOTAL_HEIGHT : Z; LTDC_MAX_ACC_TOTAL_HEIGHT : Z;
  LTDC_MIN_FRAME_WIDTH_BYTES : Z; LTDC_MAX_FRAME_WIDTH_BYTES : Z;
  LTDC_MIN_FRAME_HEIGHT_LINES : Z; LTDC_MAX_FRAME_HEIGHT_LINES : Z
}.

(** [#define LTDC_LxBFCR_BF (LTDC_LxBFCR_BF1 | LTDC_LxBFCR_BF2)] *)
Definition LTDC_LxBFCR_BF {hw : ltdc_hw} : Z :=
  Z.lor LTDC_LxBFCR_BF1 LTDC_LxBFCR_BF2.

(** Modelled from the spec: the values of the absent headers.  The spec
    leaves them to the target ("bitfield layouts are those of the target
    silicon", bounds under "implementation-independent symbolic names"); the
    values here are those of the LTDC of the STM32F4: the frame length
    register holds the pitch in a 13-bit field of its high half, from bit 16,
    and the line length in its low 13 bits; line counts are 11 bits wide,
    horizontal positions 12 bits; the screen is at most 800x600; a line is at
    most 8188 bytes, so that the length plus 3 fits its field.  The general
    statements below do not depend on this instance; the scenarios are
    evaluated on it. *)
Definition stm32f4_hw : ltdc_hw := {|
  LTDC_SSCR_HSW := 0x0FFF0000;  LTDC_SSCR_VSH := 0x000007FF;
  LTDC_BPCR_AHBP := 0x0FFF0000; LTDC_BPCR_AVBP := 0x000007FF;
  LTDC_AWCR_AAW := 0x0FFF0000;  LTDC_AWCR_AAH := 0x000007FF;
  LTDC_TWCR_TOTALW := 0x0FFF0000; LTDC_TWCR_TOTALH := 0x000007FF;
  LTDC_GCR_LTDCEN := 0x00000001;
  LTDC_SRCR_IMR := 0x00000001;  LTDC_SRCR_VBR := 0x00000002;
  LTDC_IER_LIE := 0x00000001; LTDC_IER_FUIE := 0x00000002;
  LTDC_IER_TERRIE := 0x00000004; LTDC_IER_RRIE := 0x00000008;
  LTDC_ISR_LIF := 0x00000001; LTDC_ISR_RRIF := 0x00000008;
  LTDC_ICR_CLIF := 0x00000001; LTDC_ICR_CRRIF := 0x00000008;
  LTDC_LxCR_LEN := 0x00000001; LTDC_LxCR_COLKEN := 0x00000002;
  LTDC_LxCR_CLUTEN := 0x00000010;
  LTDC_LxWHPCR_WHSTPOS := 0x00000FFF; LTDC_LxWHPCR_WHSPPOS := 0xFFFF0000;
  LTDC_LxWVPCR_WVSTPOS := 0x00000FFF; LTDC_LxWVPCR_WVSPPOS := 0xFFFF0000;
  LTDC_LxPFCR_PF := 0x00000007;
  LTDC_LxCACR_CONSTA := 0x000000FF;
  LTDC_LxBFCR_BF1 := 0x00000700; LTDC_LxBFCR_BF2 := 0x00000007;
  LTDC_LxCFBAR_CFBADD := 0xFFFFFFFF;
  LTDC_LxCFBLR_CFBP := 0x1FFF0000; LTDC_LxCFBLR_CFBLL := 0x00001FFF;
  LTDC_LxCFBLNR_CFBLNBR := 0x000007FF;
  LTDC_EF_ENABLE := 0x00000001; LTDC_EF_MASK := 0xF0010001;
  LTDC_LEF_MASK := 0x00000013;
  LTDC_COLOR_BLACK := 0xFF000000; LTDC_BLEND_FIX1_FIX2 := 0x0405;
  LTDC_MIN_HSYNC_WIDTH := 1; LTDC_MAX_HSYNC_WIDTH := 4096;
  LTDC_MIN_VSYNC_HEIGHT := 1; LTDC_MAX_VSYNC_HEIGHT := 2048;
  LTDC_MIN_HBP_WIDTH := 0; LTDC_MAX_HBP_WIDTH := 4096;
  LTDC_MIN_VBP_HEIGHT := 0; LTDC_MAX_VBP_HEIGHT := 2048;
  LTDC_MIN_ACC_HBP_WIDTH := 1; LTDC_MAX_ACC_HBP_WIDTH := 4096;
  LTDC_MIN_ACC_VBP_HEIGHT := 1; LTDC_MAX_ACC_VBP_HEIGHT := 2048;
  LTDC_MIN_SCREEN_WIDTH := 1; LTDC_MAX_SCREEN_WIDTH := 800;
  LTDC_MIN_SCREEN_HEIGHT := 1; LTDC_MAX_SCREEN_HEIGHT := 600;
  LTDC_MIN_ACC_ACTIVE_WIDTH := 1; LTDC_MAX_ACC_ACTIVE_WIDTH := 4096;
  LTDC_MIN_ACC_ACTIVE_HEIGHT := 1; LTDC_MAX_ACC_ACTIVE_HEIGHT := 2048;
  LTDC_MIN_HFP_WIDTH := 0; LTDC_MAX_HFP_WIDTH := 4096;
  LTDC_MIN_VFP_HEIGHT := 0; LTDC_MAX_VFP_HEIGHT := 2048;
  LTDC_MIN_ACC_TOTAL_WIDTH := 1; LTDC_MAX_ACC_TOTAL_WIDTH := 4096;
  LTDC_MIN_ACC_TOTAL_HEIGHT := 1; LTDC_MAX_ACC_TOTAL_HEIGHT := 2048;
  LTDC_MIN_FRAME_WIDTH_BYTES := 0; LTDC_MAX_FRAME_WIDTH_BYTES := 8188;
  LTDC_MIN_FRAME_HEIGHT_LINES := 0; LTDC_MAX_FRAME_HEIGHT_LINES := 2047
|}.

(** ** Data model of the LTDC driver *)

(** [ltdc_state_t] *)
Inductive ltdc_state_t : Type :=
| LTDC_UNINIT | LTDC_STOP | LTDC_READY | LTDC_ACTIVE.

Definition ltdc_state_eqb (a b : ltdc_state_t) : bool :=
  match a, b with
  | LTDC_UNINIT, LTDC_UNINIT | LTDC_STOP, LTDC_STOP
  | LTDC_READY, LTDC_READY | LTDC_ACTIVE, LTDC_ACTIVE => true
  | _, _ => false
  end.

(** [ltdc_window_t]: four [uint16_t] coordinates. *)
Record ltdc_window_t : Type := mk_window {
  hstart : Z; hstop : Z; vstart : Z; vstop : Z
}.

(** A window whose coordinates are [uint16_t] values. *)
Definition window_in_range (win : ltdc_window_t) : Prop :=
  is_u16 (hstart win) /\ is_u16 (hstop win)
  /\ is_u16 (vstart win) /\ is_u16 (vstop win).

(** [ltdc_frame_t]: buffer address, pitch ([size_t]), width and height
    ([uint16_t]), pixel format. *)
Record ltdc_frame_t : Type := mk_frame {
  bufferp : Z; pitch : Z; width : Z; height : Z; fmt : Z
}.

(** [ltdc_laycfg_t]; a pointer member is [None] when it is [NULL]. *)
Record ltdc_laycfg_t : Type := mk_laycfg {
  frame : option ltdc_frame_t;
  window : option ltdc_window_t;
  def_color : Z;
  const_alpha : Z;
  key_color : Z;
  pal_colors : option (list Z);
  pal_length : Z;
  blending : Z;
  flags : Z
}.

(** An interrupt callback ([ltdcisr_t]), named by the address of its code. *)
Definition ltdcisr_t : Type := Z.

(** [LTDCConfig] *)
Record LTDCConfig : Type := mk_config {
  screen_width : Z; screen_height : Z;
  hsync_width : Z; vsync_height : Z;
  hbp_width : Z; vbp_height : Z;
  hfp_width : Z; vfp_height : Z;
  cfg_flags : Z;
  line_isr : option ltdcisr_t;
  rr_isr : option ltdcisr_t;
  fuerr_isr : option ltdcisr_t;
  terr_isr : option ltdcisr_t;
  clear_color : Z;
  bg_laycfg : option ltdc_laycfg_t;
  fg_laycfg : option ltdc_laycfg_t
}.

(** A [Thread *], by its address. *)
Definition Thread_ptr : Type := Z.

(** [LTDCDriver] (the mutex of [LTDC_USE_MUTUAL_EXCLUSION] is left out). *)
Record LTDCDriver : Type := mk_driver {
  state : ltdc_state_t;
  config : option LTDCConfig;
  active_window : ltdc_window_t;
  thread : option Thread_ptr
}.

(** The global register block [LTDC], the registers the driver code names. *)
Record LTDC_TypeDef : Type := mk_LTDC {
  SSCR : Z; BPCR : Z; AWCR : Z; TWCR : Z; GCR : Z; SRCR : Z; BCCR : Z;
  IER : Z; ISR : Z; ICR : Z
}.

(** A layer register block ([LTDC_Layer1], [LTDC_Layer2]).  [CLUTWR] is a
    write port: every store loads one palette entry, so the block keeps the
    words stored there, oldest first. *)
Record LTDC_Layer_TypeDef : Type := mk_Layer {
  CR : Z; WHPCR : Z; WVPCR : Z; CKCR : Z; PFCR : Z; CACR : Z; DCCR : Z;
  BFCR : Z; CFBAR : Z; CFBLR : Z; CFBLNR : Z; CLUTWR : list Z
}.

(** The two interrupt vectors of the peripheral. *)
Inductive ltdc_vector : Type := STM32_LTDC_EV_NUMBER | STM32_LTDC_ER_NUMBER.

(** Modelled from the spec: [RDY_OK] of the kernel, the "success message"
    handed to a woken task. *)
Definition RDY_OK : Z := 0.

(** What the driver does to the kernel and to its own state field, in the
    order it does it. *)
Inductive ltdc_event : Type :=
| EvSysLock | EvSysUnlock
| EvSysLockFromIsr | EvSysUnlockFromIsr
| EvNvicEnableVector (n : ltdc_vector)
| EvCallback (f : ltdcisr_t)
| EvSchReadyI (tp : Thread_ptr) (rdymsg : Z)
| EvSchGoSleepS (tp : Thread_ptr)
| EvState (s : ltdc_state_t).

(** The machine the driver runs on: the registers and the driver object
    [LTDCD1]. *)
Record ltdc_machine : Type := mk_machine {
  LTDC : LTDC_TypeDef;
  LTDC_Layer1 : LTDC_Layer_TypeDef;
  LTDC_Layer2 : LTDC_Layer_TypeDef;
  LTDCD1 : LTDCDriver
}.

(** The machine together with the record of events, oldest first. *)
Record ltdc_world : Type := mk_world {
  mach : ltdc_machine;
  events : list ltdc_event
}.

(** *** Field updates *)

Definition set_SSCR (v : Z) (r : LTDC_TypeDef) : LTDC_TypeDef :=
  mk_LTDC v (BPCR r) (AWCR r) (TWCR r) (GCR r) (SRCR r) (BCCR r) (IER r) (ISR r) (ICR r).
Definition set_BPCR (v : Z) (r : LTDC_TypeDef) : LTDC_TypeDef :=
  mk_LTDC (SSCR r) v (AWCR r) (TWCR r) (GCR r) (SRCR r) (BCCR r) (IER r) (ISR r) (ICR r).
Definition set_AWCR (v : Z) (r : LTDC_TypeDef) : LTDC_TypeDef :=
  mk_LTDC (SSCR r) (BPCR r) v (TWCR r) (GCR r) (SRCR r) (BCCR r) (IER r) (ISR r) (ICR r).
Definition set_TWCR (v : Z) (r : LTDC_TypeDef) : LTDC_TypeDef :=
  mk_LTDC (SSCR r) (BPCR r) (AWCR r) v (GCR r) (SRCR r) (BCCR r) (IER r) (ISR r) (ICR r).
Definition set_GCR (v : Z) (r : LTDC_TypeDef) : LTDC_TypeDef :=
  mk_LTDC (SSCR r) (BPCR r) (AWCR r) (TWCR r) v (SRCR r) (BCCR r) (IER r) (ISR r) (ICR r).
Definition set_SRCR (v : Z) (r : LTDC_TypeDef) : LTDC_TypeDef :=
  mk_LTDC (SSCR r) (BPCR r) (AWCR r) (TWCR r) (GCR r) v (BCCR r) (IER r) (ISR r) (ICR r).
Definition set_BCCR (v : Z) (r : LTDC_TypeDef) : LTDC_TypeDef :=
  mk_LTDC (SSCR r) (BPCR r) (AWCR r) (TWCR r) (GCR r) (SRCR r) v (IER r) (ISR r) (ICR r).
Definition set_IER (v : Z) (r : LTDC_TypeDef) : LTDC_TypeDef :=
  mk_LTDC (SSCR r) (BPCR r) (AWCR r) (TWCR r) (GCR r) (SRCR r) (BCCR r) v (ISR r) (ICR r).
(** The controller raising or dropping flags of the interrupt status register. *)
Definition set_ISR (v : Z) (r : LTDC_TypeDef) : LTDC_TypeDef :=
  mk_LTDC (SSCR r) (BPCR r) (AWCR r) (TWCR r) (GCR r) (SRCR r) (BCCR r) (IER r) v (ICR r).
Definition set_ICR (v : Z) (r : LTDC_TypeDef) : LTDC_TypeDef :=
  mk_LTDC (SSCR r) (BPCR r) (AWCR r) (TWCR r) (GCR r) (SRCR r) (BCCR r) (IER r) (ISR r) v.

Definition set_CR (v : Z) (r : LTDC_Layer_TypeDef) : LTDC_Layer_TypeDef :=
  mk_Layer v (WHPCR r) (WVPCR r) (CKCR r) (PFCR r) (CACR r) (DCCR r) (BFCR r)
           (CFBAR r) (CFBLR r) (CFBLNR r) (CLUTWR r).
Definition set_WHPCR (v : Z) (r : LTDC_Layer_TypeDef) : LTDC_Layer_TypeDef :=
  mk_Layer (CR r) v (WVPCR r) (CKCR r) (PFCR r) (CACR r) (DCCR r) (BFCR r)
           (CFBAR r) (CFBLR r) (CFBLNR r) (CLUTWR r).
Definition set_WVPCR (v : Z) (r : LTDC_Layer_TypeDef) : LTDC_Layer_TypeDef :=
  mk_Layer (CR r) (WHPCR r) v (CKCR r) (PFCR r) (CACR r) (DCCR r) (BFCR r)
           (CFBAR r) (CFBLR r) (CFBLNR r) (CLUTWR r).
Definition set_CKCR (v : Z) (r : LTDC_Layer_TypeDef) : LTDC_Layer_TypeDef :=
  mk_Layer (CR r) (WHPCR r) (WVPCR r) v (PFCR r) (CACR r) (DCCR r) (BFCR r)
           (CFBAR r) (CFBLR r) (CFBLNR r) (CLUTWR r).
Definition set_PFCR (v : Z) (r : LTDC_Layer_TypeDef) : LTDC_Layer_TypeDef :=
  mk_Layer (CR r) (WHPCR r) (WVPCR r) (CKCR r) v (CACR r) (DCCR r) (BFCR r)
           (CFBAR r) (CFBLR r) (CFBLNR r) (CLUTWR r).
Definition set_CACR (v : Z) (r : LTDC_Layer_TypeDef) : LTDC_Layer_TypeDef :=
  mk_Layer (CR r) (WHPCR r) (WVPCR r) (CKCR r) (PFCR r) v (DCCR r) (BFCR r)
           (CFBAR r) (CFBLR r) (CFBLNR r) (CLUTWR r).
Definition set_DCCR (v : Z) (r : LTDC_Layer_TypeDef) : LTDC_Layer_TypeDef :=
  mk_Layer (CR r) (WHPCR r) (WVPCR r) (CKCR r) (PFCR r) (CACR r) v (BFCR r)
           (CFBAR r) (CFBLR r) (CFBLNR r) (CLUTWR r).
Definition set_BFCR (v : Z) (r : LTDC_Layer_TypeDef) : LTDC_Layer_TypeDef :=
  mk_Layer (CR r) (WHPCR r) (WVPCR r) (CKCR r) (PFCR r) (CACR r) (DCCR r) v
           (CFBAR r) (CFBLR r) (CFBLNR r) (CLUTWR r).
Definition set_CFBAR (v : Z) (r : LTDC_Layer_TypeDef) : LTDC_Layer_TypeDef :=
  mk_Layer (CR r) (WHPCR r) (WVPCR r) (CKCR r) (PFCR r) (CACR r) (DCCR r) (BFCR r)
           v (CFBLR r) (CFBLNR r) (CLUTWR r).
Definition set_CFBLR (v : Z) (r : LTDC_Layer_TypeDef) : LTDC_Layer_TypeDef :=
  mk_Layer (CR r) (WHPCR r) (WVPCR r) (CKCR r) (PFCR r) (CACR r) (DCCR r) (BFCR r)
           (CFBAR r) v (CFBLNR r) (CLUTWR r).
Definition set_CFBLNR (v : Z) (r : LTDC_Layer_TypeDef) : LTDC_Layer_TypeDef :=
  mk_Layer (CR r) (WHPCR r) (WVPCR r) (CKCR r) (PFCR r) (CACR r) (DCCR r) (BFCR r)
           (CFBAR r) (CFBLR r) v (CLUTWR r).
(** A store to the palette write port. *)
Definition store_CLUTWR (v : Z) (r : LTDC_Layer_TypeDef) : LTDC_Layer_TypeDef :=
  mk_Layer (CR r) (WHPCR r) (WVPCR r) (CKCR r) (PFCR r) (CACR r) (DCCR r) (BFCR r)
           (CFBAR r) (CFBLR r) (CFBLNR r) (CLUTWR r ++ [v]).

(** Several stores to the palette write port, in the order of [vs]. *)
Definition stores_CLUTWR (vs : list Z) (r : LTDC_Layer_TypeDef) : LTDC_Layer_TypeDef :=
  mk_Layer (CR r) (WHPCR r) (WVPCR r) (CKCR r) (PFCR r) (CACR r) (DCCR r) (BFCR r)
           (CFBAR r) (CFBLR r) (CFBLNR r) (CLUTWR r ++ vs).

Definition set_state (v : ltdc_state_t) (d : LTDCDriver) : LTDCDriver :=
  mk_driver v (config d) (active_window d) (thread d).
Definition set_config (v : option LTDCConfig) (d : LTDCDriver) : LTDCDriver :=
  mk_driver (state d) v (active_window d) (thread d).
Definition set_active_window (v : ltdc_window_t) (d : LTDCDriver) : LTDCDriver :=
  mk_driver (state d) (config d) v (thread d).
Definition set_thread (v : option Thread_ptr) (d : LTDCDriver) : LTDCDriver :=
  mk_driver (state d) (config d) (active_window d) v.

Definition set_hstart (v : Z) (w : ltdc_window_t) : ltdc_window_t :=
  mk_window v (hstop w) (vstart w) (vstop w).
Definition set_hstop (v : Z) (w : ltdc_window_t) : ltdc_window_t :=
  mk_window (hstart w) v (vstart w) (vstop w).
Definition set_vstart (v : Z) (w : ltdc_window_t) : ltdc_window_t :=
  mk_window (hstart w) (hstop w) v (vstop w).
Definition set_vstop (v : Z) (w : ltdc_window_t) : ltdc_window_t :=
  mk_window (hstart w) (hstop w) (vstart w) v.

(** The two layers: background is [LTDC_Layer1], foreground [LTDC_Layer2]. *)
Inductive ltdc_layer : Type := Bg | Fg.

Definition layer_regs (l : ltdc_layer) (m : ltdc_machine) : LTDC_Layer_TypeDef :=
  match l with Bg => LTDC_Layer1 m | Fg => LTDC_Layer2 m end.

Definition upd_LTDC (f : LTDC_TypeDef -> LTDC_TypeDef) (w : ltdc_world) : ltdc_world :=
  let m := mach w in
  mk_world (mk_machine (f (LTDC m)) (LTDC_Layer1 m) (LTDC_Layer2 m) (LTDCD1 m))
           (events w).

Definition upd_layer (l : ltdc_layer) (f : LTDC_Layer_TypeDef -> LTDC_Layer_TypeDef)
    (w : ltdc_world) : ltdc_world :=
  let m := mach w in
  match l with
  | Bg => mk_world (mk_machine (LTDC m) (f (LTDC_Layer1 m)) (LTDC_Layer2 m) (LTDCD1 m))
                   (events w)
  | Fg => mk_world (mk_machine (LTDC m) (LTDC_Layer1 m) (f (LTDC_Layer2 m)) (LTDCD1 m))
                   (events w)
  end.

Definition upd_driver (f : LTDCDriver -> LTDCDriver) (w : ltdc_world) : ltdc_world :=
  let m := mach w in
  mk_world (mk_machine (LTDC m) (LTDC_Layer1 m) (LTDC_Layer2 m) (f (LTDCD1 m)))
           (events w).

Definition log_event (e : ltdc_event) (w : ltdc_world) : ltdc_world :=
  mk_world (mach w) (events w ++ [e]).

(** *** Register and driver-object accesses as computations *)

(** Reads [LTDC->R]. *)
Definition LTDC_rd (R : LTDC_TypeDef -> Z) : M ltdc_world Z :=
  gets (fun w => R (LTDC (mach w))).
(** [LTDC->R = v]. *)
Definition LTDC_wr (set_R : Z -> LTDC_TypeDef -> LTDC_TypeDef) (v : Z)
    : M ltdc_world unit :=
  modify (upd_LTDC (set_R v)).
(** Reads [LTDC_LayerN->R]. *)
Definition Lx_rd (l : ltdc_layer) (R : LTDC_Layer_TypeDef -> Z) : M ltdc_world Z :=
  gets (fun w => R (layer_regs l (mach w))).
(** [LTDC_LayerN->R = v]. *)
Definition Lx_wr (l : ltdc_layer)
    (set_R : Z -> LTDC_Layer_TypeDef -> LTDC_Layer_TypeDef) (v : Z)
    : M ltdc_world unit :=
  modify (upd_layer l (set_R v)).
(** Reads a member of [*ltdcp]. *)
Definition drv_rd {A : Type} (f : LTDCDriver -> A) : M ltdc_world A :=
  gets (fun w => f (LTDCD1 (mach w))).
(** Stores to a member of [*ltdcp]. *)
Definition drv_wr {A : Type} (set_f : A -> LTDCDriver -> LTDCDriver) (v : A)
    : M ltdc_world unit :=
  modify (upd_driver (set_f v)).
Definition emit (e : ltdc_event) : M ltdc_world unit :=
  modify (log_event e).

(** [ltdcp->state = s]: the store, and its record among the events. *)
Definition store_state (s : ltdc_state_t) : M ltdc_world unit :=
  drv_wr set_state s ;; emit (EvState s).

(** [ltdcp->config->...]: dereferencing a null [config] faults. *)
Definition drv_config : M ltdc_world LTDCConfig :=
  c <- drv_rd config ;;
  match c with
  | Some cfg => ret cfg
  | None => chDbgPanic "null pointer: ltdcp->config"
  end.

(** The name of a layer function: [ltdcBg...] or [ltdcFg...]. *)
Definition fn (l : ltdc_layer) (name : string) : string :=
  ("ltdc" ++ (match l with Bg => "Bg" | Fg => "Fg" end) ++ name)%string.

(** ** The LTDC driver (stm32_ltdc.c)

    The driver is a singleton: every entry point checks [ltdcp == &LTDCD1].
    The embedding passes no pointer and works on the one driver object, so it
    describes the calls for which that check holds. *)

Section Driver.
Context {hw : ltdc_hw}.

(** [static const ltdc_frame_t ltdc_invalid_frame] *)
Definition ltdc_invalid_frame : ltdc_frame_t :=
  mk_frame 0 1 1 1 LTDC_FMT_L8.

(** [static const ltdc_window_t ltdc_invalid_window] *)
Definition ltdc_invalid_window : ltdc_window_t :=
  mk_window 0 1 0 1.

(** [static const ltdc_laycfg_t ltdc_default_laycfg] *)
Definition ltdc_default_laycfg : ltdc_laycfg_t :=
  mk_laycfg (Some ltdc_invalid_frame) (Some ltdc_invalid_window)
            LTDC_COLOR_BLACK 0x00 LTDC_COLOR_BLACK None 0
            LTDC_BLEND_FIX1_FIX2 0.

(** [while (LTDC->SRCR & mask) chSchDoYieldS();]  The loop is left when the
    controller has cleared the request bits of [mask]; the controller is taken
    to complete every reload it is asked for, and the registers are otherwise
    as the driver wrote them. *)
Definition poll_SRCR (mask : Z) : M ltdc_world unit :=
  r <- LTDC_rd SRCR ;;
  LTDC_wr set_SRCR (Z.land r (not32 mask)).

(** [static void ltdc_force_reload_s(LTDCDriver *ltdcp)] *)
Definition ltdc_force_reload_s : M ltdc_world unit :=
  r <- LTDC_rd SRCR ;;
  LTDC_wr set_SRCR (Z.lor r LTDC_SRCR_IMR) ;;
  poll_SRCR (Z.lor LTDC_SRCR_IMR LTDC_SRCR_VBR).

(** [void ltdcObjectInit(LTDCDriver *ltdcp)] *)
Definition ltdcObjectInit : M ltdc_world unit :=
  store_state LTDC_UNINIT ;;
  drv_wr set_config None ;;
  drv_wr set_active_window ltdc_invalid_window ;;
  drv_wr set_thread None.

(** [void ltdcInit(void)]; the reset and the clock of the peripheral are
    programmed through the RCC, which is outside this machine. *)
Definition ltdcInit : M ltdc_world unit :=
  ltdcObjectInit ;;
  store_state LTDC_STOP.

(** [ltdc_state_t ltdcGetStateI(LTDCDriver *ltdcp)] *)
Definition ltdcGetStateI : M ltdc_world ltdc_state_t :=
  drv_rd state.

(** [void ltdcSetEnableFlagsI(LTDCDriver *ltdcp, ltdc_flags_t flags)] *)
Definition ltdcSetEnableFlagsI (flags : Z) : M ltdc_world unit :=
  LTDC_wr set_GCR (Z.land flags LTDC_EF_MASK).

(** [bool_t ltdcIsReloadingI(LTDCDriver *ltdcp)] *)
Definition ltdcIsReloadingI : M ltdc_world bool :=
  r <- LTDC_rd SRCR ;;
  ret (nonzero (Z.land r (Z.lor LTDC_SRCR_IMR LTDC_SRCR_VBR))).

(** [void ltdcStartReloadI(LTDCDriver *ltdcp, bool_t immediately)] *)
Definition ltdcStartReloadI (immediately : bool) : M ltdc_world unit :=
  st <- drv_rd state ;;
  chDbgAssert (ltdc_state_eqb st LTDC_READY) "ltdcStartReloadI(), #1" ;;
  store_state LTDC_ACTIVE ;;
  r <- LTDC_rd SRCR ;;
  if immediately
  then LTDC_wr set_SRCR (Z.lor r LTDC_SRCR_IMR)
  else LTDC_wr set_SRCR (Z.lor r LTDC_SRCR_VBR).

(** [void ltdcReloadS(LTDCDriver *ltdcp, bool_t immediately)], called by the
    thread [self] ([chThdSelf()]).  On a deferred reload the caller is parked
    and put to sleep; it resumes, with nothing left to do, when the handler of
    the reload interrupt readies it. *)
Definition ltdcReloadS (self : Thread_ptr) (immediately : bool) : M ltdc_world unit :=
  ltdcStartReloadI immediately ;;
  th <- drv_rd thread ;;
  chDbgAssert (match th with None => true | Some _ => false end)
              "ltdcReloadS(), #1" ;;
  if immediately
  then poll_SRCR LTDC_SRCR_IMR ;;
       store_state LTDC_READY
  else drv_wr set_thread (Some self) ;;
       emit (EvSchGoSleepS self).

(** [void ltdcSetClearColorI(LTDCDriver *ltdcp, ltdc_color_t c)] *)
Definition ltdcSetClearColorI (c : Z) : M ltdc_world unit :=
  r <- LTDC_rd BCCR ;;
  LTDC_wr set_BCCR (Z.lor (Z.land r (not32 0x00FFFFFF)) (Z.land c 0x00FFFFFF)).

(** *** Layer methods

    The background functions ([ltdcBg...], on [LTDC_Layer1]) and the
    foreground functions ([ltdcFg...], on [LTDC_Layer2]) are the same text up
    to the name and the register block; each pair is one definition over the
    layer, and the source's names are its two instances. *)

(** [ltdc_flags_t ltdcBgGetEnableFlagsI(LTDCDriver *ltdcp)] *)
Definition ltdcLxGetEnableFlagsI (l : ltdc_layer) : M ltdc_world Z :=
  r <- Lx_rd l CR ;;
  ret (Z.land r LTDC_LEF_MASK).

(** [void ltdcBgSetEnableFlagsI(LTDCDriver *ltdcp, ltdc_flags_t flags)] *)
Definition ltdcLxSetEnableFlagsI (l : ltdc_layer) (flags : Z) : M ltdc_world unit :=
  r <- Lx_rd l CR ;;
  Lx_wr l set_CR (Z.lor (Z.land r (not32 LTDC_LEF_MASK))
                        (Z.land (u32 flags) LTDC_LEF_MASK)).

(** [bool_t ltdcBgIsEnabledI(LTDCDriver *ltdcp)] *)
Definition ltdcLxIsEnabledI (l : ltdc_layer) : M ltdc_world bool :=
  r <- Lx_rd l CR ;;
  ret (nonzero (Z.land r (not32 LTDC_LxCR_LEN))).

(** [void ltdcBgEnableI(LTDCDriver *ltdcp)] *)
Definition ltdcLxEnableI (l : ltdc_layer) : M ltdc_world unit :=
  r <- Lx_rd l CR ;;
  Lx_wr l set_CR (Z.lor r LTDC_LxCR_LEN).

(** [void ltdcBgDisableI(LTDCDriver *ltdcp)] *)
Definition ltdcLxDisableI (l : ltdc_layer) : M ltdc_world unit :=
  r <- Lx_rd l CR ;;
  Lx_wr l set_CR (Z.land r (not32 LTDC_LxCR_LEN)).

(** [bool_t ltdcBgIsPaletteEnabledI(LTDCDriver *ltdcp)] *)
Definition ltdcLxIsPaletteEnabledI (l : ltdc_layer) : M ltdc_world bool :=
  r <- Lx_rd l CR ;;
  ret (nonzero (Z.land r (not32 LTDC_LxCR_CLUTEN))).

(** [void ltdcBgEnablePaletteI(LTDCDriver *ltdcp)] *)
Definition ltdcLxEnablePaletteI (l : ltdc_layer) : M ltdc_world unit :=
  r <- Lx_rd l CR ;;
  Lx_wr l set_CR (Z.lor r LTDC_LxCR_CLUTEN).

(** [void ltdcBgDisablePaletteI(LTDCDriver *ltdcp)] *)
Definition ltdcLxDisablePaletteI (l : ltdc_layer) : M ltdc_world unit :=
  r <- Lx_rd l CR ;;
  Lx_wr l set_CR (Z.land r (not32 LTDC_LxCR_CLUTEN)).

(** [void ltdcBgSetPaletteColorI(LTDCDriver *ltdcp, uint8_t slot, ltdc_color_t c)] *)
Definition ltdcLxSetPaletteColorI (l : ltdc_layer) (slot c : Z) : M ltdc_world unit :=
  en <- ltdcLxIsEnabledI l ;;
  chDbgAssert (negb en) (fn l "SetPaletteColorI(), #1") ;;
  Lx_wr l store_CLUTWR (Z.lor (shl32 (u32 slot) 24) (Z.land c 0x00FFFFFF)).

(** [colors[i]]; a read past the end of the caller's array is a fault. *)
Definition read_color (colors : list Z) (i : Z) : M ltdc_world Z :=
  match nth_error colors (Z.to_nat i) with
  | Some c => ret c
  | None => chDbgPanic "read past the end of colors[]"
  end.

(** [for (i = ...; i < length; ++i) LTDC_LayerN->CLUTWR = ...;] with [n]
    iterations left. *)
Fixpoint palette_loop (l : ltdc_layer) (colors : list Z) (i : Z) (n : nat)
    : M ltdc_world unit :=
  match n with
  | O => ret tt
  | S n' =>
      c <- read_color colors i ;;
      Lx_wr l store_CLUTWR (Z.lor (shl32 (u32 i) 24) (Z.land c 0x00FFFFFF)) ;;
      palette_loop l colors (u16 (i + 1)) n'
  end.

(** [void ltdcBgSetPaletteI(LTDCDriver *ltdcp, const ltdc_color_t colors[],
    uint16_t length)] *)
Definition ltdcLxSetPaletteI (l : ltdc_layer) (colors : option (list Z)) (length : Z)
    : M ltdc_world unit :=
  chDbgCheck (Bool.eqb (match colors with None => true | Some _ => false end)
                       (length =? 0))
             (fn l "SetPaletteI") ;;
  chDbgAssert (length <=? LTDC_MAX_PALETTE_LENGTH) (fn l "SetPaletteI(), #1") ;;
  en <- ltdcLxIsEnabledI l ;;
  chDbgAssert (negb en) (fn l "SetPaletteI(), #2") ;;
  palette_loop l (match colors with Some cs => cs | None => [] end) 0
               (Z.to_nat length).

(** [ltdc_pixfmt_t ltdcBgGetPixelFormatI(LTDCDriver *ltdcp)] *)
Definition ltdcLxGetPixelFormatI (l : ltdc_layer) : M ltdc_world Z :=
  r <- Lx_rd l PFCR ;;
  ret (Z.land r LTDC_LxPFCR_PF).

(** [void ltdcBgSetPixelFormatI(LTDCDriver *ltdcp, ltdc_pixfmt_t fmt)] *)
Definition ltdcLxSetPixelFormatI (l : ltdc_layer) (fmt : Z) : M ltdc_world unit :=
  chDbgAssert (fmt >=? LTDC_MIN_PIXFMT_ID) (fn l "SetPixelFormatI(), #2") ;;
  chDbgAssert (fmt <=? LTDC_MAX_PIXFMT_ID) (fn l "SetPixelFormatI(), #3") ;;
  r <- Lx_rd l PFCR ;;
  Lx_wr l set_PFCR (Z.lor (Z.land r (not32 LTDC_LxPFCR_PF))
                          (Z.land (u32 fmt) LTDC_LxPFCR_PF)).

(** [bool_t ltdcBgIsKeyingEnabledI(LTDCDriver *ltdcp)] *)
Definition ltdcLxIsKeyingEnabledI (l : ltdc_layer) : M ltdc_world bool :=
  r <- Lx_rd l CR ;;
  ret (nonzero (Z.land r (not32 LTDC_LxCR_COLKEN))).

(** [void ltdcBgEnableKeyingI(LTDCDriver *ltdcp)] *)
Definition ltdcLxEnableKeyingI (l : ltdc_layer) : M ltdc_world unit :=
  r <- Lx_rd l CR ;;
  Lx_wr l set_CR (Z.lor r LTDC_LxCR_COLKEN).

(** [void ltdcBgDisableKeyingI(LTDCDriver *ltdcp)] *)
Definition ltdcLxDisableKeyingI (l : ltdc_layer) : M ltdc_world unit :=
  r <- Lx_rd l CR ;;
  Lx_wr l set_CR (Z.land r (not32 LTDC_LxCR_COLKEN)).

(** [void ltdcBgSetKeyingColorI(LTDCDriver *ltdcp, ltdc_color_t c)] *)
Definition ltdcLxSetKeyingColorI (l : ltdc_layer) (c : Z) : M ltdc_world unit :=
  r <- Lx_rd l CKCR ;;
  Lx_wr l set_CKCR (Z.lor (Z.land r (not32 0x00FFFFFF))
                          (Z.land (u32 c) 0x00FFFFFF)).

(** [void ltdcBgSetConstantAlphaI(LTDCDriver *ltdcp, uint8_t a)] *)
Definition ltdcLxSetConstantAlphaI (l : ltdc_layer) (a : Z) : M ltdc_world unit :=
  r <- Lx_rd l CACR ;;
  Lx_wr l set_CACR (Z.lor (Z.land r (not32 LTDC_LxCACR_CONSTA))
                          (Z.land (u32 a) LTDC_LxCACR_CONSTA)).

(** [void ltdcBgSetDefaultColorI(LTDCDriver *ltdcp, ltdc_color_t c)] *)
Definition ltdcLxSetDefaultColorI (l : ltdc_layer) (c : Z) : M ltdc_world unit :=
  Lx_wr l set_DCCR (u32 c).

(** [void ltdcBgSetBlendingFactorsI(LTDCDriver *ltdcp, ltdc_blendf_t bf)] *)
Definition ltdcLxSetBlendingFactorsI (l : ltdc_layer) (bf : Z) : M ltdc_world unit :=
  r <- Lx_rd l BFCR ;;
  Lx_wr l set_BFCR (Z.lor (Z.land r (not32 LTDC_LxBFCR_BF))
                          (Z.land (u32 bf) LTDC_LxBFCR_BF)).

(** [void ltdcBgGetWindowI(LTDCDriver *ltdcp, ltdc_window_t *windowp)]; the
    result is the structure the call leaves at [windowp]. *)
Definition ltdcLxGetWindowI (l : ltdc_layer) (windowp : option ltdc_window_t)
    : M ltdc_world ltdc_window_t :=
  match windowp with
  | None => chDbgPanic (fn l "GetWindowI")
  | Some win =>
      h <- Lx_rd l WHPCR ;;
      let win := set_hstart (u16 (Z.shiftr (Z.land h LTDC_LxWHPCR_WHSTPOS) 0)) win in
      let win := set_hstop (u16 (Z.shiftr (Z.land h LTDC_LxWHPCR_WHSPPOS) 16)) win in
      v <- Lx_rd l WVPCR ;;
      let win := set_vstart (u16 (Z.shiftr (Z.land v LTDC_LxWVPCR_WVSTPOS) 0)) win in
      let win := set_vstop (u16 (Z.shiftr (Z.land v LTDC_LxWVPCR_WVSPPOS) 16)) win in
      ret win
  end.

(** [void ltdcBgSetWindowI(LTDCDriver *ltdcp, const ltdc_window_t *windowp)] *)
Definition ltdcLxSetWindowI (l : ltdc_layer) (windowp : option ltdc_window_t)
    : M ltdc_world unit :=
  match windowp with
  | None => chDbgPanic (fn l "SetWindowI")
  | Some win =>
      cfg <- drv_config ;;
      chDbgAssert (hstop win <? screen_width cfg) (fn l "SetWindowI(), #11") ;;
      chDbgAssert (vstop win <? screen_height cfg) (fn l "SetWindowI(), #12") ;;
      (* Horizontal boundaries. *)
      aw <- drv_rd active_window ;;
      let start := u32 (u32 (hstart win) + hstart aw) in
      let stop := u32 (u32 (hstop win) + hstart aw) in
      chDbgAssert (start >=? hstart aw) (fn l "SetWindowI(), #21") ;;
      chDbgAssert (stop <=? hstop aw) (fn l "SetWindowI(), #22") ;;
      Lx_wr l set_WHPCR (Z.lor (Z.land (shl32 start 0) LTDC_LxWHPCR_WHSTPOS)
                               (Z.land (shl32 stop 16) LTDC_LxWHPCR_WHSPPOS)) ;;
      (* Vertical boundaries. *)
      aw <- drv_rd active_window ;;
      let start := u32 (u32 (vstart win) + vstart aw) in
      let stop := u32 (u32 (vstop win) + vstart aw) in
      chDbgAssert (start >=? vstart aw) (fn l "SetWindowI(), #31") ;;
      chDbgAssert (stop <=? vstop aw) (fn l "SetWindowI(), #32") ;;
      Lx_wr l set_WVPCR (Z.lor (Z.land (shl32 start 0) LTDC_LxWVPCR_WVSTPOS)
                               (Z.land (shl32 stop 16) LTDC_LxWVPCR_WVSPPOS))
  end.

(** [void ltdcBgSetInvalidWindowI(LTDCDriver *ltdcp)] *)
Definition ltdcLxSetInvalidWindowI (l : ltdc_layer) : M ltdc_world unit :=
  ltdcLxSetWindowI l (Some ltdc_invalid_window).

(** [void ltdcBgGetFrameI(LTDCDriver *ltdcp, ltdc_frame_t *framep)]; the result
    is the structure the call leaves at [framep].  The function stores to the
    members [bufferp], [pitch], [width] and [height]. *)
Definition ltdcLxGetFrameI (l : ltdc_layer) (framep : option ltdc_frame_t)
    : M ltdc_world ltdc_frame_t :=
  match framep with
  | None => chDbgPanic (fn l "GetFrameI")
  | Some f =>
      a <- Lx_rd l CFBAR ;;
      let new_bufferp := Z.land a LTDC_LxCFBAR_CFBADD in
      r <- Lx_rd l CFBLR ;;
      let new_pitch := Z.shiftr (Z.land r LTDC_LxCFBLR_CFBP) 16 in
      r <- Lx_rd l CFBLR ;;
      pf <- ltdcLxGetPixelFormatI l ;;
      bytes <- lift (ltdcBytesPerPixel pf) ;;
      let new_width := u16 (u32 (Z.land r LTDC_LxCFBLR_CFBLL - 3) / bytes) in
      n <- Lx_rd l CFBLNR ;;
      let new_height := u16 (Z.land n LTDC_LxCFBLNR_CFBLNBR) in
      ret (mk_frame new_bufferp new_pitch new_width new_height (fmt f))
  end.

(** [void ltdcBgSetFrameI(LTDCDriver *ltdcp, const ltdc_frame_t *framep)] *)
Definition ltdcLxSetFrameI (l : ltdc_layer) (framep : option ltdc_frame_t)
    : M ltdc_world unit :=
  match framep with
  | None => chDbgPanic (fn l "SetFrameI")
  | Some f =>
      ltdcLxSetPixelFormatI l (fmt f) ;;
      bytes <- lift (ltdcBytesPerPixel (fmt f)) ;;
      let linesize := u32 (bytes * width f) in
      cfg <- drv_config ;;
      chDbgAssert (width f <=? screen_width cfg) (fn l "SetFrameI(), #1") ;;
      chDbgAssert (height f <=? screen_height cfg) (fn l "SetFrameI(), #2") ;;
      chDbgAssert (linesize >=? LTDC_MIN_FRAME_WIDTH_BYTES) (fn l "SetFrameI(), #3") ;;
      chDbgAssert (linesize <=? LTDC_MAX_FRAME_WIDTH_BYTES) (fn l "SetFrameI(), #4") ;;
      chDbgAssert (height f >=? LTDC_MIN_FRAME_HEIGHT_LINES) (fn l "SetFrameI(), #5") ;;
      chDbgAssert (height f <=? LTDC_MAX_FRAME_HEIGHT_LINES) (fn l "SetFrameI(), #6") ;;
      chDbgAssert (pitch f >=? linesize) (fn l "SetFrameI(), #7") ;;
      Lx_wr l set_CFBAR (Z.land (u32 (bufferp f)) LTDC_LxCFBAR_CFBADD) ;;
      Lx_wr l set_CFBLR (Z.lor (Z.land (shl32 (u32 (pitch f)) 16) LTDC_LxCFBLR_CFBP)
                               (Z.land (u32 (linesize + 3)) LTDC_LxCFBLR_CFBLL)) ;;
      Lx_wr l set_CFBLNR (Z.land (u32 (height f)) LTDC_LxCFBLNR_CFBLNBR)
  end.

(** [void *ltdcBgGetFrameAddressI(LTDCDriver *ltdcp)] *)
Definition ltdcLxGetFrameAddressI (l : ltdc_layer) : M ltdc_world Z :=
  Lx_rd l CFBAR.

(** [void ltdcBgSetFrameAddressI(LTDCDriver *ltdcp, void *bufferp)] *)
Definition ltdcLxSetFrameAddressI (l : ltdc_layer) (bufferp : Z) : M ltdc_world unit :=
  Lx_wr l set_CFBAR (u32 bufferp).

(** [void ltdcBgSetConfigI(LTDCDriver *ltdcp, const ltdc_laycfg_t *cfgp)] *)
Definition ltdcLxSetConfigI (l : ltdc_layer) (cfgp : option ltdc_laycfg_t)
    : M ltdc_world unit :=
  let cfg := match cfgp with None => ltdc_default_laycfg | Some c => c end in
  chDbgCheck (Bool.eqb (match pal_colors cfg with None => true | Some _ => false end)
                       (pal_length cfg =? 0))
             (fn l "SetConfigI") ;;
  ltdcLxSetFrameI l (frame cfg) ;;
  ltdcLxSetWindowI l (window cfg) ;;
  ltdcLxSetDefaultColorI l (def_color cfg) ;;
  ltdcLxSetKeyingColorI l (key_color cfg) ;;
  ltdcLxSetConstantAlphaI l (const_alpha cfg) ;;
  ltdcLxSetBlendingFactorsI l (blending cfg) ;;
  when (pal_length cfg >? 0)
       (ltdcLxSetPaletteI l (pal_colors cfg) (pal_length cfg)) ;;
  ltdcLxSetEnableFlagsI l (flags cfg).

(** The source's names. *)
Definition ltdcBgIsEnabledI := ltdcLxIsEnabledI Bg.
Definition ltdcFgIsEnabledI := ltdcLxIsEnabledI Fg.
Definition ltdcBgIsPaletteEnabledI := ltdcLxIsPaletteEnabledI Bg.
Definition ltdcFgIsPaletteEnabledI := ltdcLxIsPaletteEnabledI Fg.
Definition ltdcBgIsKeyingEnabledI := ltdcLxIsKeyingEnabledI Bg.
Definition ltdcFgIsKeyingEnabledI := ltdcLxIsKeyingEnabledI Fg.
Definition ltdcBgEnableI := ltdcLxEnableI Bg.
Definition ltdcFgEnableI := ltdcLxEnableI Fg.
Definition ltdcBgDisableI := ltdcLxDisableI Bg.
Definition ltdcFgDisableI := ltdcLxDisableI Fg.
Definition ltdcBgSetPaletteColorI := ltdcLxSetPaletteColorI Bg.
Definition ltdcFgSetPaletteColorI := ltdcLxSetPaletteColorI Fg.
Definition ltdcBgSetPaletteI := ltdcLxSetPaletteI Bg.
Definition ltdcFgSetPaletteI := ltdcLxSetPaletteI Fg.
Definition ltdcBgGetPixelFormatI := ltdcLxGetPixelFormatI Bg.
Definition ltdcFgGetPixelFormatI := ltdcLxGetPixelFormatI Fg.
Definition ltdcBgSetPixelFormatI := ltdcLxSetPixelFormatI Bg.
Definition ltdcFgSetPixelFormatI := ltdcLxSetPixelFormatI Fg.
Definition ltdcBgGetWindowI := ltdcLxGetWindowI Bg.
Definition ltdcFgGetWindowI := ltdcLxGetWindowI Fg.
Definition ltdcBgSetWindowI := ltdcLxSetWindowI Bg.
Definition ltdcFgSetWindowI := ltdcLxSetWindowI Fg.
Definition ltdcBgGetFrameI := ltdcLxGetFrameI Bg.
Definition ltdcFgGetFrameI := ltdcLxGetFrameI Fg.
Definition ltdcBgSetFrameI := ltdcLxSetFrameI Bg.
Definition ltdcFgSetFrameI := ltdcLxSetFrameI Fg.
Definition ltdcBgSetConfigI := ltdcLxSetConfigI Bg.
Definition ltdcFgSetConfigI := ltdcLxSetConfigI Fg.

(** [void ltdcStart(LTDCDriver *ltdcp, const LTDCConfig *configp)] *)
Definition ltdcStart (configp : option LTDCConfig) : M ltdc_world unit :=
  emit EvSysLock ;;
  match configp with
  | None => chDbgPanic "ltdcStart"
  | Some cfg =>
      st <- drv_rd state ;;
      chDbgAssert (ltdc_state_eqb st LTDC_STOP) "ltdcStart(), #1" ;;
      drv_wr set_config configp ;;
      (* Turn off the controller and its interrupts. *)
      LTDC_wr set_GCR 0 ;;
      LTDC_wr set_IER 0 ;;
      ltdc_force_reload_s ;;
      (* Set synchronization params. *)
      chDbgAssert (hsync_width cfg >=? LTDC_MIN_HSYNC_WIDTH) "ltdcStart(), #11" ;;
      chDbgAssert (hsync_width cfg <=? LTDC_MAX_HSYNC_WIDTH) "ltdcStart(), #12" ;;
      chDbgAssert (vsync_height cfg >=? LTDC_MIN_VSYNC_HEIGHT) "ltdcStart(), #13" ;;
      chDbgAssert (vsync_height cfg <=? LTDC_MAX_VSYNC_HEIGHT) "ltdcStart(), #14" ;;
      let hacc := u32 (hsync_width cfg - 1) in
      let vacc := u32 (vsync_height cfg - 1) in
      LTDC_wr set_SSCR (Z.lor (Z.land (shl32 hacc 16) LTDC_SSCR_HSW)
                              (Z.land (shl32 vacc 0) LTDC_SSCR_VSH)) ;;
      (* Set accumulated back porch params. *)
      chDbgAssert (hbp_width cfg >=? LTDC_MIN_HBP_WIDTH) "ltdcStart(), #21" ;;
      chDbgAssert (hbp_width cfg <=? LTDC_MAX_HBP_WIDTH) "ltdcStart(), #22" ;;
      chDbgAssert (vbp_height cfg >=? LTDC_MIN_VBP_HEIGHT) "ltdcStart(), #23" ;;
      chDbgAssert (vbp_height cfg <=? LTDC_MAX_VBP_HEIGHT) "ltdcStart(), #24" ;;
      let hacc := u32 (hacc + hbp_width cfg) in
      let vacc := u32 (vacc + vbp_height cfg) in
      chDbgAssert (u32 (hacc + 1) >=? LTDC_MIN_ACC_HBP_WIDTH) "ltdcStart(), #31" ;;
      chDbgAssert (u32 (hacc + 1) <=? LTDC_MAX_ACC_HBP_WIDTH) "ltdcStart(), #32" ;;
      chDbgAssert (u32 (vacc + 1) >=? LTDC_MIN_ACC_VBP_HEIGHT) "ltdcStart(), #33" ;;
      chDbgAssert (u32 (vacc + 1) <=? LTDC_MAX_ACC_VBP_HEIGHT) "ltdcStart(), #34" ;;
      LTDC_wr set_BPCR (Z.lor (Z.land (shl32 hacc 16) LTDC_BPCR_AHBP)
                              (Z.land (shl32 vacc 0) LTDC_BPCR_AVBP)) ;;
      aw <- drv_rd active_window ;;
      drv_wr set_active_window (set_hstart (u16 (hacc + 1)) aw) ;;
      aw <- drv_rd active_window ;;
      drv_wr set_active_window (set_vstart (u16 (vacc + 1)) aw) ;;
      (* Set accumulated active params. *)
      chDbgAssert (screen_width cfg >=? LTDC_MIN_SCREEN_WIDTH) "ltdcStart(), #41" ;;
      chDbgAssert (screen_width cfg <=? LTDC_MAX_SCREEN_WIDTH) "ltdcStart(), #42" ;;
      chDbgAssert (screen_height cfg >=? LTDC_MIN_SCREEN_HEIGHT) "ltdcStart(), #43" ;;
      chDbgAssert (screen_height cfg <=? LTDC_MAX_SCREEN_HEIGHT) "ltdcStart(), #44" ;;
      let hacc := u32 (hacc + screen_width cfg) in
      let vacc := u32 (vacc + screen_height cfg) in
      chDbgAssert (u32 (hacc + 1) >=? LTDC_MIN_ACC_ACTIVE_WIDTH) "ltdcStart(), #51" ;;
      chDbgAssert (u32 (hacc + 1) <=? LTDC_MAX_ACC_ACTIVE_WIDTH) "ltdcStart(), #52" ;;
      chDbgAssert (u32 (vacc + 1) >=? LTDC_MIN_ACC_ACTIVE_HEIGHT) "ltdcStart(), #53" ;;
      chDbgAssert (u32 (vacc + 1) <=? LTDC_MAX_ACC_ACTIVE_HEIGHT) "ltdcStart(), #54" ;;
      LTDC_wr set_AWCR (Z.lor (Z.land (shl32 hacc 16) LTDC_AWCR_AAW)
                              (Z.land (shl32 vacc 0) LTDC_AWCR_AAH)) ;;
      aw <- drv_rd active_window ;;
      drv_wr set_active_window (set_hstop (u16 hacc) aw) ;;
      aw <- drv_rd active_window ;;
      drv_wr set_active_window (set_vstop (u16 vacc) aw) ;;
      (* Set accumulated total params. *)
      chDbgAssert (hfp_width cfg >=? LTDC_MIN_HFP_WIDTH) "ltdcStart(), #61" ;;
      chDbgAssert (hfp_width cfg <=? LTDC_MAX_HFP_WIDTH) "ltdcStart(), #62" ;;
      chDbgAssert (vfp_height cfg >=? LTDC_MIN_VFP_HEIGHT) "ltdcStart(), #63" ;;
      chDbgAssert (vfp_height cfg <=? LTDC_MAX_VFP_HEIGHT) "ltdcStart(), #64" ;;
      let hacc := u32 (hacc + hfp_width cfg) in
      let vacc := u32 (vacc + vfp_height cfg) in
      chDbgAssert (u32 (hacc + 1) >=? LTDC_MIN_ACC_TOTAL_WIDTH) "ltdcStart(), #71" ;;
      chDbgAssert (u32 (hacc + 1) <=? LTDC_MAX_ACC_TOTAL_WIDTH) "ltdcStart(), #72" ;;
      chDbgAssert (u32 (vacc + 1) >=? LTDC_MIN_ACC_TOTAL_HEIGHT) "ltdcStart(), #73" ;;
      chDbgAssert (u32 (vacc + 1) <=? LTDC_MAX_ACC_TOTAL_HEIGHT) "ltdcStart(), #74" ;;
      LTDC_wr set_TWCR (Z.lor (Z.land (shl32 hacc 16) LTDC_TWCR_TOTALW)
                              (Z.land (shl32 vacc 0) LTDC_TWCR_TOTALH)) ;;
      (* Set signal polarities and other flags. *)
      ltdcSetEnableFlagsI (Z.land (cfg_flags cfg) (not32 LTDC_EF_ENABLE)) ;;
      (* Color settings. *)
      ltdcSetClearColorI (clear_color cfg) ;;
      (* Load layer configurations. *)
      ltdcBgSetConfigI (bg_laycfg cfg) ;;
      ltdcFgSetConfigI (fg_laycfg cfg) ;;
      (* Enable only the assigned interrupt service routines. *)
      emit (EvNvicEnableVector STM32_LTDC_EV_NUMBER) ;;
      emit (EvNvicEnableVector STM32_LTDC_ER_NUMBER) ;;
      let flags := LTDC_IER_RRIE in
      let flags := match line_isr cfg with
                   | Some _ => Z.lor flags LTDC_IER_LIE | None => flags end in
      let flags := match fuerr_isr cfg with
                   | Some _ => Z.lor flags LTDC_IER_FUIE | None => flags end in
      let flags := match terr_isr cfg with
                   | Some _ => Z.lor flags LTDC_IER_TERRIE | None => flags end in
      LTDC_wr set_IER flags ;;
      (* Apply settings. *)
      ltdc_force_reload_s ;;
      (* Turn on the controller. *)
      g <- LTDC_rd GCR ;;
      LTDC_wr set_GCR (Z.lor g LTDC_GCR_LTDCEN) ;;
      ltdc_force_reload_s ;;
      store_state LTDC_READY ;;
      emit EvSysUnlock
  end.

(** [void ltdcStop(LTDCDriver *ltdcp)], called by the thread [self]. *)
Definition ltdcStop (self : Thread_ptr) : M ltdc_world unit :=
  emit EvSysLock ;;
  st <- drv_rd state ;;
  chDbgAssert (ltdc_state_eqb st LTDC_READY) "ltdcStop(), #1" ;;
  g <- LTDC_rd GCR ;;
  LTDC_wr set_GCR (Z.land g (not32 LTDC_GCR_LTDCEN)) ;;
  LTDC_wr set_IER 0 ;;
  ltdcReloadS self true ;;
  store_state LTDC_STOP ;;
  emit EvSysUnlock.

(** *** Interrupt handlers

    A callback of the configuration is code of the application; [isr_body]
    gives what each one does to the registers and to the driver object.  The
    kernel's [CH_IRQ_PROLOGUE] and [CH_IRQ_EPILOGUE] around the handler's body
    are left out; writing a clear bit to [ICR] is the store only, the
    controller dropping the flag of [ISR] in response is not part of the
    handler. *)

Variable isr_body : ltdcisr_t -> ltdc_machine -> ltdc_machine.

(** [f(ltdcp)] for a callback [f] of the configuration. *)
Definition call_isr (f : ltdcisr_t) : M ltdc_world unit :=
  emit (EvCallback f) ;;
  modify (fun w => mk_world (isr_body f (mach w)) (events w)).

(** The first [if] of [LTDC_EV_IRQHandler]: "Handle Line Interrupt ISR". *)
Definition ev_line_interrupt : M ltdc_world unit :=
  isr <- LTDC_rd ISR ;;
  ier <- LTDC_rd IER ;;
  when (nonzero (Z.land isr LTDC_ISR_LIF) && nonzero (Z.land ier LTDC_IER_LIE))
    (cfg <- drv_config ;;
     match line_isr cfg with
     | None => chDbgPanic "LTDC_EV_IRQHandler(), #1"
     | Some f => call_isr f
     end ;;
     icr <- LTDC_rd ICR ;;
     LTDC_wr set_ICR (Z.lor icr LTDC_ICR_CLIF)).

(** The second [if] of [LTDC_EV_IRQHandler]: "Handle Register Reload ISR". *)
Definition ev_register_reload : M ltdc_world unit :=
  isr <- LTDC_rd ISR ;;
  ier <- LTDC_rd IER ;;
  when (nonzero (Z.land isr LTDC_ISR_RRIF) && nonzero (Z.land ier LTDC_IER_RRIE))
    (cfg <- drv_config ;;
     match rr_isr cfg with
     | Some f => call_isr f
     | None => ret tt
     end ;;
     emit EvSysLockFromIsr ;;
     st <- drv_rd state ;;
     chDbgAssert (ltdc_state_eqb st LTDC_ACTIVE) "LTDC_EV_IRQHandler(), #2" ;;
     (* Wake the waiting thread up. *)
     th <- drv_rd thread ;;
     match th with
     | Some tp =>
         drv_wr set_thread None ;;
         emit (EvSchReadyI tp RDY_OK)
     | None => ret tt
     end ;;
     store_state LTDC_READY ;;
     emit EvSysUnlockFromIsr ;;
     icr <- LTDC_rd ICR ;;
     LTDC_wr set_ICR (Z.lor icr LTDC_ICR_CRRIF)).

(** [CH_IRQ_HANDLER(LTDC_EV_IRQHandler)] *)
Definition LTDC_EV_IRQHandler : M ltdc_world unit :=
  ev_line_interrupt ;;
  ev_register_reload.

End Driver.

(** ** The ILI9341 panel driver (ili9341.c)

    The driver functions take a pointer to the driver object and check it
    against [NULL]; the embedding works on the object pointed to, so it
    describes the calls with a non-null [driverp].  The mutex of
    [ILI9341_USE_MUTUAL_EXCLUSION] is left out. *)

(** [ili9341state_t], the states the source names. *)
Inductive ili9341state_t : Type :=
| ILI9341_STOP | ILI9341_READY | ILI9341_ACTIVE.

Definition ili9341state_eqb (a b : ili9341state_t) : bool :=
  match a, b with
  | ILI9341_STOP, ILI9341_STOP | ILI9341_READY, ILI9341_READY
  | ILI9341_ACTIVE, ILI9341_ACTIVE => true
  | _, _ => false
  end.

(** [ILI9341Config]: the SPI endpoint ([None] when [NULL]) and the D/CX pad. *)
Record ILI9341Config : Type := mk_iliconfig {
  spi : option Z;
  dcx_port : Z;
  dcx_pad : Z
}.

(** [ILI9341Driver] *)
Record ILI9341Driver : Type := mk_ilidriver {
  ili_state : ili9341state_t;
  ili_config : option ILI9341Config;
  value : Z
}.

(** What the driver does to the kernel, to the pad and to the SPI endpoint. *)
Inductive ili_event : Type :=
| IliSysLock | IliSysUnlock
| SpiSelectI (spip : option Z)
| SpiUnselectI (spip : option Z)
| PalClearPad (port pad : Z)
| PalSetPad (port pad : Z)
| SpiSend (spip : option Z) (n : Z) (txbuf : list Z)
| SpiReceive (spip : option Z) (n : Z) (rxbuf : list Z).

(** The panel side: the driver object, the events so far (oldest first), and
    the bytes the panel answers with, [miso k] being the [k]-th byte read. *)
Record ili_world : Type := mk_iliworld {
  driver : ILI9341Driver;
  bus : list ili_event;
  miso : nat -> Z;
  rx_count : nat
}.

Definition ili_rd {A : Type} (f : ILI9341Driver -> A) : M ili_world A :=
  gets (fun w => f (driver w)).
Definition ili_set_state (s : ili9341state_t) : M ili_world unit :=
  modify (fun w => mk_iliworld (mk_ilidriver s (ili_config (driver w)) (value (driver w)))
                               (bus w) (miso w) (rx_count w)).
Definition ili_set_config (c : option ILI9341Config) : M ili_world unit :=
  modify (fun w => mk_iliworld (mk_ilidriver (ili_state (driver w)) c (value (driver w)))
                               (bus w) (miso w) (rx_count w)).
Definition ili_set_value (v : Z) : M ili_world unit :=
  modify (fun w => mk_iliworld (mk_ilidriver (ili_state (driver w))
                                             (ili_config (driver w)) v)
                               (bus w) (miso w) (rx_count w)).
Definition ili_emit (e : ili_event) : M ili_world unit :=
  modify (fun w => mk_iliworld (driver w) (bus w ++ [e]) (miso w) (rx_count w)).

(** [driverp->config->...]: dereferencing a null [config] faults. *)
Definition ili_deref_config : M ili_world ILI9341Config :=
  c <- ili_rd ili_config ;;
  match c with
  | Some cfg => ret cfg
  | None => chDbgPanic "null pointer: driverp->config"
  end.

(** [spiSend(spip, n, txbuf)]: [n] bytes of [txbuf] go out; a buffer shorter
    than [n] is read past its end. *)
Definition spiSend (spip : option Z) (n : Z) (txbuf : list Z) : M ili_world unit :=
  if n <=? Z.of_nat (List.length txbuf)
  then ili_emit (SpiSend spip n (firstn (Z.to_nat n) txbuf))
  else chDbgPanic "read past the end of txbuf[]".

(** [spiReceive(spip, n, rxbuf)]: the next [n] bytes of the panel are stored
    at the start of [rxbuf]; the result is the buffer after the call. *)
Definition spiReceive (spip : option Z) (n : Z) (rxbuf : list Z)
    : M ili_world (list Z) :=
  if n <=? Z.of_nat (List.length rxbuf)
  then
    w <- get ;;
    let bytes := map (miso w) (seq (rx_count w) (Z.to_nat n)) in
    modify (fun w => mk_iliworld (driver w) (bus w ++ [SpiReceive spip n bytes])
                                 (miso w) (rx_count w + Z.to_nat n)%nat) ;;
    ret (bytes ++ skipn (Z.to_nat n) rxbuf)%list
  else chDbgPanic "write past the end of rxbuf[]".

(** [void ili9341ObjectInit(ILI9341Driver *driverp)] *)
Definition ili9341ObjectInit : M ili_world unit :=
  ili_set_state ILI9341_STOP ;;
  ili_set_config None.

(** [void ili9341Start(ILI9341Driver *driverp, const ILI9341Config *configp)] *)
Definition ili9341Start (configp : option ILI9341Config) : M ili_world unit :=
  ili_emit IliSysLock ;;
  match configp with
  | None => chDbgPanic "ili9341Start"
  | Some cfg =>
      chDbgCheck (match spi cfg with Some _ => true | None => false end)
                 "ili9341Start" ;;
      st <- ili_rd ili_state ;;
      chDbgAssert (ili9341state_eqb st ILI9341_STOP) "ili9341Start(), #1" ;;
      ili_emit (SpiSelectI (spi cfg)) ;;
      ili_emit (SpiUnselectI (spi cfg)) ;;
      ili_set_config configp ;;
      ili_set_state ILI9341_READY ;;
      ili_emit IliSysUnlock
  end.

(** [void ili9341Stop(ILI9341Driver *driverp)] *)
Definition ili9341Stop : M ili_world unit :=
  ili_emit IliSysLock ;;
  st <- ili_rd ili_state ;;
  chDbgAssert (ili9341state_eqb st ILI9341_READY) "ili9341Start(), #1" ;;
  ili_set_state ILI9341_STOP ;;
  ili_emit IliSysUnlock.

(** [void ili9341SelectI(ILI9341Driver *driverp)] *)
Definition ili9341SelectI : M ili_world unit :=
  st <- ili_rd ili_state ;;
  chDbgAssert (ili9341state_eqb st ILI9341_READY) "ili9341SelectI(), #1" ;;
  ili_set_state ILI9341_ACTIVE ;;
  cfg <- ili_deref_config ;;
  ili_emit (SpiSelectI (spi cfg)).

(** [void ili9341Select(ILI9341Driver *driverp)] *)
Definition ili9341Select : M ili_world unit :=
  ili_emit IliSysLock ;;
  ili9341SelectI ;;
  ili_emit IliSysUnlock.

(** [void ili9341UnselectI(ILI9341Driver *driverp)] *)
Definition ili9341UnselectI : M ili_world unit :=
  st <- ili_rd ili_state ;;
  chDbgAssert (ili9341state_eqb st ILI9341_ACTIVE) "ili9341UnselectI(), #1" ;;
  cfg <- ili_deref_config ;;
  ili_emit (SpiUnselectI (spi cfg)) ;;
  ili_set_state ILI9341_READY.

(** [void ili9341Unselect(ILI9341Driver *driverp)] *)
Definition ili9341Unselect : M ili_world unit :=
  ili_emit IliSysLock ;;
  ili9341UnselectI ;;
  ili_emit IliSysUnlock.

(** [void ili9341WriteCommand(ILI9341Driver *driverp, uint8_t cmd)] *)
Definition ili9341WriteCommand (cmd : Z) : M ili_world unit :=
  st <- ili_rd ili_state ;;
  chDbgAssert (ili9341state_eqb st ILI9341_ACTIVE) "ili9341WriteCommand(), #1" ;;
  ili_set_value (u8 cmd) ;;
  cfg <- ili_deref_config ;;
  ili_emit (PalClearPad (dcx_port cfg) (dcx_pad cfg)) ;;  (* !Cmd *)
  cfg <- ili_deref_config ;;
  v <- ili_rd value ;;
  spiSend (spi cfg) 1 [v].

(** [void ili9341WriteByte(ILI9341Driver *driverp, uint8_t value)] *)
Definition ili9341WriteByte (val : Z) : M ili_world unit :=
  st <- ili_rd ili_state ;;
  chDbgAssert (ili9341state_eqb st ILI9341_ACTIVE) "ili9341WriteByte(), #1" ;;
  ili_set_value (u8 val) ;;
  cfg <- ili_deref_config ;;
  ili_emit (PalSetPad (dcx_port cfg) (dcx_pad cfg)) ;;  (* Data *)
  cfg <- ili_deref_config ;;
  v <- ili_rd value ;;
  spiSend (spi cfg) 1 [v].

(** [uint8_t ili9341ReadByte(ILI9341Driver *driverp)] *)
Definition ili9341ReadByte : M ili_world Z :=
  chDbgAssert false "ili9341ReadByte()" ;;
  st <- ili_rd ili_state ;;
  chDbgAssert (ili9341state_eqb st ILI9341_ACTIVE) "ili9341ReadByte(), #1" ;;
  cfg <- ili_deref_config ;;
  ili_emit (PalSetPad (dcx_port cfg) (dcx_pad cfg)) ;;  (* Data *)
  cfg <- ili_deref_config ;;
  v <- ili_rd value ;;
  rx <- spiReceive (spi cfg) 1 [v] ;;
  ili_set_value (nth 0 rx 0) ;;
  ili_rd value.

(** [void ili9341WriteChunk(ILI9341Driver *driverp, const uint8_t chunk[],
    size_t length)] *)
Definition ili9341WriteChunk (chunk : option (list Z)) (length : Z) : M ili_world unit :=
  match chunk with
  | None => chDbgPanic "ili9341WriteChunk"
  | Some bytes =>
      st <- ili_rd ili_state ;;
      chDbgAssert (ili9341state_eqb st ILI9341_ACTIVE) "ili9341WriteChunk(), #1" ;;
      if length =? 0 then ret tt
      else
        cfg <- ili_deref_config ;;
        ili_emit (PalSetPad (dcx_port cfg) (dcx_pad cfg)) ;;  (* Data *)
        cfg <- ili_deref_config ;;
        spiSend (spi cfg) length bytes
  end.

(** [void ili9341ReadChunk(ILI9341Driver *driverp, uint8_t chunk[],
    size_t length)]; the result is the content of [chunk] after the call. *)
Definition ili9341ReadChunk (chunk : option (list Z)) (length : Z)
    : M ili_world (list Z) :=
  match chunk with
  | None => chDbgPanic "ili9341ReadChunk"
  | Some bytes =>
      st <- ili_rd ili_state ;;
      chDbgAssert (ili9341state_eqb st ILI9341_ACTIVE) "ili9341ReadChunk(), #1" ;;
      if length =? 0 then ret bytes
      else
        cfg <- ili_deref_config ;;
        ili_emit (PalSetPad (dcx_port cfg) (dcx_pad cfg)) ;;  (* Data *)
        cfg <- ili_deref_config ;;
        spiReceive (spi cfg) length bytes
  end.

(** ** Worlds and inputs of the scenarios

    The seed scenarios of the specification run on a 480x272 panel with
    HSW=41, VSW=10, HBP=2, VBP=2, HFP=2, VFP=2, a black clear colour and both
    layers left to the default configuration. *)

Definition scenario_config : LTDCConfig :=
  mk_config 480 272 41 10 2 2 2 2 0 None None None None 0 None None.

(** A machine whose modelled registers all read zero, with the driver object
    as [ltdcInit] leaves it. *)
Definition world_after_init : ltdc_world :=
  snd (ltdcInit
         (mk_world
            (mk_machine (mk_LTDC 0 0 0 0 0 0 0 0 0 0)
                        (mk_Layer 0 0 0 0 0 0 0 0 0 0 0 [])
                        (mk_Layer 0 0 0 0 0 0 0 0 0 0 0 [])
                        (mk_driver LTDC_UNINIT None (mk_window 0 0 0 0) None))
            [])).

(** The machine after [ltdcStart(&LTDCD1, &scenario_config)]. *)
Definition world_480x272 : ltdc_world :=
  snd (ltdcStart (hw := stm32f4_hw) (Some scenario_config) world_after_init).

(** The window of the window-translation scenario. *)
Definition full_screen_window : ltdc_window_t := mk_window 0 479 0 271.

(** The frame of the frame-rejection scenario: 500x100, RGB-565, pitch 1000. *)
Definition too_wide_frame : ltdc_frame_t := mk_frame 0 1000 500 100 LTDC_FMT_RGB565.

(** Sixteen palette colours. *)
Definition sixteen_colors : list Z :=
  [ 0x000000; 0x800000; 0x008000; 0x808000; 0x000080; 0x800080; 0x008080; 0xC0C0C0
  ; 0x808080; 0xFF0000; 0x00FF00; 0xFFFF00; 0x0000FF; 0xFF00FF; 0x00FFFF; 0xFFFFFF ].

(** The palette words [ltdcBgSetPaletteI] stores for [colors], from slot [i] on. *)
Fixpoint palette_words (colors : list Z) (i : Z) : list Z :=
  match colors with
  | [] => []
  | c :: cs => Z.lor (shl32 (u32 i) 24) (Z.land c 0x00FFFFFF) :: palette_words cs (u16 (i + 1))
  end.

(** A frame that meets every bound the frame setter lists on the 480x272
    screen, in the format AL-88: one pixel, two bytes a line. *)
Definition al88_pixel_frame : ltdc_frame_t := mk_frame 0x20000000 2 1 1 LTDC_FMT_AL88.

(** Frames in the format L-8, one pixel wide and high, that differ in pitch. *)
Definition frame_pitch_8192 : ltdc_frame_t := mk_frame 0x20000000 8192 1 1 LTDC_FMT_L8.
Definition frame_pitch_65536 : ltdc_frame_t := mk_frame 0x20000000 65536 1 1 LTDC_FMT_L8.

(** A full-screen RGB-565 frame. *)
Definition full_screen_frame : ltdc_frame_t := mk_frame 0x20000000 960 480 272 LTDC_FMT_RGB565.

(** A frame whose members are values of their C types: a 32-bit address and
    pitch, 16-bit width and height, a non-negative format. *)
Definition frame_in_range (f : ltdc_frame_t) : Prop :=
  is_u32 (bufferp f) /\ is_u32 (pitch f)
  /\ is_u16 (width f) /\ is_u16 (height f) /\ 0 <= fmt f.

(** The frame registers as on the target silicon: a 32-bit address, the
    pitch in the 13 bits from bit 16 of the length register and the line
    length in its low 13 bits, an 11-bit line count, a 3-bit format; and
    bounds of the driver that keep the line length plus 3 and the height
    inside their fields. *)
Definition frame_fields_fit (hw : ltdc_hw) : Prop :=
  LTDC_LxCFBAR_CFBADD = 0xFFFFFFFF
  /\ LTDC_LxCFBLR_CFBP = 0x1FFF0000
  /\ LTDC_LxCFBLR_CFBLL = 0x00001FFF
  /\ LTDC_LxCFBLNR_CFBLNBR = 0x000007FF
  /\ LTDC_LxPFCR_PF = 0x00000007
  /\ LTDC_MAX_FRAME_WIDTH_BYTES + 3 <= 0x1FFF
  /\ LTDC_MAX_FRAME_HEIGHT_LINES <= 0x7FF.

(** The deferred-reload scenario: the scenario's configuration with a
    reload callback, a task that asks for a reload at the next vertical
    blank and is parked, and the controller raising the reload flag. *)
Definition reload_callback : ltdcisr_t := 0x08001235.
Definition waiting_task : Thread_ptr := 0x20001000.

Definition scenario_config_rr : LTDCConfig :=
  mk_config 480 272 41 10 2 2 2 2 0 None (Some reload_callback) None None 0 None None.

Definition world_parked : ltdc_world :=
  snd (ltdcReloadS (hw := stm32f4_hw) waiting_task false
         (snd (ltdcStart (hw := stm32f4_hw) (Some scenario_config_rr) world_after_init))).

Definition world_reload_done : ltdc_world :=
  upd_LTDC (set_ISR (@LTDC_ISR_RRIF stm32f4_hw)) world_parked.

(** A callback that touches nothing. *)
Definition idle_isr (f : ltdcisr_t) (m : ltdc_machine) : ltdc_machine := m.

(** ** Order of events *)

Definition ltdc_vector_eqb (a b : ltdc_vector) : bool :=
  match a, b with
  | STM32_LTDC_EV_NUMBER, STM32_LTDC_EV_NUMBER
  | STM32_LTDC_ER_NUMBER, STM32_LTDC_ER_NUMBER => true
  | _, _ => false
  end.

Definition ltdc_event_eqb (a b : ltdc_event) : bool :=
  match a, b with
  | EvSysLock, EvSysLock | EvSysUnlock, EvSysUnlock
  | EvSysLockFromIsr, EvSysLockFromIsr
  | EvSysUnlockFromIsr, EvSysUnlockFromIsr => true
  | EvNvicEnableVector n, EvNvicEnableVector n' => ltdc_vector_eqb n n'
  | EvCallback f, EvCallback f' => f =? f'
  | EvSchReadyI tp msg, EvSchReadyI tp' msg' => (tp =? tp') && (msg =? msg')
  | EvSchGoSleepS tp, EvSchGoSleepS tp' => tp =? tp'
  | EvState s, EvState s' => ltdc_state_eqb s s'
  | _, _ => false
  end.

(** [e1] happens, and [e2] happens later. *)
Fixpoint happens_before (e1 e2 : ltdc_event) (evs : list ltdc_event) : bool :=
  match evs with
  | [] => false
  | e :: rest =>
      if ltdc_event_eqb e e1
      then existsb (ltdc_event_eqb e2) rest
      else happens_before e1 e2 rest
  end.

(** ** Statements about runs *)

(** [m], run from [s], completes only in states that satisfy [Q] (a halted
    run promises nothing). *)
Definition wp {S A : Type} (m : M S A) (Q : A -> S -> Prop) (s : S) : Prop :=
  match m s with
  | (Done a, s') => Q a s'
  | (Halt _, _) => True
  end.

(** [m] never stores to the driver object. *)
Definition keeps_driver {A : Type} (m : M ltdc_world A) : Prop :=
  forall s, LTDCD1 (mach (snd (m s))) = LTDCD1 (mach s).

(** [m], run from [s], either completes in a state that satisfies [QD] or
    halts, with message [msg], in a state that satisfies [QH msg]. *)
Definition runs {S A : Type} (m : M S A) (QD : A -> S -> Prop)
    (QH : string -> S -> Prop) (s : S) : Prop :=
  match m s with
  | (Done a, s') => QD a s'
  | (Halt msg, s') => QH msg s'
  end.

Definition other_layer (l : ltdc_layer) : ltdc_layer :=
  match l with Bg => Fg | Fg => Bg end.

(** [s'] differs from [s] at most in the register block of layer [l]. *)
Definition same_but_layer (l : ltdc_layer) (s s' : ltdc_world) : Prop :=
  LTDC (mach s') = LTDC (mach s)
  /\ layer_regs (other_layer l) (mach s') = layer_regs (other_layer l) (mach s)
  /\ LTDCD1 (mach s') = LTDCD1 (mach s)
  /\ events s' = events s.

(** Whether it completes or halts, [m] stores to the registers of layer [l]
    and to nothing else. *)
Definition touches_only_layer {A : Type} (l : ltdc_layer) (m : M ltdc_world A) : Prop :=
  forall s, same_but_layer l s (snd (m s)).

(** A thread is parked in the driver object only while a reload is in
    flight. *)
Definition waiter_only_when_active (d : LTDCDriver) : Prop :=
  thread d <> None -> state d = LTDC_ACTIVE.

(** [P] holds of [i], [i + 1], ..., [i + n - 1]. *)
Fixpoint all_from (n : nat) (i : Z) (P : Z -> bool) : bool :=
  match n with
  | O => true
  | S n' => P i && all_from n' (i + 1) P
  end.

(** ** More of the LTDC driver (stm32_ltdc.c)

    The masks of the device header that only the error interrupt handler and
    the dithering functions name, taken as parameters like those of
    [ltdc_hw]. *)

Class ltdc_hw_more : Type := {
  LTDC_GCR_DTEN : Z;
  LTDC_ISR_FUIF : Z; LTDC_ISR_TERRIF : Z;
  LTDC_ICR_CFUIF : Z; LTDC_ICR_CTERRIF : Z
}.

(** Modelled from the spec: the values of the absent device header, which the
    spec leaves to the target silicon; those of the LTDC of the STM32F4. *)
Definition stm32f4_hw_more : ltdc_hw_more := {|
  LTDC_GCR_DTEN := 0x00010000;
  LTDC_ISR_FUIF := 0x00000002; LTDC_ISR_TERRIF := 0x00000004;
  LTDC_ICR_CFUIF := 0x00000002; LTDC_ICR_CTERRIF := 0x00000004
|}.

Section DriverRest.
Context {hw : ltdc_hw} {hwm : ltdc_hw_more}.

(** What [ltdc_force_reload_s] leaves in [SRCR]: the immediate request it
    sets, then the request bits dropped by the controller. *)
Definition after_forced_reload (r : Z) : Z :=
  Z.land (Z.lor r LTDC_SRCR_IMR) (not32 (Z.lor LTDC_SRCR_IMR LTDC_SRCR_VBR)).

(** [ltdc_flags_t ltdcGetEnableFlagsI(LTDCDriver *ltdcp)] *)
Definition ltdcGetEnableFlagsI : M ltdc_world Z :=
  r <- LTDC_rd GCR ;;
  ret (Z.land r LTDC_EF_MASK).

(** [bool_t ltdcIsDitheringEnabledI(LTDCDriver *ltdcp)] *)
Definition ltdcIsDitheringEnabledI : M ltdc_world bool :=
  r <- LTDC_rd GCR ;;
  ret (nonzero (Z.land r LTDC_GCR_DTEN)).

(** [void ltdcEnableDitheringI(LTDCDriver *ltdcp)] *)
Definition ltdcEnableDitheringI : M ltdc_world unit :=
  r <- LTDC_rd GCR ;;
  LTDC_wr set_GCR (Z.lor r LTDC_GCR_DTEN).

(** [void ltdcDisableDitheringI(LTDCDriver *ltdcp)] *)
Definition ltdcDisableDitheringI : M ltdc_world unit :=
  r <- LTDC_rd GCR ;;
  LTDC_wr set_GCR (Z.land r (not32 LTDC_GCR_DTEN)).

(** [ltdc_color_t ltdcGetClearColorI(LTDCDriver *ltdcp)] *)
Definition ltdcGetClearColorI : M ltdc_world Z :=
  r <- LTDC_rd BCCR ;;
  ret (Z.land r 0x00FFFFFF).

(** [bool_t ltdcIsLineInterruptEnabledI(LTDCDriver *ltdcp)] *)
Definition ltdcIsLineInterruptEnabledI : M ltdc_world bool :=
  r <- LTDC_rd IER ;;
  ret (nonzero (Z.land r LTDC_IER_LIE)).

(** [void ltdcEnableLineInterruptI(LTDCDriver *ltdcp)] *)
Definition ltdcEnableLineInterruptI : M ltdc_world unit :=
  r <- LTDC_rd IER ;;
  LTDC_wr set_IER (Z.lor r LTDC_IER_LIE).

(** [void ltdcDisableLineInterruptI(LTDCDriver *ltdcp)] *)
Definition ltdcDisableLineInterruptI : M ltdc_world unit :=
  r <- LTDC_rd IER ;;
  LTDC_wr set_IER (Z.land r (not32 LTDC_IER_LIE)).

(** [ltdc_color_t ltdcBgGetKeyingColorI(LTDCDriver *ltdcp)] *)
Definition ltdcLxGetKeyingColorI (l : ltdc_layer) : M ltdc_world Z :=
  r <- Lx_rd l CKCR ;;
  ret (Z.land r 0x00FFFFFF).

(** [uint8_t ltdcBgGetConstantAlphaI(LTDCDriver *ltdcp)] *)
Definition ltdcLxGetConstantAlphaI (l : ltdc_layer) : M ltdc_world Z :=
  r <- Lx_rd l CACR ;;
  ret (u8 (Z.land r LTDC_LxCACR_CONSTA)).

(** [ltdc_color_t ltdcBgGetDefaultColorI(LTDCDriver *ltdcp)] *)
Definition ltdcLxGetDefaultColorI (l : ltdc_layer) : M ltdc_world Z :=
  Lx_rd l DCCR.

(** The source's names. *)
Definition ltdcBgGetKeyingColorI := ltdcLxGetKeyingColorI Bg.
Definition ltdcFgGetKeyingColorI := ltdcLxGetKeyingColorI Fg.
Definition ltdcBgGetConstantAlphaI := ltdcLxGetConstantAlphaI Bg.
Definition ltdcFgGetConstantAlphaI := ltdcLxGetConstantAlphaI Fg.
Definition ltdcBgGetDefaultColorI := ltdcLxGetDefaultColorI Bg.
Definition ltdcFgGetDefaultColorI := ltdcLxGetDefaultColorI Fg.

(** *** The error interrupt handler *)

Variable isr_body : ltdcisr_t -> ltdc_machine -> ltdc_machine.

(** The first [if] of [LTDC_ER_IRQHandler]: "Handle FIFO Underrun ISR". *)
Definition er_fifo_underrun : M ltdc_world unit :=
  isr <- LTDC_rd ISR ;;
  ier <- LTDC_rd IER ;;
  when (nonzero (Z.land isr LTDC_ISR_FUIF) && nonzero (Z.land ier LTDC_IER_FUIE))
    (cfg <- drv_config ;;
     match fuerr_isr cfg with
     | None => chDbgPanic "LTDC_ER_IRQHandler(), #1"
     | Some f => call_isr isr_body f
     end ;;
     icr <- LTDC_rd ICR ;;
     LTDC_wr set_ICR (Z.lor icr LTDC_ICR_CFUIF)).

(** The second [if] of [LTDC_ER_IRQHandler]: "Handle Transfer Error ISR". *)
Definition er_transfer_error : M ltdc_world unit :=
  isr <- LTDC_rd ISR ;;
  ier <- LTDC_rd IER ;;
  when (nonzero (Z.land isr LTDC_ISR_TERRIF) && nonzero (Z.land ier LTDC_IER_TERRIE))
    (cfg <- drv_config ;;
     match terr_isr cfg with
     | None => chDbgPanic "LTDC_ER_IRQHandler(), #2"
     | Some f => call_isr isr_body f
     end ;;
     icr <- LTDC_rd ICR ;;
     LTDC_wr set_ICR (Z.lor icr LTDC_ICR_CTERRIF)).

(** [CH_IRQ_HANDLER(LTDC_ER_IRQHandler)] *)
Definition LTDC_ER_IRQHandler : M ltdc_world unit :=
  er_fifo_underrun ;;
  er_transfer_error.

(** The shape the line branch of [LTDC_EV_IRQHandler] and the two branches
    of [LTDC_ER_IRQHandler] share: a source that is pending ([flag] in [ISR])
    and enabled ([enable] in [IER]) has its callback [sel] called, which must
    not be [NULL], and is acknowledged with [clear] in [ICR]. *)
Definition callback_branch (flag enable : Z)
    (sel : LTDCConfig -> option ltdcisr_t) (tag : string) (clear : Z)
    : M ltdc_world unit :=
  isr <- LTDC_rd ISR ;;
  ier <- LTDC_rd IER ;;
  when (nonzero (Z.land isr flag) && nonzero (Z.land ier enable))
    (cfg <- drv_config ;;
     match sel cfg with
     | None => chDbgPanic tag
     | Some f => call_isr isr_body f
     end ;;
     icr <- LTDC_rd ICR ;;
     LTDC_wr set_ICR (Z.lor icr clear)).

End DriverRest.

(** The four interrupt enable bits are four different bits. *)
Definition interrupt_bits_distinct (hw : ltdc_hw) : Prop :=
  LTDC_IER_LIE <> 0 /\ LTDC_IER_FUIE <> 0 /\ LTDC_IER_TERRIE <> 0 /\ LTDC_IER_RRIE <> 0
  /\ Z.land LTDC_IER_LIE LTDC_IER_FUIE = 0
  /\ Z.land LTDC_IER_LIE LTDC_IER_TERRIE = 0
  /\ Z.land LTDC_IER_LIE LTDC_IER_RRIE = 0
  /\ Z.land LTDC_IER_FUIE LTDC_IER_TERRIE = 0
  /\ Z.land LTDC_IER_FUIE LTDC_IER_RRIE = 0
  /\ Z.land LTDC_IER_TERRIE LTDC_IER_RRIE = 0.


(** A register going from [r] to [r'] with the bits of [B] set, respectively
    cleared, and every other bit kept. *)
Definition sets_bits (B r r' : Z) : Prop :=
  Z.land r' B = B /\ Z.land r' (not32 B) = Z.land r (not32 B).
Definition clears_bits (B r r' : Z) : Prop :=
  Z.land r' B = 0 /\ Z.land r' (not32 B) = Z.land r (not32 B).

(** A source is pending in [ISR] and enabled in [IER]. *)
Definition pending_and_enabled (flag enable : Z) (w : ltdc_world) : bool :=
  nonzero (Z.land (ISR (LTDC (mach w))) flag)
  && nonzero (Z.land (IER (LTDC (mach w))) enable).

(** The event a call of the callback [f] leaves, none for [NULL]. *)
Definition callback_events (f : option ltdcisr_t) : list ltdc_event :=
  match f with Some f => [EvCallback f] | None => [] end.

(** ** Inputs of further scenarios *)

Definition line_callback : ltdcisr_t := 0x08001301.
Definition underrun_callback : ltdcisr_t := 0x08001401.
Definition transfer_error_callback : ltdcisr_t := 0x08001501.

(** The scenario's configuration with a line callback and a transfer error
    callback, and no others. *)
Definition scenario_config_callbacks : LTDCConfig :=
  mk_config 480 272 41 10 2 2 2 2 0 (Some line_callback) None None
            (Some transfer_error_callback) 0 None None.

(** The machines after [ltdcStart] with the reload callback, and with the
    line and transfer error callbacks. *)
Definition world_started_rr : ltdc_world :=
  snd (ltdcStart (hw := stm32f4_hw) (Some scenario_config_rr) world_after_init).
Definition world_started_callbacks : ltdc_world :=
  snd (ltdcStart (hw := stm32f4_hw) (Some scenario_config_callbacks) world_after_init).


(** The started driver after its background layer is configured again with
    the default configuration. *)
Definition world_reconfigured : ltdc_world :=
  snd (ltdcLxSetConfigI (hw := stm32f4_hw) Bg None world_480x272).


(** ** Colours there and back, and a session of the panel driver *)

(** A raw colour [c] of the format [fmt] converted to ARGB-8888 and back is
    [c] again. *)
Definition color_round_trips (fmt c : Z) : bool :=
  match ltdcToARGB8888 c fmt with
  | Done x => match ltdcFromARGB8888 x fmt with
              | Done y => y =? c
              | Halt _ => false
              end
  | Halt _ => false
  end.

(** The panel of the scenarios: SPI endpoint 1, D/CX on pad 13 of port 2. *)
Definition panel_config : ILI9341Config := mk_iliconfig (Some 1) 2 13.

(** A panel driver object before its initialisation, with a bus on which
    nothing has happened and a panel that answers [0x5A]. *)
Definition panel_fresh : ili_world :=
  mk_iliworld (mk_ilidriver ILI9341_ACTIVE None 0) [] (fun _ => 0x5A) 0.

(** One session of the panel driver: the object is initialised and started,
    the panel selected, one command sent with one byte of data, the panel
    unselected and the driver stopped. *)
Definition panel_session (cfg : ILI9341Config) (cmd data : Z) : M ili_world unit :=
  ili9341ObjectInit ;;
  ili9341Start (Some cfg) ;;
  ili9341Select ;;
  ili9341WriteCommand cmd ;;
  ili9341WriteByte data ;;
  ili9341Unselect ;;
  ili9341Stop.

(** * Properties *)

(** ** Running computations *)

Lemma bind_Done_inv {S A B : Type} (m : M S A) (k : A -> M S B) (s s' : S) (b : B) :
  bind m k s = (Done b, s') ->
  exists a s1, m s = (Done a, s1) /\ k a s1 = (Done b, s').
Proof.
  unfold bind. destruct (m s) as [[a | msg] s1]; intros H.
  - exists a, s1. split; [reflexivity | exact H].
  - discriminate H.
Qed.

Lemma bind_Done {S A B : Type} (m : M S A) (k : A -> M S B) (s s1 : S) (a : A) :
  m s = (Done a, s1) -> bind m k s = k a s1.
Proof. unfold bind. intros ->. reflexivity. Qed.

Lemma bind_Halt {S A B : Type} (m : M S A) (k : A -> M S B) (s s1 : S) (msg : string) :
  m s = (Halt msg, s1) -> bind m k s = (Halt msg, s1).
Proof. unfold bind. intros ->. reflexivity. Qed.

Lemma chDbgAssert_Done_inv {S : Type} (c : bool) (msg : string) (s s' : S) (u : unit) :
  chDbgAssert c msg s = (Done u, s') -> c = true /\ s' = s.
Proof.
  unfold chDbgAssert, ret, chDbgPanic. destruct c; intros H; inversion H; auto.
Qed.

Lemma chDbgCheck_Done_inv {S : Type} (c : bool) (msg : string) (s s' : S) (u : unit) :
  chDbgCheck c msg s = (Done u, s') -> c = true /\ s' = s.
Proof.
  unfold chDbgCheck, ret, chDbgPanic. destruct c; intros H; inversion H; auto.
Qed.

Lemma wp_Done {S A : Type} (m : M S A) (Q : A -> S -> Prop) (s s' : S) (a : A) :
  wp m Q s -> m s = (Done a, s') -> Q a s'.
Proof. unfold wp. intros H E. rewrite E in H. exact H. Qed.

Lemma wp_bind {S A B : Type} (m : M S A) (k : A -> M S B) (Q : B -> S -> Prop) (s : S) :
  wp m (fun a s1 => wp (k a) Q s1) s -> wp (bind m k) Q s.
Proof.
  unfold wp, bind. destruct (m s) as [[a | msg] s1]; intros H; exact H.
Qed.

Lemma wp_ret {S A : Type} (a : A) (Q : A -> S -> Prop) (s : S) :
  Q a s -> wp (ret a) Q s.
Proof. intros H. exact H. Qed.

Lemma wp_modify {S : Type} (f : S -> S) (Q : unit -> S -> Prop) (s : S) :
  Q tt (f s) -> wp (modify f) Q s.
Proof. intros H. exact H. Qed.

Lemma wp_gets {S A : Type} (f : S -> A) (Q : A -> S -> Prop) (s : S) :
  Q (f s) s -> wp (gets f) Q s.
Proof. intros H. exact H. Qed.

Lemma wp_assert {S : Type} (c : bool) (msg : string) (Q : unit -> S -> Prop) (s : S) :
  (c = true -> Q tt s) -> wp (chDbgAssert c msg) Q s.
Proof. destruct c; intros H; [apply H; reflexivity | exact I]. Qed.

Lemma wp_panic {S A : Type} (msg : string) (Q : A -> S -> Prop) (s : S) :
  wp (chDbgPanic msg) Q s.
Proof. exact I. Qed.

Lemma wp_keeps_driver {A : Type} (m : M ltdc_world A) (Q : A -> ltdc_world -> Prop)
    (s : ltdc_world) :
  keeps_driver m ->
  (forall a s1, LTDCD1 (mach s1) = LTDCD1 (mach s) -> Q a s1) ->
  wp m Q s.
Proof.
  unfold keeps_driver, wp. intros K H. specialize (K s).
  destruct (m s) as [[a | msg] s1]; [|exact I].
  apply H. exact K.
Qed.

(** *** Calls that leave the driver object alone *)

Lemma keeps_ret {A : Type} (a : A) : keeps_driver (ret a).
Proof. intros s. reflexivity. Qed.

Lemma keeps_bind {A B : Type} (m : M ltdc_world A) (k : A -> M ltdc_world B) :
  keeps_driver m -> (forall a, keeps_driver (k a)) -> keeps_driver (bind m k).
Proof.
  unfold keeps_driver, bind. intros Hm Hk s. specialize (Hm s).
  destruct (m s) as [[a | msg] s1]; simpl in *.
  - rewrite Hk. exact Hm.
  - exact Hm.
Qed.

Lemma keeps_panic {A : Type} (msg : string) : keeps_driver (@chDbgPanic _ A msg).
Proof. intros s. reflexivity. Qed.

Lemma keeps_assert (c : bool) (msg : string) : keeps_driver (chDbgAssert c msg).
Proof. intros s. destruct c; reflexivity. Qed.

Lemma keeps_check (c : bool) (msg : string) : keeps_driver (chDbgCheck c msg).
Proof. intros s. destruct c; reflexivity. Qed.

Lemma keeps_gets {A : Type} (f : ltdc_world -> A) : keeps_driver (gets f).
Proof. intros s. reflexivity. Qed.

Lemma keeps_lift {A : Type} (o : outcome A) : keeps_driver (lift o).
Proof. intros s. reflexivity. Qed.

Lemma keeps_LTDC_wr (set_R : Z -> LTDC_TypeDef -> LTDC_TypeDef) (v : Z) :
  keeps_driver (LTDC_wr set_R v).
Proof. intros s. reflexivity. Qed.

Lemma keeps_Lx_wr (l : ltdc_layer)
    (set_R : Z -> LTDC_Layer_TypeDef -> LTDC_Layer_TypeDef) (v : Z) :
  keeps_driver (Lx_wr l set_R v).
Proof. intros s. destruct l; reflexivity. Qed.

Lemma keeps_emit (e : ltdc_event) : keeps_driver (emit e).
Proof. intros s. reflexivity. Qed.

Lemma keeps_drv_config : keeps_driver drv_config.
Proof.
  intros s. unfold drv_config, bind, drv_rd, gets, ret, chDbgPanic.
  destruct (config (LTDCD1 (mach s))); reflexivity.
Qed.

Lemma keeps_when (c : bool) (body : M ltdc_world unit) :
  keeps_driver body -> keeps_driver (when c body).
Proof. intros H. destruct c; [exact H | apply keeps_ret]. Qed.

(** Decomposes a call into its statements, down to register accesses. *)
Ltac keeps_step :=
  first
    [ apply keeps_bind; [| intros ?]
    | apply keeps_ret
    | apply keeps_panic
    | apply keeps_assert
    | apply keeps_check
    | apply keeps_gets
    | apply keeps_lift
    | apply keeps_LTDC_wr
    | apply keeps_Lx_wr
    | apply keeps_emit
    | apply keeps_drv_config
    | apply keeps_when
    | match goal with
      | |- keeps_driver (match ?x with _ => _ end) => destruct x
      end ].

Ltac keeps_tac := repeat keeps_step.

(** ** Bits of 32-bit words *)

Lemma u32_range (x : Z) : is_u32 (u32 x).
Proof. unfold is_u32, u32. apply Z.mod_pos_bound. reflexivity. Qed.

Lemma u32_small (x : Z) : is_u32 x -> u32 x = x.
Proof. unfold is_u32, u32. intros H. apply Z.mod_small. exact H. Qed.

Lemma u16_small (x : Z) : 0 <= x < 2 ^ 16 -> u16 x = x.
Proof. unfold u16. intros H. apply Z.mod_small. exact H. Qed.

Lemma not32_testbit (m i : Z) :
  0 <= i < 32 -> Z.testbit (not32 m) i = negb (Z.testbit m i).
Proof.
  intros Hi. unfold not32. rewrite Z.lxor_spec.
  rewrite Z.ones_spec_low by lia. apply Bool.xorb_true_r.
Qed.

Lemma not32_range (m : Z) : is_u32 m -> is_u32 (not32 m).
Proof.
  unfold is_u32. intros Hm.
  assert (E : not32 m = not32 m mod 2 ^ 32).
  { apply Z.bits_inj'. intros i Hi.
    rewrite Z.testbit_mod_pow2 by lia. unfold not32. rewrite Z.lxor_spec.
    destruct (Z.ltb_spec i 32); [reflexivity|].
    rewrite Z.ones_spec_high by lia.
    rewrite <- (Z.mod_small m (2 ^ 32)) by exact Hm.
    rewrite Z.mod_pow2_bits_high by lia. reflexivity. }
  rewrite E. apply Z.mod_pos_bound. reflexivity.
Qed.

Lemma u32_testbit_high (x i : Z) : is_u32 x -> 32 <= i -> Z.testbit x i = false.
Proof.
  intros Hx Hi. rewrite <- (Z.mod_small x (2 ^ 32)) by exact Hx.
  apply Z.mod_pow2_bits_high. lia.
Qed.

(** A masked register is non-zero exactly when a bit is set in the register
    and left through by the mask. *)
Lemma nonzero_land_not32 (r m : Z) :
  is_u32 m ->
  nonzero (Z.land r (not32 m)) = true <->
  exists i, 0 <= i < 32 /\ Z.testbit r i = true /\ Z.testbit m i = false.
Proof.
  intros Hm. pose proof (not32_range m Hm) as Hn.
  unfold nonzero. rewrite Bool.negb_true_iff, Z.eqb_neq. split.
  - intros Hx.
    assert (Hpos : 0 < Z.land r (not32 m)).
    { assert (0 <= Z.land r (not32 m)) by (apply Z.land_nonneg; right; apply Hn). lia. }
    pose proof (Z.bit_log2 _ Hpos) as Hbit.
    set (i := Z.log2 (Z.land r (not32 m))) in *.
    assert (Hi0 : 0 <= i) by apply Z.log2_nonneg.
    rewrite Z.land_spec in Hbit. apply Bool.andb_true_iff in Hbit.
    destruct Hbit as [Hr Hnm].
    assert (Hi32 : i < 32).
    { destruct (Z.lt_ge_cases i 32) as [Hlt | Hge]; [exact Hlt|].
      rewrite (u32_testbit_high _ _ Hn Hge) in Hnm. discriminate. }
    exists i. repeat split; try lia; [exact Hr|].
    rewrite not32_testbit in Hnm by lia.
    apply Bool.negb_true_iff in Hnm. exact Hnm.
  - intros (i & Hi & Hr & Hmi) Hx.
    assert (Hbit : Z.testbit (Z.land r (not32 m)) i = true).
    { rewrite Z.land_spec, Hr, not32_testbit by lia. rewrite Hmi. reflexivity. }
    rewrite Hx, Z.bits_0 in Hbit. discriminate.
Qed.

(** ** Helper functions *)

(** C7 (the code departs from it at AL-88): [ltdcBitsPerPixel] looks the
    format up in [ltdc_bpp] and returns 32, 24, 16, 16, 16, 8, 8 for the
    formats 0..6; for format 7 (AL-88), whose table entry is 16, its
    precondition check [fmt < LTDC_MAX_PIXFMT_ID] fails and the call halts.
    The check passes exactly for the formats below 7. *)
Theorem ltdcBitsPerPixel_table :
  map ltdcBitsPerPixel
      [LTDC_FMT_ARGB8888; LTDC_FMT_RGB888; LTDC_FMT_RGB565; LTDC_FMT_ARGB1555;
       LTDC_FMT_ARGB4444; LTDC_FMT_L8; LTDC_FMT_AL44]
  = map Done [32; 24; 16; 16; 16; 8; 8]
  /\ nth (Z.to_nat LTDC_FMT_AL88) ltdc_bpp 0 = 16
  /\ ltdcBitsPerPixel LTDC_FMT_AL88 = Halt "ltdcBitsPerPixel(), #1"
  /\ (forall pf : Z,
        (exists bits, ltdcBitsPerPixel pf = Done bits) <-> pf < LTDC_MAX_PIXFMT_ID).
Proof.
  repeat split; try reflexivity.
  - intros [bits H]. unfold ltdcBitsPerPixel in H.
    destruct (Z.ltb_spec pf LTDC_MAX_PIXFMT_ID); [assumption | discriminate].
  - intros H. unfold ltdcBitsPerPixel.
    apply Z.ltb_lt in H. rewrite H. eexists. reflexivity.
Qed.

Lemma ltdcBytesPerPixel_values (pf : Z) :
  0 <= pf < LTDC_MAX_PIXFMT_ID ->
  exists bytes, ltdcBytesPerPixel pf = Done bytes /\ 1 <= bytes <= 4.
Proof.
  unfold LTDC_MAX_PIXFMT_ID. intros H.
  assert (C : pf = 0 \/ pf = 1 \/ pf = 2 \/ pf = 3 \/ pf = 4 \/ pf = 5 \/ pf = 6)
    by lia.
  destruct C as [-> | [-> | [-> | [-> | [-> | [-> | ->]]]]]];
    (eexists; split; [reflexivity | cbv; split; discriminate]).
Qed.

Lemma ltdcBytesPerPixel_Done_inv (pf bytes : Z) :
  0 <= pf -> ltdcBytesPerPixel pf = Done bytes ->
  pf < LTDC_MAX_PIXFMT_ID /\ 1 <= bytes <= 4.
Proof.
  intros H0 H.
  assert (Hlt : pf < LTDC_MAX_PIXFMT_ID).
  { unfold ltdcBytesPerPixel, ltdcBitsPerPixel in H.
    destruct (Z.ltb_spec pf LTDC_MAX_PIXFMT_ID); [assumption | discriminate]. }
  split; [exact Hlt|].
  destruct (ltdcBytesPerPixel_values pf (conj H0 Hlt)) as (b & Hb & Hr).
  rewrite Hb in H. inversion H. subst. exact Hr.
Qed.

Lemma saturated_channel (c mask sh fill output field : Z) :
  Z.land c mask = mask ->
  mask <> 0 ->
  Z.land (Z.lor (shl32 mask sh) fill) field = field ->
  Z.land (expand_channel c mask sh fill output) field = field.
Proof.
  intros Hc Hm Hf. unfold expand_channel, nonzero. rewrite Hc.
  apply Z.eqb_neq in Hm. rewrite Hm. simpl.
  rewrite Z.land_lor_distr_l, Hf.
  apply Z.bits_inj'. intros i _.
  rewrite Z.lor_spec, Z.land_spec.
  destruct (Z.testbit field i); [apply Bool.orb_true_r|].
  rewrite Bool.andb_false_r. reflexivity.
Qed.

Lemma land_lor_keeps (a b field : Z) :
  Z.land a field = field -> Z.land (Z.lor a b) field = field.
Proof.
  intros H. rewrite Z.land_lor_distr_l, H.
  apply Z.bits_inj'. intros i _.
  rewrite Z.lor_spec, Z.land_spec.
  destruct (Z.testbit field i); [reflexivity|].
  rewrite Bool.andb_false_r. reflexivity.
Qed.

Lemma expand_channel_keeps (c mask sh fill output field : Z) :
  Z.land output field = field ->
  Z.land (expand_channel c mask sh fill output) field = field.
Proof.
  intros H. unfold expand_channel.
  destruct (nonzero (Z.land c mask)); [|exact H].
  apply land_lor_keeps. exact H.
Qed.

Lemma all_from_spec (P : Z -> bool) (n : nat) :
  forall i, all_from n i P = true ->
  forall c, i <= c < i + Z.of_nat n -> P c = true.
Proof.
  induction n as [| n IH]; intros i H c Hc.
  - lia.
  - cbn [all_from] in H. apply Bool.andb_true_iff in H. destruct H as [H0 H1].
    destruct (Z.eq_dec c i) as [-> | Hne]; [exact H0|].
    apply (IH (i + 1) H1). lia.
Qed.

Lemma ltdcToARGB8888_rgb565 (c : Z) :
  ltdcToARGB8888 c LTDC_FMT_RGB565
  = Done (expand_channel c 0xF800 (24 - 16) 0x00070000
            (expand_channel c 0x07E0 (16 - 11) 0x00000300
               (expand_channel c 0x001F (8 - 5) 0x00000007 0xFF000000))).
Proof. reflexivity. Qed.

Lemma land_low16 (c m : Z) : Z.land 0xFFFF m = m -> Z.land (Z.land c 0xFFFF) m = Z.land c m.
Proof. intros E. rewrite <- Z.land_assoc, E. reflexivity. Qed.

Lemma ltdcToARGB8888_rgb565_low16 (c : Z) :
  ltdcToARGB8888 c LTDC_FMT_RGB565 = ltdcToARGB8888 (Z.land c 0xFFFF) LTDC_FMT_RGB565.
Proof.
  rewrite !ltdcToARGB8888_rgb565. unfold expand_channel.
  rewrite !(land_low16 c) by reflexivity. reflexivity.
Qed.

Lemma rgb565_expanded_low16 (expand : Z -> Z -> Z) (c : Z) :
  rgb565_expanded expand c = rgb565_expanded expand (Z.land c 0xFFFF).
Proof.
  unfold rgb565_expanded. cbv zeta.
  rewrite !Z.shiftr_land.
  change (Z.shiftr 0xFFFF 11) with 0x1F. change (Z.shiftr 0xFFFF 5) with 0x7FF.
  rewrite <- !Z.land_assoc.
  change (Z.land 0x1F 0x1F) with 0x1F. change (Z.land 0x7FF 0x3F) with 0x3F.
  change (Z.land 0xFFFF 0x1F) with 0x1F. reflexivity.
Qed.

Lemma land_low16_range (c : Z) : 0 <= Z.land c 0xFFFF < 0 + Z.of_nat (Z.to_nat 65536).
Proof.
  change 0xFFFF with (Z.ones 16). rewrite Z.land_ones by lia.
  pose proof (Z.mod_pos_bound c (2 ^ 16)). lia.
Qed.

Lemma rgb565_expansion_below_65536 :
  all_from (Z.to_nat 65536) 0
    (fun c => match ltdcToARGB8888 c LTDC_FMT_RGB565 with
              | Done x => (x =? rgb565_expanded channel_filled_with_ones c)
                          && match ltdcFromARGB8888 x LTDC_FMT_RGB565 with
                             | Done y => y =? c
                             | Halt _ => false
                             end
              | Halt _ => false
              end) = true.
Proof. vm_compute. reflexivity. Qed.

(** A field of [w] bits at position [p] of [c], moved down by [d]. *)
Lemma lane_shift (c w p d : Z) :
  0 <= w -> 0 <= d <= p ->
  Z.shiftr (Z.land c (Z.shiftl (Z.ones w) p)) d
  = Z.shiftl (Z.land (Z.shiftr c p) (Z.ones w)) (p - d).
Proof.
  intros Hw Hd. apply Z.bits_inj'. intros i Hi.
  rewrite Z.shiftr_spec by lia. rewrite Z.land_spec.
  rewrite !Z.shiftl_spec by lia.
  rewrite (Z.testbit_ones w (i + d - p)) by lia.
  destruct (Z.ltb_spec (i - (p - d)) 0) as [Hneg | Hpos].
  - rewrite (Z.testbit_neg_r _ (i - (p - d))) by lia.
    replace (0 <=? i + d - p) with false by (symmetry; apply Z.leb_gt; lia).
    cbn [andb]. apply Bool.andb_false_r.
  - rewrite Z.land_spec. rewrite Z.shiftr_spec by lia.
    rewrite (Z.testbit_ones w (i - (p - d))) by lia.
    replace (i - (p - d) + p) with (i + d) by lia.
    replace (i - (p - d)) with (i + d - p) by lia. reflexivity.
Qed.

Lemma lor_reversed (a b c : Z) : Z.lor (Z.lor a b) c = Z.lor (Z.lor c b) a.
Proof.
  rewrite (Z.lor_comm (Z.lor a b) c), (Z.lor_comm a b). apply Z.lor_assoc.
Qed.

Lemma ltdcFromARGB8888_rgb565 (c : Z) :
  ltdcFromARGB8888 c LTDC_FMT_RGB565 = Done (rgb565_reduced c).
Proof.
  change (ltdcFromARGB8888 c LTDC_FMT_RGB565)
    with (Done (Z.lor (Z.lor
                  (Z.shiftr (Z.land c (Z.shiftl (Z.ones 5) 3)) 3)
                  (Z.shiftr (Z.land c (Z.shiftl (Z.ones 6) 10)) 5))
                  (Z.shiftr (Z.land c (Z.shiftl (Z.ones 5) 19)) 8))).
  rewrite !lane_shift by lia.
  unfold rgb565_reduced. cbv zeta.
  rewrite !Z.shiftr_land, !Z.shiftr_shiftr by lia.
  change (Z.shiftr 0xFF 3) with (Z.ones 5). change (Z.shiftr 0xFF 2) with (Z.ones 6).
  change (3 - 3) with 0. change (10 - 5) with 5. change (19 - 8) with 11.
  change (16 + 3) with 19. change (8 + 2) with 10.
  rewrite Z.shiftl_0_r.
  f_equal. apply lor_reversed.
Qed.

(** C8, amended: [ltdcFromARGB8888(0xFF00FF00, RGB-565)] is [0x07E0] and
    [ltdcToARGB8888(0x07E0, RGB-565)] is [0xFF00FF00] exactly, because the
    expansion fills the missing low bits of every channel that is not 0 with
    ones, and leaves a channel of 0 at 0, so that a channel with all its bits
    set comes out as 0xFF.  For every colour the expansion from RGB-565 is
    the channel-wise expansion with that filling under an alpha of 0xFF, and
    the reduction to RGB-565 keeps the high 5, 6 and 5 bits of red, green
    and blue; expanding an RGB-565 colour and reducing it again gives the
    colour back. *)
Theorem rgb565_color_round_trip :
  ltdcFromARGB8888 0xFF00FF00 LTDC_FMT_RGB565 = Done 0x07E0
  /\ ltdcToARGB8888 0x07E0 LTDC_FMT_RGB565 = Done 0xFF00FF00
  /\ (forall c : Z, exists out,
        ltdcToARGB8888 c LTDC_FMT_RGB565 = Done out
        /\ Z.land out 0xFF000000 = 0xFF000000
        /\ (Z.land c 0x001F = 0x001F -> Z.land out 0x000000FF = 0x000000FF)
        /\ (Z.land c 0x07E0 = 0x07E0 -> Z.land out 0x0000FF00 = 0x0000FF00)
        /\ (Z.land c 0xF800 = 0xF800 -> Z.land out 0x00FF0000 = 0x00FF0000))
  /\ (forall c : Z,
        ltdcToARGB8888 c LTDC_FMT_RGB565
        = Done (rgb565_expanded channel_filled_with_ones c))
  /\ (forall c : Z, ltdcFromARGB8888 c LTDC_FMT_RGB565 = Done (rgb565_reduced c))
  /\ channel_filled_with_ones 5 0x1F = 0xFF
  /\ channel_filled_with_ones 6 0x3F = 0xFF
  /\ (forall n : Z, channel_filled_with_ones n 0 = 0)
  /\ (forall c : Z,
        0 <= c < 2 ^ 16 ->
        exists x,
          ltdcToARGB8888 c LTDC_FMT_RGB565 = Done x
          /\ ltdcFromARGB8888 x LTDC_FMT_RGB565 = Done c).
Proof.
  split; [reflexivity|]. split; [reflexivity|].
  split.
  { intros c. eexists. split; [reflexivity|].
    repeat split.
    - repeat apply expand_channel_keeps. reflexivity.
    - intros H. do 2 apply expand_channel_keeps.
      apply saturated_channel; [exact H | discriminate | reflexivity].
    - intros H. apply expand_channel_keeps.
      apply saturated_channel; [exact H | discriminate | reflexivity].
    - intros H.
      apply saturated_channel; [exact H | discriminate | reflexivity]. }
  split.
  { intros c.
    rewrite ltdcToARGB8888_rgb565_low16, (rgb565_expanded_low16 _ c).
    pose proof (all_from_spec _ _ _ rgb565_expansion_below_65536
                  (Z.land c 0xFFFF) (land_low16_range c)) as H.
    cbv beta in H.
    destruct (ltdcToARGB8888 (Z.land c 0xFFFF) LTDC_FMT_RGB565) as [x | msg];
      [| discriminate H].
    apply Bool.andb_true_iff in H. destruct H as [H _].
    apply Z.eqb_eq in H. rewrite H. reflexivity. }
  split; [exact ltdcFromARGB8888_rgb565|].
  split; [reflexivity|]. split; [reflexivity|]. split; [intros n; reflexivity|].
  intros c Hc.
  assert (Hr : 0 <= c < 0 + Z.of_nat (Z.to_nat 65536)) by (rewrite Z2Nat.id; lia).
  pose proof (all_from_spec _ _ _ rgb565_expansion_below_65536 c Hr) as H.
  cbv beta in H.
  destruct (ltdcToARGB8888 c LTDC_FMT_RGB565) as [x | msg]; [| discriminate H].
  apply Bool.andb_true_iff in H. destruct H as [_ H].
  exists x. split; [reflexivity|].
  destruct (ltdcFromARGB8888 x LTDC_FMT_RGB565) as [y | msg]; [| discriminate H].
  apply Z.eqb_eq in H. rewrite H. reflexivity.
Qed.

(** The colour 0x07E0 has its green channel saturated: it expands to a
    green byte of 0xFF, and the expansion reduces to 0x07E0 again. *)
Lemma rgb565_color_round_trip_witness :
  Z.land 0x07E0 0x07E0 = 0x07E0
  /\ 0 <= 0x07E0 < 2 ^ 16
  /\ (exists out, ltdcToARGB8888 0x07E0 LTDC_FMT_RGB565 = Done out
                  /\ Z.land out 0x0000FF00 = 0x0000FF00)
  /\ (exists x, ltdcToARGB8888 0x07E0 LTDC_FMT_RGB565 = Done x
                /\ ltdcFromARGB8888 x LTDC_FMT_RGB565 = Done 0x07E0).
Proof.
  split; [reflexivity|]. split; [lia|].
  destruct rgb565_color_round_trip as (_ & _ & H & _ & _ & _ & _ & _ & R).
  split.
  - destruct (H 0x07E0) as (out & Hout & _ & _ & Hg & _).
    exists out. split; [exact Hout | apply Hg; reflexivity].
  - apply R. lia.
Defined.

(** C8 as stated fails on the code.  Replicating the high bits of a channel
    into its missing low bits takes the 5-bit channel 0x01 to 0x08 (and 0x1F
    to 0xFF), so the RGB-565 colour 0x0001 would expand to 0xFF000008; the
    code fills the low bits of a channel that is not 0 with ones and returns
    0xFF00000F. *)
Lemma rgb565_color_round_trip_counterexample :
  channel_replicated 5 0x01 = 0x08
  /\ channel_replicated 5 0x1F = 0xFF
  /\ rgb565_expanded channel_replicated 0x0001 = 0xFF000008
  /\ ltdcToARGB8888 0x0001 LTDC_FMT_RGB565 = Done 0xFF00000F
  /\ ltdcToARGB8888 0x0001 LTDC_FMT_RGB565
     <> Done (rgb565_expanded channel_replicated 0x0001).
Proof.
  split; [reflexivity|]. split; [reflexivity|]. split; [reflexivity|].
  split; [reflexivity|].
  intros E. vm_compute in E. discriminate E.
Qed.

(** ** Layer predicates *)

Section LayerPredicates.
Context {hw : ltdc_hw}.

(** [(LTDC_LayerN->CR & ~BIT) != 0]: true exactly when a bit of the control
    register that is not in [BIT] is set. *)
Lemma masked_out_test (l : ltdc_layer) (w : ltdc_world) (BIT : Z) :
  is_u32 BIT ->
  exists b,
    (r <- Lx_rd l CR ;; ret (nonzero (Z.land r (not32 BIT)))) w = (Done b, w)
    /\ (b = true <->
        exists i, 0 <= i < 32
                  /\ Z.testbit (CR (layer_regs l (mach w))) i = true
                  /\ Z.testbit BIT i = false).
Proof.
  intros HB. eexists. split; [reflexivity|].
  apply nonzero_land_not32. exact HB.
Qed.

(** C3: on either layer, is-enabled, is-palette-enabled and is-keying-enabled
    read the control register masked with the complement of the queried bit;
    each one leaves the machine as it was and returns true exactly when some
    bit of the 32-bit control register other than the queried one is set. *)
Theorem layer_predicates_wide (w : ltdc_world) :
  is_u32 LTDC_LxCR_LEN -> is_u32 LTDC_LxCR_CLUTEN -> is_u32 LTDC_LxCR_COLKEN ->
  (exists b, ltdcBgIsEnabledI w = (Done b, w)
     /\ (b = true <-> exists i, 0 <= i < 32
           /\ Z.testbit (CR (LTDC_Layer1 (mach w))) i = true
           /\ Z.testbit LTDC_LxCR_LEN i = false))
  /\ (exists b, ltdcFgIsEnabledI w = (Done b, w)
     /\ (b = true <-> exists i, 0 <= i < 32
           /\ Z.testbit (CR (LTDC_Layer2 (mach w))) i = true
           /\ Z.testbit LTDC_LxCR_LEN i = false))
  /\ (exists b, ltdcBgIsPaletteEnabledI w = (Done b, w)
     /\ (b = true <-> exists i, 0 <= i < 32
           /\ Z.testbit (CR (LTDC_Layer1 (mach w))) i = true
           /\ Z.testbit LTDC_LxCR_CLUTEN i = false))
  /\ (exists b, ltdcFgIsPaletteEnabledI w = (Done b, w)
     /\ (b = true <-> exists i, 0 <= i < 32
           /\ Z.testbit (CR (LTDC_Layer2 (mach w))) i = true
           /\ Z.testbit LTDC_LxCR_CLUTEN i = false))
  /\ (exists b, ltdcBgIsKeyingEnabledI w = (Done b, w)
     /\ (b = true <-> exists i, 0 <= i < 32
           /\ Z.testbit (CR (LTDC_Layer1 (mach w))) i = true
           /\ Z.testbit LTDC_LxCR_COLKEN i = false))
  /\ (exists b, ltdcFgIsKeyingEnabledI w = (Done b, w)
     /\ (b = true <-> exists i, 0 <= i < 32
           /\ Z.testbit (CR (LTDC_Layer2 (mach w))) i = true
           /\ Z.testbit LTDC_LxCR_COLKEN i = false)).
Proof.
  intros Hen Hclut Hkey.
  repeat split.
  - exact (masked_out_test Bg w _ Hen).
  - exact (masked_out_test Fg w _ Hen).
  - exact (masked_out_test Bg w _ Hclut).
  - exact (masked_out_test Fg w _ Hclut).
  - exact (masked_out_test Bg w _ Hkey).
  - exact (masked_out_test Fg w _ Hkey).
Qed.

End LayerPredicates.

(** On the target silicon, with the foreground layer's palette switched on
    and the layer itself off, is-enabled answers true: bit 4 is set and is not
    the enable bit. *)
Lemma layer_predicates_wide_witness :
  is_u32 (@LTDC_LxCR_LEN stm32f4_hw)
  /\ is_u32 (@LTDC_LxCR_CLUTEN stm32f4_hw)
  /\ is_u32 (@LTDC_LxCR_COLKEN stm32f4_hw)
  /\ exists b,
       ltdcFgIsEnabledI (hw := stm32f4_hw)
         (upd_layer Fg (set_CR 0x10) world_480x272)
       = (Done b, upd_layer Fg (set_CR 0x10) world_480x272)
       /\ (b = true <->
           exists i, 0 <= i < 32
             /\ Z.testbit (CR (LTDC_Layer2 (mach (upd_layer Fg (set_CR 0x10) world_480x272)))) i = true
             /\ Z.testbit (@LTDC_LxCR_LEN stm32f4_hw) i = false).
Proof.
  assert (H1 : is_u32 (@LTDC_LxCR_LEN stm32f4_hw)) by (unfold is_u32; simpl; lia).
  assert (H2 : is_u32 (@LTDC_LxCR_CLUTEN stm32f4_hw)) by (unfold is_u32; simpl; lia).
  assert (H3 : is_u32 (@LTDC_LxCR_COLKEN stm32f4_hw)) by (unfold is_u32; simpl; lia).
  split; [exact H1|]. split; [exact H2|]. split; [exact H3|].
  exact (proj1 (proj2 (layer_predicates_wide (hw := stm32f4_hw)
                         (upd_layer Fg (set_CR 0x10) world_480x272) H1 H2 H3))).
Defined.

(** ** Palette writes *)

Section Palette.
Context {hw : ltdc_hw}.

Lemma upd_layer_compose (l : ltdc_layer) (f g : LTDC_Layer_TypeDef -> LTDC_Layer_TypeDef)
    (w : ltdc_world) :
  upd_layer l g (upd_layer l f w) = upd_layer l (fun r => g (f r)) w.
Proof. destruct l; reflexivity. Qed.

Lemma upd_layer_ext (l : ltdc_layer) (f g : LTDC_Layer_TypeDef -> LTDC_Layer_TypeDef)
    (w : ltdc_world) :
  f (layer_regs l (mach w)) = g (layer_regs l (mach w)) ->
  upd_layer l f w = upd_layer l g w.
Proof. destruct l; simpl; unfold upd_layer; simpl; intros ->; reflexivity. Qed.

Lemma layer_regs_upd_layer (l : ltdc_layer) (f : LTDC_Layer_TypeDef -> LTDC_Layer_TypeDef)
    (w : ltdc_world) :
  layer_regs l (mach (upd_layer l f w)) = f (layer_regs l (mach w)).
Proof. destruct l; reflexivity. Qed.

Lemma stores_CLUTWR_nil (l : ltdc_layer) (w : ltdc_world) :
  upd_layer l (stores_CLUTWR []) w = w.
Proof.
  destruct w as [[g r1 r2 d] evs].
  destruct l; unfold upd_layer, stores_CLUTWR; simpl; rewrite app_nil_r.
  - destruct r1; reflexivity.
  - destruct r2; reflexivity.
Qed.

Lemma stores_CLUTWR_cons (l : ltdc_layer) (v : Z) (vs : list Z) (w : ltdc_world) :
  upd_layer l (stores_CLUTWR vs) (upd_layer l (store_CLUTWR v) w)
  = upd_layer l (stores_CLUTWR (v :: vs)) w.
Proof.
  rewrite upd_layer_compose. apply upd_layer_ext.
  unfold stores_CLUTWR, store_CLUTWR. simpl.
  rewrite <- app_assoc. reflexivity.
Qed.

(** The loop of the palette setter stores one word per colour, in the order
    of the array, each with its slot in the bits 31..24 and the low 24 bits of
    the colour below. *)
Lemma palette_loop_spec (l : ltdc_layer) (colors : list Z) :
  forall (n : nat) (i : Z) (w : ltdc_world),
    0 <= i ->
    (Z.to_nat i + n <= List.length colors)%nat ->
    i + Z.of_nat n <= 2 ^ 16 ->
    palette_loop l colors i n w
    = (Done tt,
       upd_layer l
         (stores_CLUTWR (palette_words (firstn n (skipn (Z.to_nat i) colors)) i)) w).
Proof.
  induction n as [| n IH]; intros i w Hi Hlen Hwrap.
  - simpl. rewrite stores_CLUTWR_nil. reflexivity.
  - assert (Hnth : exists c rest, skipn (Z.to_nat i) colors = c :: rest
                                  /\ nth_error colors (Z.to_nat i) = Some c
                                  /\ skipn (Datatypes.S (Z.to_nat i)) colors = rest).
    { destruct (skipn (Z.to_nat i) colors) as [| c rest] eqn:E.
      - apply (f_equal (@List.length Z)) in E. rewrite length_skipn in E.
        simpl in E. lia.
      - exists c, rest. split; [reflexivity|]. split.
        + rewrite <- (firstn_skipn (Z.to_nat i) colors) at 1.
          rewrite nth_error_app2 by (rewrite length_firstn; lia).
          rewrite length_firstn.
          replace (Z.to_nat i - Nat.min (Z.to_nat i) (List.length colors))%nat
            with 0%nat by lia.
          rewrite E. reflexivity.
        + replace (Datatypes.S (Z.to_nat i)) with (1 + Z.to_nat i)%nat by lia.
          rewrite <- skipn_skipn, E. reflexivity. }
    destruct Hnth as (c & rest & Hskip & Hc & Hrest).
    simpl palette_loop. unfold read_color. rewrite Hc.
    unfold bind at 1. unfold ret at 1.
    unfold bind at 1. unfold Lx_wr at 1. unfold modify at 1.
    rewrite Hskip. simpl firstn. simpl palette_words.
    destruct n as [| n].
    + simpl. rewrite <- (stores_CLUTWR_cons l _ [] w), stores_CLUTWR_nil.
      reflexivity.
    + assert (Hsmall : 0 <= i + 1 < 2 ^ 16) by lia.
      rewrite (u16_small (i + 1)) by exact Hsmall.
      rewrite IH by lia.
      replace (Z.to_nat (i + 1)) with (Datatypes.S (Z.to_nat i)) by lia.
      rewrite Hrest. rewrite stores_CLUTWR_cons. reflexivity.
Qed.

(** The palette setter on a non-empty array of at most 256 colours: the guard
    is the is-enabled predicate, and behind it the loop stores the words. *)
Lemma ltdcLxSetPaletteI_spec (l : ltdc_layer) (colors : list Z) (w : ltdc_world) :
  colors <> [] ->
  Z.of_nat (List.length colors) <= LTDC_MAX_PALETTE_LENGTH ->
  ltdcLxSetPaletteI l (Some colors) (Z.of_nat (List.length colors)) w
  = if nonzero (Z.land (CR (layer_regs l (mach w))) (not32 LTDC_LxCR_LEN))
    then (Halt (fn l "SetPaletteI(), #2"), w)
    else (Done tt, upd_layer l (stores_CLUTWR (palette_words colors 0)) w).
Proof.
  intros Hne Hlen. unfold ltdcLxSetPaletteI.
  assert (Hn0 : (Z.of_nat (List.length colors) =? 0) = false).
  { apply Z.eqb_neq. destruct colors; [contradiction | simpl; lia]. }
  rewrite Hn0. simpl Bool.eqb.
  apply Z.leb_le in Hlen. rewrite Hlen.
  unfold chDbgCheck, chDbgAssert.
  unfold bind at 1. unfold ret at 1.
  unfold bind at 1. unfold ret at 1.
  unfold bind at 1. unfold ltdcLxIsEnabledI, Lx_rd, gets.
  unfold bind at 1. unfold ret at 1.
  destruct (nonzero (Z.land (CR (layer_regs l (mach w))) (not32 LTDC_LxCR_LEN))).
  - reflexivity.
  - simpl negb. unfold bind at 1. unfold ret at 1.
    rewrite Nat2Z.id.
    rewrite palette_loop_spec.
    + simpl skipn. rewrite firstn_all. reflexivity.
    + lia.
    + simpl. lia.
    + apply Z.leb_le in Hlen. unfold LTDC_MAX_PALETTE_LENGTH in Hlen. lia.
Qed.

(** The single-slot setter: the same guard, one word stored. *)
Lemma ltdcLxSetPaletteColorI_spec (l : ltdc_layer) (slot c : Z) (w : ltdc_world) :
  ltdcLxSetPaletteColorI l slot c w
  = if nonzero (Z.land (CR (layer_regs l (mach w))) (not32 LTDC_LxCR_LEN))
    then (Halt (fn l "SetPaletteColorI(), #1"), w)
    else (Done tt,
          upd_layer l (store_CLUTWR (Z.lor (shl32 (u32 slot) 24) (Z.land c 0x00FFFFFF))) w).
Proof.
  unfold ltdcLxSetPaletteColorI, ltdcLxIsEnabledI, Lx_rd, gets, chDbgAssert.
  unfold bind at 1. unfold bind at 1. unfold ret at 1.
  destruct (nonzero (Z.land (CR (layer_regs l (mach w))) (not32 LTDC_LxCR_LEN)));
    reflexivity.
Qed.

End Palette.

(** C4 (the code departs from it): the palette setters are documented to
    require a disabled layer, and guard themselves with the is-enabled
    predicate, which looks at every control bit but the enable bit.  On the
    target silicon, whatever the rest of the machine:
    - with the enable bit as the only control bit set (layer enabled), both
      setters pass their guard, and set-palette stores its sixteen words;
    - with the enable bit clear and the palette bit set (layer disabled),
      both setters halt on the guard and store nothing.
    The words stored hold the slot 0..15 in the bits 31..24 and the colour in
    the low 24 bits.  The same happens in the scenario: after enabling the
    foreground layer of the started driver, set-palette goes through. *)
Theorem palette_guard_on_other_bits :
  (forall (l : ltdc_layer) (w : ltdc_world),
      ltdcLxIsEnabledI (hw := stm32f4_hw) l (upd_layer l (set_CR 0x01) w)
      = (Done false, upd_layer l (set_CR 0x01) w)
      /\ ltdcLxSetPaletteI (hw := stm32f4_hw) l (Some sixteen_colors) 16
           (upd_layer l (set_CR 0x01) w)
         = (Done tt, upd_layer l (stores_CLUTWR (palette_words sixteen_colors 0))
                       (upd_layer l (set_CR 0x01) w))
      /\ ltdcLxSetPaletteColorI (hw := stm32f4_hw) l 3 0xABCDEF
           (upd_layer l (set_CR 0x01) w)
         = (Done tt, upd_layer l (store_CLUTWR 0x03ABCDEF) (upd_layer l (set_CR 0x01) w)))
  /\ (forall (l : ltdc_layer) (w : ltdc_world),
      ltdcLxIsEnabledI (hw := stm32f4_hw) l (upd_layer l (set_CR 0x10) w)
      = (Done true, upd_layer l (set_CR 0x10) w)
      /\ ltdcLxSetPaletteI (hw := stm32f4_hw) l (Some sixteen_colors) 16
           (upd_layer l (set_CR 0x10) w)
         = (Halt (fn l "SetPaletteI(), #2"), upd_layer l (set_CR 0x10) w)
      /\ ltdcLxSetPaletteColorI (hw := stm32f4_hw) l 3 0xABCDEF
           (upd_layer l (set_CR 0x10) w)
         = (Halt (fn l "SetPaletteColorI(), #1"), upd_layer l (set_CR 0x10) w))
  /\ palette_words sixteen_colors 0
     = [ 0x00000000; 0x01800000; 0x02008000; 0x03808000
       ; 0x04000080; 0x05800080; 0x06008080; 0x07C0C0C0
       ; 0x08808080; 0x09FF0000; 0x0A00FF00; 0x0BFFFF00
       ; 0x0C0000FF; 0x0DFF00FF; 0x0E00FFFF; 0x0FFFFFFF ]
  /\ (exists w',
        (ltdcFgEnableI (hw := stm32f4_hw) ;;
         ltdcFgSetPaletteI (hw := stm32f4_hw) (Some sixteen_colors) 16) world_480x272
        = (Done tt, w')
        /\ CR (LTDC_Layer2 (mach w')) = 0x01
        /\ CLUTWR (LTDC_Layer2 (mach w')) = palette_words sixteen_colors 0)
  /\ fst ((ltdcFgDisableI (hw := stm32f4_hw) ;;
           ltdcLxEnablePaletteI (hw := stm32f4_hw) Fg ;;
           ltdcFgSetPaletteI (hw := stm32f4_hw) (Some sixteen_colors) 16) world_480x272)
     = Halt "ltdcFgSetPaletteI(), #2".
Proof.
  split; [|split; [|split; [|split]]].
  - intros l w. split; [|split].
    + destruct l; reflexivity.
    + change 16 with (Z.of_nat (List.length sixteen_colors)).
      rewrite ltdcLxSetPaletteI_spec.
      * rewrite layer_regs_upd_layer. reflexivity.
      * discriminate.
      * unfold LTDC_MAX_PALETTE_LENGTH. simpl. lia.
    + rewrite ltdcLxSetPaletteColorI_spec.
      rewrite layer_regs_upd_layer. reflexivity.
  - intros l w. split; [|split].
    + destruct l; reflexivity.
    + change 16 with (Z.of_nat (List.length sixteen_colors)).
      rewrite ltdcLxSetPaletteI_spec.
      * rewrite layer_regs_upd_layer. reflexivity.
      * discriminate.
      * unfold LTDC_MAX_PALETTE_LENGTH. simpl. lia.
    + rewrite ltdcLxSetPaletteColorI_spec.
      rewrite layer_regs_upd_layer. reflexivity.
  - reflexivity.
  - eexists. split; [vm_compute; reflexivity|]. split; reflexivity.
  - vm_compute. reflexivity.
Qed.

(** ** The panel driver's transfers *)

Lemma ili_guard_halts {A : Type} (msg : string)
    (k : M ili_world A) (w : ili_world) :
  ili_state (driver w) <> ILI9341_ACTIVE ->
  (st <- ili_rd ili_state ;;
   chDbgAssert (ili9341state_eqb st ILI9341_ACTIVE) msg ;; k) w
  = (Halt msg, w).
Proof.
  intros H. unfold bind, ili_rd, gets, chDbgAssert, chDbgPanic.
  destruct (ili_state (driver w)); try reflexivity. contradiction.
Qed.

(** C9: every transfer operation of the panel driver needs the state ACTIVE.
    In any other state write-command, write-byte, read-byte, write-chunk and
    read-chunk halt on an assertion with the driver object, the D/CX pad and
    the SPI endpoint untouched (read-byte on its leading "should not be used"
    assertion, which stands before the check of the state).  In the state
    ACTIVE the write operations and read-chunk go on to drive the pad and
    then the SPI endpoint. *)
Theorem ili9341_transfers_need_active :
  (forall w : ili_world,
      ili_state (driver w) <> ILI9341_ACTIVE ->
      (forall cmd, ili9341WriteCommand cmd w = (Halt "ili9341WriteCommand(), #1", w))
      /\ (forall v, ili9341WriteByte v w = (Halt "ili9341WriteByte(), #1", w))
      /\ ili9341ReadByte w = (Halt "ili9341ReadByte()", w)
      /\ (forall bytes n,
            ili9341WriteChunk (Some bytes) n w = (Halt "ili9341WriteChunk(), #1", w))
      /\ (forall bytes n,
            ili9341ReadChunk (Some bytes) n w = (Halt "ili9341ReadChunk(), #1", w)))
  /\ (forall (w : ili_world) (cfg : ILI9341Config),
      ili_state (driver w) = ILI9341_ACTIVE ->
      ili_config (driver w) = Some cfg ->
      (forall cmd,
          ili9341WriteCommand cmd w
          = (Done tt,
             mk_iliworld (mk_ilidriver ILI9341_ACTIVE (Some cfg) (u8 cmd))
                         (bus w ++ [PalClearPad (dcx_port cfg) (dcx_pad cfg);
                                    SpiSend (spi cfg) 1 [u8 cmd]])
                         (miso w) (rx_count w)))
      /\ (forall v,
          ili9341WriteByte v w
          = (Done tt,
             mk_iliworld (mk_ilidriver ILI9341_ACTIVE (Some cfg) (u8 v))
                         (bus w ++ [PalSetPad (dcx_port cfg) (dcx_pad cfg);
                                    SpiSend (spi cfg) 1 [u8 v]])
                         (miso w) (rx_count w)))
      /\ (forall bytes n,
          0 < n <= Z.of_nat (List.length bytes) ->
          ili9341WriteChunk (Some bytes) n w
          = (Done tt,
             mk_iliworld (driver w)
                         (bus w ++ [PalSetPad (dcx_port cfg) (dcx_pad cfg);
                                    SpiSend (spi cfg) n (firstn (Z.to_nat n) bytes)])
                         (miso w) (rx_count w)))
      /\ (forall bytes n,
          0 < n <= Z.of_nat (List.length bytes) ->
          ili9341ReadChunk (Some bytes) n w
          = (Done (map (miso w) (seq (rx_count w) (Z.to_nat n))
                   ++ skipn (Z.to_nat n) bytes)%list,
             mk_iliworld (driver w)
                         (bus w ++ [PalSetPad (dcx_port cfg) (dcx_pad cfg);
                                    SpiReceive (spi cfg) n
                                      (map (miso w) (seq (rx_count w) (Z.to_nat n)))])
                         (miso w) (rx_count w + Z.to_nat n)%nat))).
Proof.
  split.
  - intros w H. repeat split.
    + intros cmd. unfold ili9341WriteCommand. apply ili_guard_halts. exact H.
    + intros v. unfold ili9341WriteByte. apply ili_guard_halts. exact H.
    + intros bytes n. unfold ili9341WriteChunk.
      apply ili_guard_halts. exact H.
    + intros bytes n. unfold ili9341ReadChunk.
      apply ili_guard_halts. exact H.
  - intros w cfg Hst Hcfg. destruct w as [[st c v0] b m k]. simpl in Hst, Hcfg. subst.
    repeat split.
    + intros cmd. unfold ili9341WriteCommand, spiSend.
      unfold bind, ili_rd, gets, chDbgAssert, ret, ili_set_value, ili_deref_config,
        ili_emit, modify. simpl.
      rewrite <- app_assoc. reflexivity.
    + intros v. unfold ili9341WriteByte, spiSend.
      unfold bind, ili_rd, gets, chDbgAssert, ret, ili_set_value, ili_deref_config,
        ili_emit, modify. simpl.
      rewrite <- app_assoc. reflexivity.
    + intros bytes n Hn. unfold ili9341WriteChunk.
      assert (E : (n =? 0) = false) by (apply Z.eqb_neq; lia).
      unfold bind, ili_rd, gets, chDbgAssert, ret. simpl. rewrite E.
      unfold ili_deref_config, bind, ili_rd, gets, ret, ili_emit, modify, spiSend. simpl.
      assert (E2 : (n <=? Z.of_nat (List.length bytes)) = true) by (apply Z.leb_le; lia).
      rewrite E2. unfold ili_emit, modify. simpl. rewrite <- app_assoc. reflexivity.
    + intros bytes n Hn. unfold ili9341ReadChunk.
      assert (E : (n =? 0) = false) by (apply Z.eqb_neq; lia).
      unfold bind, ili_rd, gets, chDbgAssert, ret. simpl. rewrite E.
      unfold ili_deref_config, bind, ili_rd, gets, ret, ili_emit, modify, spiReceive. simpl.
      assert (E2 : (n <=? Z.of_nat (List.length bytes)) = true) by (apply Z.leb_le; lia).
      rewrite E2. unfold bind, get, modify, ret. simpl.
      rewrite <- app_assoc. reflexivity.
Qed.

(** A panel driver that has been started but not selected is not ACTIVE;
    one that has been selected is. *)
Lemma ili9341_transfers_need_active_witness :
  ili9341WriteCommand 0x2C
    (mk_iliworld (mk_ilidriver ILI9341_READY (Some (mk_iliconfig (Some 1) 2 13)) 0)
                 [] (fun _ => 0) 0)
  = (Halt "ili9341WriteCommand(), #1",
     mk_iliworld (mk_ilidriver ILI9341_READY (Some (mk_iliconfig (Some 1) 2 13)) 0)
                 [] (fun _ => 0) 0)
  /\ ili9341WriteCommand 0x2C
       (mk_iliworld (mk_ilidriver ILI9341_ACTIVE (Some (mk_iliconfig (Some 1) 2 13)) 0)
                    [] (fun _ => 0) 0)
     = (Done tt,
        mk_iliworld (mk_ilidriver ILI9341_ACTIVE (Some (mk_iliconfig (Some 1) 2 13)) 0x2C)
                    [PalClearPad 2 13; SpiSend (Some 1) 1 [0x2C]] (fun _ => 0) 0).
Proof.
  split.
  - apply (proj1 ili9341_transfers_need_active); simpl; discriminate.
  - apply (proj1 (proj2 ili9341_transfers_need_active
                    (mk_iliworld (mk_ilidriver ILI9341_ACTIVE
                                    (Some (mk_iliconfig (Some 1) 2 13)) 0)
                                 [] (fun _ => 0) 0)
                    (mk_iliconfig (Some 1) 2 13) eq_refl eq_refl)).
Defined.

(** C10: on an ACTIVE driver, write-chunk and read-chunk of length zero with
    a non-null chunk complete at once: no event on the pad or on the SPI
    endpoint, the driver object as it was, the chunk as it was. *)
Theorem ili9341_empty_chunk (w : ili_world) (bytes : list Z) :
  ili_state (driver w) = ILI9341_ACTIVE ->
  ili9341WriteChunk (Some bytes) 0 w = (Done tt, w)
  /\ ili9341ReadChunk (Some bytes) 0 w = (Done bytes, w).
Proof.
  intros H.
  unfold ili9341WriteChunk, ili9341ReadChunk, bind, ili_rd, gets, chDbgAssert, ret.
  rewrite H. simpl. split; reflexivity.
Qed.

Lemma ili9341_empty_chunk_witness :
  ili9341WriteChunk (Some [0xAA; 0xBB]) 0
    (mk_iliworld (mk_ilidriver ILI9341_ACTIVE (Some (mk_iliconfig (Some 1) 2 13)) 0)
                 [SpiSelectI (Some 1)] (fun _ => 0x5A) 0)
  = (Done tt,
     mk_iliworld (mk_ilidriver ILI9341_ACTIVE (Some (mk_iliconfig (Some 1) 2 13)) 0)
                 [SpiSelectI (Some 1)] (fun _ => 0x5A) 0)
  /\ ili9341ReadChunk (Some [0xAA; 0xBB]) 0
       (mk_iliworld (mk_ilidriver ILI9341_ACTIVE (Some (mk_iliconfig (Some 1) 2 13)) 0)
                    [SpiSelectI (Some 1)] (fun _ => 0x5A) 0)
     = (Done [0xAA; 0xBB],
        mk_iliworld (mk_ilidriver ILI9341_ACTIVE (Some (mk_iliconfig (Some 1) 2 13)) 0)
                    [SpiSelectI (Some 1)] (fun _ => 0x5A) 0).
Proof.
  apply ili9341_empty_chunk. reflexivity.
Defined.

(** ** What the setters leave alone *)

Section Frames.
Context {hw : ltdc_hw}.

Lemma keeps_ltdc_force_reload_s : keeps_driver ltdc_force_reload_s.
Proof. unfold ltdc_force_reload_s, poll_SRCR, LTDC_rd. keeps_tac. Qed.

Lemma keeps_ltdcSetEnableFlagsI (flags : Z) : keeps_driver (ltdcSetEnableFlagsI flags).
Proof. unfold ltdcSetEnableFlagsI. keeps_tac. Qed.

Lemma keeps_ltdcSetClearColorI (c : Z) : keeps_driver (ltdcSetClearColorI c).
Proof. unfold ltdcSetClearColorI, LTDC_rd. keeps_tac. Qed.

Lemma keeps_palette_loop (l : ltdc_layer) (colors : list Z) (n : nat) :
  forall i, keeps_driver (palette_loop l colors i n).
Proof.
  induction n as [| n IH]; intros i; simpl.
  - apply keeps_ret.
  - unfold read_color. keeps_tac. apply IH.
Qed.

Lemma keeps_ltdcLxSetPaletteI (l : ltdc_layer) (colors : option (list Z)) (n : Z) :
  keeps_driver (ltdcLxSetPaletteI l colors n).
Proof.
  unfold ltdcLxSetPaletteI, ltdcLxIsEnabledI, Lx_rd. keeps_tac.
  apply keeps_palette_loop.
Qed.

Lemma keeps_ltdcLxSetFrameI (l : ltdc_layer) (framep : option ltdc_frame_t) :
  keeps_driver (ltdcLxSetFrameI l framep).
Proof. unfold ltdcLxSetFrameI, ltdcLxSetPixelFormatI, Lx_rd. keeps_tac. Qed.

Lemma keeps_ltdcLxSetWindowI (l : ltdc_layer) (windowp : option ltdc_window_t) :
  keeps_driver (ltdcLxSetWindowI l windowp).
Proof. unfold ltdcLxSetWindowI, drv_rd. keeps_tac. Qed.

Lemma keeps_ltdcLxSetConfigI (l : ltdc_layer) (cfgp : option ltdc_laycfg_t) :
  keeps_driver (ltdcLxSetConfigI l cfgp).
Proof.
  unfold ltdcLxSetConfigI.
  apply keeps_bind; [apply keeps_check | intros _].
  apply keeps_bind; [apply keeps_ltdcLxSetFrameI | intros _].
  apply keeps_bind; [apply keeps_ltdcLxSetWindowI | intros _].
  unfold ltdcLxSetDefaultColorI, ltdcLxSetKeyingColorI, ltdcLxSetConstantAlphaI,
    ltdcLxSetBlendingFactorsI, ltdcLxSetEnableFlagsI, Lx_rd.
  keeps_tac. apply keeps_palette_loop.
Qed.

End Frames.

(** ** Start *)

Section Start.
Context {hw : ltdc_hw}.

(** One statement of a call, for a goal about its completed runs. *)
Ltac wp_step :=
  lazymatch goal with
  | |- wp (bind _ _) _ _ => apply wp_bind
  | |- wp (ret _) _ _ => apply wp_ret
  | |- wp (chDbgAssert _ _) _ _ => apply wp_assert; intros _
  | |- wp (chDbgPanic _) _ _ => apply wp_panic
  | |- wp (emit _) _ _ => apply wp_modify
  | |- wp (LTDC_wr _ _) _ _ => apply wp_modify
  | |- wp (LTDC_rd _) _ _ => apply wp_gets
  | |- wp (drv_wr _ _) _ _ => apply wp_modify
  | |- wp (drv_rd _) _ _ => apply wp_gets
  | |- wp (store_state _) _ _ => unfold store_state
  end; cbv beta.

Ltac driver_simpl :=
  cbn [LTDCD1 mach upd_LTDC upd_driver upd_layer log_event
       state config active_window thread
       set_state set_config set_active_window set_thread
       hstart hstop vstart vstop set_hstart set_hstop set_vstart set_vstop] in *.

(** A call that leaves the driver object alone: the run goes on from a state
    with the same driver object, which is rewritten in terms of the first
    state. *)
Ltac wp_call K :=
  apply wp_keeps_driver; [apply K | intros ? ? ?];
  driver_simpl;
  repeat match goal with
         | H1 : LTDCD1 (mach ?s0) = _, H2 : LTDCD1 (mach _) = ?rhs |- _ =>
             lazymatch rhs with
             | context [LTDCD1 (mach s0)] => rewrite H1 in H2; clear H1
             end
         end;
  driver_simpl.

(** The driver object after a completed [ltdcStart]: READY, holding the
    configuration, with the active window computed from the accumulated
    back porch (start) and the accumulated active area (stop). *)
Lemma ltdcStart_driver (cfg : LTDCConfig) (w w' : ltdc_world) :
  ltdcStart (Some cfg) w = (Done tt, w') ->
  LTDCD1 (mach w')
  = mk_driver LTDC_READY (Some cfg)
      (mk_window
         (u16 (u32 (u32 (hsync_width cfg - 1) + hbp_width cfg) + 1))
         (u16 (u32 (u32 (u32 (hsync_width cfg - 1) + hbp_width cfg) + screen_width cfg)))
         (u16 (u32 (u32 (vsync_height cfg - 1) + vbp_height cfg) + 1))
         (u16 (u32 (u32 (u32 (vsync_height cfg - 1) + vbp_height cfg) + screen_height cfg))))
      (thread (LTDCD1 (mach w))).
Proof.
  intros H.
  refine (wp_Done _ (fun _ s' => LTDCD1 (mach s') = _) _ _ _ _ H). clear H w'.
  unfold ltdcStart.
  repeat wp_step.
  wp_call keeps_ltdc_force_reload_s.
  repeat wp_step.
  wp_call keeps_ltdcSetEnableFlagsI.
  repeat wp_step.
  wp_call keeps_ltdcSetClearColorI.
  repeat wp_step.
  wp_call (keeps_ltdcLxSetConfigI Bg).
  repeat wp_step.
  wp_call (keeps_ltdcLxSetConfigI Fg).
  repeat wp_step.
  wp_call keeps_ltdc_force_reload_s.
  repeat wp_step.
  wp_call keeps_ltdc_force_reload_s.
  repeat wp_step.
  driver_simpl.
  match goal with H : LTDCD1 (mach _) = _ |- _ => rewrite H end.
  unfold set_active_window, set_config, set_state,
    set_hstart, set_hstop, set_vstart, set_vstop.
  driver_simpl. reflexivity.
Qed.

End Start.

(** ** Window setter *)

Section Window.
Context {hw : ltdc_hw}.

Lemma driver_upd_layer (l : ltdc_layer) (f : LTDC_Layer_TypeDef -> LTDC_Layer_TypeDef)
    (w : ltdc_world) :
  LTDCD1 (mach (upd_layer l f w)) = LTDCD1 (mach w).
Proof. destruct l; reflexivity. Qed.

(** The window setter, statement by statement: the two checks against the
    screen, the horizontal translation with its two checks and the store to
    WHPCR, the vertical translation with its two checks and the store to
    WVPCR. *)
Lemma ltdcLxSetWindowI_run (l : ltdc_layer) (win : ltdc_window_t) (w : ltdc_world)
    (cfg : LTDCConfig) :
  config (LTDCD1 (mach w)) = Some cfg ->
  ltdcLxSetWindowI l (Some win) w
  = let aw := active_window (LTDCD1 (mach w)) in
    let hs := u32 (u32 (hstart win) + hstart aw) in
    let he := u32 (u32 (hstop win) + hstart aw) in
    let vs := u32 (u32 (vstart win) + vstart aw) in
    let ve := u32 (u32 (vstop win) + vstart aw) in
    let w1 := upd_layer l (set_WHPCR (Z.lor (Z.land (shl32 hs 0) LTDC_LxWHPCR_WHSTPOS)
                                           (Z.land (shl32 he 16) LTDC_LxWHPCR_WHSPPOS))) w in
    let w2 := upd_layer l (set_WVPCR (Z.lor (Z.land (shl32 vs 0) LTDC_LxWVPCR_WVSTPOS)
                                           (Z.land (shl32 ve 16) LTDC_LxWVPCR_WVSPPOS))) w1 in
    if negb (hstop win <? screen_width cfg) then (Halt (fn l "SetWindowI(), #11"), w)
    else if negb (vstop win <? screen_height cfg) then (Halt (fn l "SetWindowI(), #12"), w)
    else if negb (hs >=? hstart aw) then (Halt (fn l "SetWindowI(), #21"), w)
    else if negb (he <=? hstop aw) then (Halt (fn l "SetWindowI(), #22"), w)
    else if negb (vs >=? vstart aw) then (Halt (fn l "SetWindowI(), #31"), w1)
    else if negb (ve <=? vstop aw) then (Halt (fn l "SetWindowI(), #32"), w1)
    else (Done tt, w2).
Proof.
  intros Hcfg. cbv zeta.
  unfold ltdcLxSetWindowI, drv_config, drv_rd, gets, chDbgAssert, chDbgPanic.
  unfold bind at 1. unfold bind at 1. rewrite Hcfg. unfold ret at 1.
  unfold bind at 1.
  destruct (hstop win <? screen_width cfg); [|reflexivity]. unfold ret at 1.
  unfold bind at 1.
  destruct (vstop win <? screen_height cfg); [|reflexivity]. unfold ret at 1.
  unfold bind at 1. unfold bind at 1.
  destruct (u32 (u32 (hstart win) + hstart (active_window (LTDCD1 (mach w))))
            >=? hstart (active_window (LTDCD1 (mach w)))); [|reflexivity].
  unfold ret at 1. unfold bind at 1.
  destruct (u32 (u32 (hstop win) + hstart (active_window (LTDCD1 (mach w))))
            <=? hstop (active_window (LTDCD1 (mach w)))); [|reflexivity].
  unfold ret at 1. unfold bind at 1. unfold Lx_wr at 1, modify at 1.
  unfold bind at 1. rewrite driver_upd_layer.
  unfold bind at 1.
  destruct (u32 (u32 (vstart win) + vstart (active_window (LTDCD1 (mach w))))
            >=? vstart (active_window (LTDCD1 (mach w)))); [|reflexivity].
  unfold ret at 1. unfold bind at 1.
  destruct (u32 (u32 (vstop win) + vstart (active_window (LTDCD1 (mach w))))
            <=? vstop (active_window (LTDCD1 (mach w)))); reflexivity.
Qed.

Lemma u32_sum_u16 (a b : Z) : is_u16 a -> is_u16 b -> u32 (u32 a + b) = a + b.
Proof.
  unfold is_u16, u32. intros Ha Hb.
  rewrite (Z.mod_small a) by lia. apply Z.mod_small. lia.
Qed.

Lemma shl32_0 (x : Z) : is_u32 x -> shl32 x 0 = x.
Proof. intros Hx. unfold shl32. rewrite Z.shiftl_0_r. apply u32_small. exact Hx. Qed.

Lemma shl32_16_u16 (x : Z) : is_u16 x -> shl32 x 16 = Z.shiftl x 16.
Proof.
  unfold is_u16. intros Hx. unfold shl32. apply u32_small. unfold is_u32.
  rewrite Z.shiftl_mul_pow2 by lia. lia.
Qed.

(** The window setter on in-range coordinates: it completes exactly when the
    window ends inside the screen and its absolute coordinates, the relative
    ones plus the start of the active window, lie between the start and the
    stop of the active window on both axes; it then leaves the absolute
    horizontal pair in WHPCR and the vertical pair in WVPCR, start in the low
    field and stop in the field from bit 16. *)
Lemma ltdcLxSetWindowI_spec (l : ltdc_layer) (win : ltdc_window_t) (w : ltdc_world)
    (cfg : LTDCConfig) :
  config (LTDCD1 (mach w)) = Some cfg ->
  window_in_range win ->
  window_in_range (active_window (LTDCD1 (mach w))) ->
  ((exists w', ltdcLxSetWindowI l (Some win) w = (Done tt, w'))
   <-> (hstop win < screen_width cfg /\ vstop win < screen_height cfg
        /\ hstart (active_window (LTDCD1 (mach w)))
           <= hstart win + hstart (active_window (LTDCD1 (mach w)))
        /\ hstop win + hstart (active_window (LTDCD1 (mach w)))
           <= hstop (active_window (LTDCD1 (mach w)))
        /\ vstart (active_window (LTDCD1 (mach w)))
           <= vstart win + vstart (active_window (LTDCD1 (mach w)))
        /\ vstop win + vstart (active_window (LTDCD1 (mach w)))
           <= vstop (active_window (LTDCD1 (mach w)))))
  /\ (forall w', ltdcLxSetWindowI l (Some win) w = (Done tt, w') ->
        w' = upd_layer l
               (set_WVPCR
                  (Z.lor (Z.land (vstart win + vstart (active_window (LTDCD1 (mach w))))
                                 LTDC_LxWVPCR_WVSTPOS)
                         (Z.land (Z.shiftl (vstop win
                                            + vstart (active_window (LTDCD1 (mach w)))) 16)
                                 LTDC_LxWVPCR_WVSPPOS)))
               (upd_layer l
                  (set_WHPCR
                     (Z.lor (Z.land (hstart win + hstart (active_window (LTDCD1 (mach w))))
                                    LTDC_LxWHPCR_WHSTPOS)
                            (Z.land (Z.shiftl (hstop win
                                               + hstart (active_window (LTDCD1 (mach w)))) 16)
                                    LTDC_LxWHPCR_WHSPPOS)))
                  w)).
Proof.
  intros Hcfg (Hw1 & Hw2 & Hw3 & Hw4) (Ha1 & Ha2 & Ha3 & Ha4).
  rewrite (ltdcLxSetWindowI_run l win w cfg Hcfg). cbv zeta.
  set (aw := active_window (LTDCD1 (mach w))) in *.
  rewrite !u32_sum_u16 by assumption.
  assert (R : forall x y, is_u16 x -> is_u16 y -> is_u32 (x + y)).
  { unfold is_u16, is_u32. intros. lia. }
  rewrite !shl32_0 by (apply R; assumption).
  destruct (Z.ltb_spec (hstop win) (screen_width cfg)); simpl negb; cbv iota;
    [| split; [split; [intros [w' E]; discriminate E | lia]
              | intros w' E; discriminate E]].
  destruct (Z.ltb_spec (vstop win) (screen_height cfg)); simpl negb; cbv iota;
    [| split; [split; [intros [w' E]; discriminate E | lia]
              | intros w' E; discriminate E]].
  rewrite !Z.geb_leb.
  destruct (Z.leb_spec (hstart aw) (hstart win + hstart aw)); simpl negb; cbv iota;
    [| split; [split; [intros [w' E]; discriminate E | lia]
              | intros w' E; discriminate E]].
  destruct (Z.leb_spec (hstop win + hstart aw) (hstop aw)); simpl negb; cbv iota;
    [| split; [split; [intros [w' E]; discriminate E | lia]
              | intros w' E; discriminate E]].
  destruct (Z.leb_spec (vstart aw) (vstart win + vstart aw)); simpl negb; cbv iota;
    [| split; [split; [intros [w' E]; discriminate E | lia]
              | intros w' E; discriminate E]].
  destruct (Z.leb_spec (vstop win + vstart aw) (vstop aw)); simpl negb; cbv iota;
    [| split; [split; [intros [w' E]; discriminate E | lia]
              | intros w' E; discriminate E]].
  assert (He : is_u16 (hstop win + hstart aw)) by (unfold is_u16 in *; lia).
  assert (Hv : is_u16 (vstop win + vstart aw)) by (unfold is_u16 in *; lia).
  rewrite !shl32_16_u16 by assumption.
  split.
  - split; [intros _; lia | intros _; eexists; reflexivity].
  - intros w' E. inversion E. reflexivity.
Qed.

End Window.

(** C1: on either layer the window setter adds the start of the cached active
    window to the relative coordinates, checks the absolute start against the
    active start and the absolute stop against the active stop on both axes
    (after checking the relative stops against the screen), and stores the
    two absolute pairs in WHPCR and WVPCR.  After a start with HSW=41,
    VSW=10, HBP=2, VBP=2 on a 480x272 screen the cached active window is
    (hstart=43, hstop=522, vstart=12, vstop=283), and setting the background
    window (0, 479, 0, 271) stores 43 and 522 in WHPCR, 12 and 283 in WVPCR. *)
Theorem window_setter_translates :
  (forall (hw : ltdc_hw) (l : ltdc_layer) (win : ltdc_window_t) (w : ltdc_world)
          (cfg : LTDCConfig),
      config (LTDCD1 (mach w)) = Some cfg ->
      window_in_range win ->
      window_in_range (active_window (LTDCD1 (mach w))) ->
      let aw := active_window (LTDCD1 (mach w)) in
      ((exists w', ltdcLxSetWindowI l (Some win) w = (Done tt, w'))
       <-> (hstop win < screen_width cfg /\ vstop win < screen_height cfg
            /\ hstart aw <= hstart win + hstart aw
            /\ hstop win + hstart aw <= hstop aw
            /\ vstart aw <= vstart win + vstart aw
            /\ vstop win + vstart aw <= vstop aw))
      /\ (forall w', ltdcLxSetWindowI l (Some win) w = (Done tt, w') ->
            w' = upd_layer l
                   (set_WVPCR
                      (Z.lor (Z.land (vstart win + vstart aw) LTDC_LxWVPCR_WVSTPOS)
                             (Z.land (Z.shiftl (vstop win + vstart aw) 16)
                                     LTDC_LxWVPCR_WVSPPOS)))
                   (upd_layer l
                      (set_WHPCR
                         (Z.lor (Z.land (hstart win + hstart aw) LTDC_LxWHPCR_WHSTPOS)
                                (Z.land (Z.shiftl (hstop win + hstart aw) 16)
                                        LTDC_LxWHPCR_WHSPPOS)))
                      w)))
  /\ (forall (cfg : LTDCConfig) (w w' : ltdc_world),
      hsync_width cfg = 41 -> vsync_height cfg = 10 ->
      hbp_width cfg = 2 -> vbp_height cfg = 2 ->
      screen_width cfg = 480 -> screen_height cfg = 272 ->
      ltdcStart (hw := stm32f4_hw) (Some cfg) w = (Done tt, w') ->
      active_window (LTDCD1 (mach w')) = mk_window 43 522 12 283
      /\ ltdcBgSetWindowI (hw := stm32f4_hw) (Some full_screen_window) w'
         = (Done tt,
            upd_layer Bg (set_WVPCR (Z.lor 12 (Z.shiftl 283 16)))
              (upd_layer Bg (set_WHPCR (Z.lor 43 (Z.shiftl 522 16))) w'))
      /\ forall windowp,
           fst (ltdcBgGetWindowI (hw := stm32f4_hw) (Some windowp)
                  (upd_layer Bg (set_WVPCR (Z.lor 12 (Z.shiftl 283 16)))
                     (upd_layer Bg (set_WHPCR (Z.lor 43 (Z.shiftl 522 16))) w')))
           = Done (mk_window 43 522 12 283)).
Proof.
  split.
  - intros hw l win w cfg Hcfg Hwin Haw. cbv zeta.
    exact (ltdcLxSetWindowI_spec l win w cfg Hcfg Hwin Haw).
  - intros cfg w w' E1 E2 E3 E4 E5 E6 Hstart.
    pose proof (ltdcStart_driver cfg w w' Hstart) as Hd.
    rewrite E1, E2, E3, E4, E5, E6 in Hd.
    assert (Haw : active_window (LTDCD1 (mach w')) = mk_window 43 522 12 283).
    { rewrite Hd. reflexivity. }
    assert (Hcfg : config (LTDCD1 (mach w')) = Some cfg).
    { rewrite Hd. reflexivity. }
    split; [exact Haw|]. split.
    + unfold ltdcBgSetWindowI.
      rewrite (ltdcLxSetWindowI_run Bg full_screen_window w' cfg Hcfg).
      rewrite Haw, E5, E6. reflexivity.
    + intros windowp. reflexivity.
Qed.

(** The scenario runs: on the target silicon, from the machine [ltdcInit]
    leaves, [ltdcStart] with the scenario's configuration completes, and the
    full-screen window is in range and accepted. *)
Lemma window_setter_translates_witness :
  ltdcStart (hw := stm32f4_hw) (Some scenario_config) world_after_init
  = (Done tt, world_480x272)
  /\ active_window (LTDCD1 (mach world_480x272)) = mk_window 43 522 12 283
  /\ (exists w', ltdcLxSetWindowI (hw := stm32f4_hw) Bg (Some full_screen_window)
                   world_480x272 = (Done tt, w'))
  /\ WHPCR (LTDC_Layer1 (mach (snd (ltdcBgSetWindowI (hw := stm32f4_hw)
                                      (Some full_screen_window) world_480x272))))
     = 0x020A002B
  /\ WVPCR (LTDC_Layer1 (mach (snd (ltdcBgSetWindowI (hw := stm32f4_hw)
                                      (Some full_screen_window) world_480x272))))
     = 0x011B000C.
Proof.
  assert (Hstart : ltdcStart (hw := stm32f4_hw) (Some scenario_config) world_after_init
                   = (Done tt, world_480x272)) by (vm_compute; reflexivity).
  destruct window_setter_translates as [Hgen Hscen].
  destruct (Hscen scenario_config world_after_init world_480x272
              eq_refl eq_refl eq_refl eq_refl eq_refl eq_refl Hstart)
    as (Haw & Hset & _).
  split; [exact Hstart|]. split; [exact Haw|]. split.
  - apply (Hgen stm32f4_hw Bg full_screen_window world_480x272 scenario_config).
    + vm_compute; reflexivity.
    + unfold window_in_range, is_u16; simpl; lia.
    + rewrite Haw. unfold window_in_range, is_u16; simpl; lia.
    + rewrite Haw. simpl. lia.
  - rewrite Hset. split; reflexivity.
Defined.

(** ** Frame setter and getter *)

Section Frame.
Context {hw : ltdc_hw}.

(** The frame setter, statement by statement, for a format whose bytes per
    pixel are defined: the format is stored first, then come the seven
    checks, then the stores to CFBAR, CFBLR and CFBLNR. *)
Lemma ltdcLxSetFrameI_run (l : ltdc_layer) (f : ltdc_frame_t) (w : ltdc_world)
    (cfg : LTDCConfig) (bytes : Z) :
  config (LTDCD1 (mach w)) = Some cfg ->
  0 <= fmt f ->
  ltdcBytesPerPixel (fmt f) = Done bytes ->
  ltdcLxSetFrameI l (Some f) w
  = let w0 := upd_layer l
                (set_PFCR (Z.lor (Z.land (PFCR (layer_regs l (mach w))) (not32 LTDC_LxPFCR_PF))
                                 (Z.land (u32 (fmt f)) LTDC_LxPFCR_PF))) w in
    let linesize := u32 (bytes * width f) in
    if negb (width f <=? screen_width cfg) then (Halt (fn l "SetFrameI(), #1"), w0)
    else if negb (height f <=? screen_height cfg) then (Halt (fn l "SetFrameI(), #2"), w0)
    else if negb (linesize >=? LTDC_MIN_FRAME_WIDTH_BYTES)
         then (Halt (fn l "SetFrameI(), #3"), w0)
    else if negb (linesize <=? LTDC_MAX_FRAME_WIDTH_BYTES)
         then (Halt (fn l "SetFrameI(), #4"), w0)
    else if negb (height f >=? LTDC_MIN_FRAME_HEIGHT_LINES)
         then (Halt (fn l "SetFrameI(), #5"), w0)
    else if negb (height f <=? LTDC_MAX_FRAME_HEIGHT_LINES)
         then (Halt (fn l "SetFrameI(), #6"), w0)
    else if negb (pitch f >=? linesize) then (Halt (fn l "SetFrameI(), #7"), w0)
    else (Done tt,
          upd_layer l (set_CFBLNR (Z.land (u32 (height f)) LTDC_LxCFBLNR_CFBLNBR))
            (upd_layer l
               (set_CFBLR (Z.lor (Z.land (shl32 (u32 (pitch f)) 16) LTDC_LxCFBLR_CFBP)
                                 (Z.land (u32 (linesize + 3)) LTDC_LxCFBLR_CFBLL)))
               (upd_layer l
                  (set_CFBAR (Z.land (u32 (bufferp f)) LTDC_LxCFBAR_CFBADD)) w0))).
Proof.
  intros Hcfg Hfmt Hbytes. cbv zeta.
  assert (Hlt : fmt f < LTDC_MAX_PIXFMT_ID)
    by (apply (ltdcBytesPerPixel_Done_inv _ _ Hfmt Hbytes)).
  unfold ltdcLxSetFrameI, ltdcLxSetPixelFormatI.
  assert (E1 : (fmt f >=? LTDC_MIN_PIXFMT_ID) = true).
  { rewrite Z.geb_leb. apply Z.leb_le. unfold LTDC_MIN_PIXFMT_ID. lia. }
  assert (E2 : (fmt f <=? LTDC_MAX_PIXFMT_ID) = true) by (apply Z.leb_le; lia).
  rewrite E1, E2, Hbytes.
  unfold chDbgAssert at 1 2. unfold Lx_rd, Lx_wr, gets, modify, lift, drv_config, drv_rd.
  unfold bind at 1. unfold bind at 1. unfold ret at 1.
  unfold bind at 1. unfold ret at 1. unfold bind at 1.
  unfold bind at 1. unfold bind at 1. unfold bind at 1.
  unfold gets. rewrite driver_upd_layer, Hcfg. unfold ret at 1.
  unfold chDbgAssert, chDbgPanic.
  unfold bind at 1.
  destruct (width f <=? screen_width cfg); [|reflexivity]. unfold ret at 1.
  unfold bind at 1.
  destruct (height f <=? screen_height cfg); [|reflexivity]. unfold ret at 1.
  unfold bind at 1.
  destruct (u32 (bytes * width f) >=? LTDC_MIN_FRAME_WIDTH_BYTES); [|reflexivity].
  unfold ret at 1. unfold bind at 1.
  destruct (u32 (bytes * width f) <=? LTDC_MAX_FRAME_WIDTH_BYTES); [|reflexivity].
  unfold ret at 1. unfold bind at 1.
  destruct (height f >=? LTDC_MIN_FRAME_HEIGHT_LINES); [|reflexivity].
  unfold ret at 1. unfold bind at 1.
  destruct (height f <=? LTDC_MAX_FRAME_HEIGHT_LINES); [|reflexivity].
  unfold ret at 1. unfold bind at 1.
  destruct (pitch f >=? u32 (bytes * width f)); reflexivity.
Qed.

(** In the format AL-88 the frame setter halts in [ltdcBitsPerPixel], after
    the store of the format, whatever the geometry and the machine; the
    address, length and line-count registers are not written. *)
Lemma ltdcLxSetFrameI_AL88 (l : ltdc_layer) (w : ltdc_world) (b p wd h : Z) :
  exists w1,
    ltdcLxSetFrameI l (Some (mk_frame b p wd h LTDC_FMT_AL88)) w
    = (Halt "ltdcBitsPerPixel(), #1", w1)
    /\ CFBAR (layer_regs l (mach w1)) = CFBAR (layer_regs l (mach w))
    /\ CFBLR (layer_regs l (mach w1)) = CFBLR (layer_regs l (mach w))
    /\ CFBLNR (layer_regs l (mach w1)) = CFBLNR (layer_regs l (mach w)).
Proof.
  eexists. split; [reflexivity|].
  destruct l; repeat split; reflexivity.
Qed.

End Frame.

(** C6 (the code departs from it at AL-88): the frame setter computes the
    line size as bytes per pixel times width and makes its seven checks
    before the stores to the address, length and line-count registers; the
    500x100 RGB-565 frame of the scenario halts on the width check of the
    foreground setter with those registers untouched.  A descriptor that
    meets every listed bound still trips an assertion when its format is
    AL-88: the setter asks [ltdcBitsPerPixel] for the pixel size, whose own
    check rejects format 7.  That holds for both layers, every geometry and
    every machine, and in particular for a one-pixel AL-88 frame on the
    480x272 screen. *)
Theorem frame_setter_checks :
  (exists w1,
      ltdcFgSetFrameI (hw := stm32f4_hw) (Some too_wide_frame) world_480x272
      = (Halt "ltdcFgSetFrameI(), #1", w1)
      /\ CFBAR (LTDC_Layer2 (mach w1)) = CFBAR (LTDC_Layer2 (mach world_480x272))
      /\ CFBLR (LTDC_Layer2 (mach w1)) = CFBLR (LTDC_Layer2 (mach world_480x272))
      /\ CFBLNR (LTDC_Layer2 (mach w1)) = CFBLNR (LTDC_Layer2 (mach world_480x272)))
  /\ (exists w',
        ltdcFgSetFrameI (hw := stm32f4_hw) (Some full_screen_frame) world_480x272
        = (Done tt, w'))
  /\ (width al88_pixel_frame <= 480 /\ height al88_pixel_frame <= 272
      /\ @LTDC_MIN_FRAME_WIDTH_BYTES stm32f4_hw <= 2 * width al88_pixel_frame
         <= @LTDC_MAX_FRAME_WIDTH_BYTES stm32f4_hw
      /\ @LTDC_MIN_FRAME_HEIGHT_LINES stm32f4_hw <= height al88_pixel_frame
         <= @LTDC_MAX_FRAME_HEIGHT_LINES stm32f4_hw
      /\ 2 * width al88_pixel_frame <= pitch al88_pixel_frame)
  /\ fst (ltdcFgSetFrameI (hw := stm32f4_hw) (Some al88_pixel_frame) world_480x272)
     = Halt "ltdcBitsPerPixel(), #1"
  /\ fst (ltdcBgSetFrameI (hw := stm32f4_hw) (Some al88_pixel_frame) world_480x272)
     = Halt "ltdcBitsPerPixel(), #1"
  /\ (forall (hw : ltdc_hw) (l : ltdc_layer) (w : ltdc_world) (b p wd h : Z),
        fst (ltdcLxSetFrameI l (Some (mk_frame b p wd h LTDC_FMT_AL88)) w)
        = Halt "ltdcBitsPerPixel(), #1").
Proof.
  split; [|split; [|split; [|split; [|split]]]].
  - eexists. split; [vm_compute; reflexivity|]. repeat split.
  - eexists. vm_compute. reflexivity.
  - vm_compute. repeat split; discriminate.
  - reflexivity.
  - reflexivity.
  - intros hw l w b p wd h.
    destruct (ltdcLxSetFrameI_AL88 l w b p wd h) as (w1 & E & _).
    rewrite E. reflexivity.
Qed.

(** ** Frame round trip *)

Lemma testbit_small (x n i : Z) :
  0 <= x < 2 ^ n -> 0 <= n <= i -> Z.testbit x i = false.
Proof.
  intros Hx Hi. rewrite <- (Z.mod_small x (2 ^ n)) by exact Hx.
  apply Z.mod_pow2_bits_high. exact Hi.
Qed.

Lemma land_ones_small (x n : Z) : 0 <= n -> 0 <= x < 2 ^ n -> Z.land x (Z.ones n) = x.
Proof. intros Hn Hx. rewrite Z.land_ones by exact Hn. apply Z.mod_small. exact Hx. Qed.

(** The line-length field of a length register packed from a pitch [p] and a
    length [x] that fit their 13-bit fields. *)
Lemma length_field_low (p x : Z) :
  0 <= p < 2 ^ 13 -> 0 <= x < 2 ^ 13 ->
  Z.land (Z.lor (Z.land (Z.shiftl p 16) 0x1FFF0000) (Z.land x 0x1FFF)) 0x1FFF = x.
Proof.
  intros Hp Hx.
  change 0x1FFF0000 with (Z.shiftl (Z.ones 13) 16). change 0x1FFF with (Z.ones 13).
  apply Z.bits_inj'. intros i Hi.
  rewrite Z.land_spec, Z.lor_spec, !Z.land_spec.
  rewrite (Z.testbit_ones_nonneg 13 i) by lia.
  destruct (Z.ltb_spec i 13) as [Hlt | Hge].
  - rewrite !Z.shiftl_spec_low by lia. simpl.
    rewrite Bool.andb_true_r. rewrite Bool.andb_true_r. reflexivity.
  - rewrite (testbit_small x 13 i Hx) by lia.
    rewrite !Bool.andb_false_r. reflexivity.
Qed.

(** The pitch field of the same register. *)
Lemma length_field_high (p x : Z) :
  0 <= p < 2 ^ 13 -> 0 <= x < 2 ^ 13 ->
  Z.shiftr (Z.land (Z.lor (Z.land (Z.shiftl p 16) 0x1FFF0000) (Z.land x 0x1FFF))
                   0x1FFF0000) 16 = p.
Proof.
  intros Hp Hx.
  change 0x1FFF0000 with (Z.shiftl (Z.ones 13) 16). change 0x1FFF with (Z.ones 13).
  apply Z.bits_inj'. intros i Hi.
  rewrite Z.shiftr_spec by lia.
  rewrite Z.land_spec, Z.lor_spec, !Z.land_spec.
  rewrite !Z.shiftl_spec by lia.
  replace (i + 16 - 16) with i by lia.
  rewrite (Z.testbit_ones_nonneg 13 i) by lia.
  rewrite (Z.testbit_ones_nonneg 13 (i + 16)) by lia.
  destruct (Z.ltb_spec i 13) as [Hlt | Hge].
  - replace (i + 16 <? 13) with false by (symmetry; apply Z.ltb_ge; lia).
    rewrite !Bool.andb_true_r, Bool.andb_false_r, Bool.orb_false_r. reflexivity.
  - rewrite (testbit_small p 13 i Hp) by lia.
    rewrite Bool.andb_false_r. reflexivity.
Qed.

(** The format field after a store of a format below 8. *)
Lemma format_field (old pf : Z) :
  0 <= pf < 8 ->
  Z.land (Z.lor (Z.land old (not32 0x7)) (Z.land pf 0x7)) 0x7 = pf.
Proof.
  intros Hpf.
  rewrite Z.land_lor_distr_l.
  rewrite <- !Z.land_assoc.
  change (Z.land (not32 7) 7) with 0. change (Z.land 7 7) with (Z.ones 3).
  rewrite Z.land_0_r, Z.lor_0_l.
  apply land_ones_small; [lia | exact Hpf].
Qed.

Section FrameRoundTrip.
Context {hw : ltdc_hw}.

Lemma keeps_ltdcLxSetPixelFormatI (l : ltdc_layer) (pf : Z) :
  keeps_driver (ltdcLxSetPixelFormatI l pf).
Proof. unfold ltdcLxSetPixelFormatI, Lx_rd. keeps_tac. Qed.

(** A completed frame setter had a configuration to check against and a
    format whose pixel size is defined. *)
Lemma ltdcLxSetFrameI_Done_inv (l : ltdc_layer) (f : ltdc_frame_t) (w w' : ltdc_world) :
  ltdcLxSetFrameI l (Some f) w = (Done tt, w') ->
  exists cfg bytes,
    config (LTDCD1 (mach w)) = Some cfg /\ ltdcBytesPerPixel (fmt f) = Done bytes.
Proof.
  intros H. unfold ltdcLxSetFrameI in H.
  apply bind_Done_inv in H. destruct H as (a1 & s1 & E1 & H).
  apply bind_Done_inv in H. destruct H as (bytes & s2 & E2 & H).
  apply bind_Done_inv in H. destruct H as (cfg & s3 & E3 & _).
  unfold lift in E2. inversion E2. subst s2.
  pose proof (keeps_ltdcLxSetPixelFormatI l (fmt f) w) as K.
  rewrite E1 in K. simpl in K.
  unfold drv_config, bind, drv_rd, gets, ret, chDbgPanic in E3.
  rewrite K in E3.
  destruct (config (LTDCD1 (mach w))) as [c |]; [| discriminate E3].
  inversion E3. subst. exists cfg, bytes. split; [reflexivity | assumption].
Qed.

(** The frame getter stores four members; the [fmt] member of the structure
    it is given is the one the caller had there. *)
Lemma ltdcLxGetFrameI_fmt (l : ltdc_layer) (g0 g : ltdc_frame_t) (w w' : ltdc_world) :
  ltdcLxGetFrameI l (Some g0) w = (Done g, w') -> fmt g = fmt g0.
Proof.
  unfold ltdcLxGetFrameI, ltdcLxGetPixelFormatI, Lx_rd, gets, lift, bind, ret.
  destruct (ltdcBytesPerPixel _); intros H; inversion H. reflexivity.
Qed.

(** C2, amended: a frame descriptor that the frame setter accepts and whose
    pitch fits the 13-bit pitch field reads back through the frame getter with
    the same address, pitch, width and height, and the pixel format getter
    returns its format; width and pitch come back through the packed length
    register (line bytes plus 3). *)
Theorem frame_round_trip (l : ltdc_layer) (f g0 : ltdc_frame_t) (w w' : ltdc_world) :
  frame_fields_fit hw ->
  frame_in_range f ->
  ltdcLxSetFrameI l (Some f) w = (Done tt, w') ->
  pitch f < 2 ^ 13 ->
  exists g,
    ltdcLxGetFrameI l (Some g0) w' = (Done g, w')
    /\ bufferp g = bufferp f /\ pitch g = pitch f
    /\ width g = width f /\ height g = height f
    /\ ltdcLxGetPixelFormatI l w' = (Done (fmt f), w').
Proof.
  intros (M1 & M2 & M3 & M4 & M5 & B1 & B2) (Rb & Rp & Rw & Rh & Rf) H Hp.
  destruct (ltdcLxSetFrameI_Done_inv l f w w' H) as (cfg & bytes & Hcfg & Hbytes).
  destruct (ltdcBytesPerPixel_Done_inv _ _ Rf Hbytes) as [Hfmt Hb].
  unfold LTDC_MAX_PIXFMT_ID in Hfmt.
  rewrite (ltdcLxSetFrameI_run l f w cfg bytes Hcfg Rf Hbytes) in H. cbv zeta in H.
  rewrite !Z.geb_leb in H.
  assert (Hls : u32 (bytes * width f) = bytes * width f).
  { apply u32_small. unfold is_u32, is_u16 in *. nia. }
  rewrite Hls in H.
  destruct (Z.leb_spec (width f) (screen_width cfg));
    simpl negb in H; cbv iota in H; [| discriminate H].
  destruct (Z.leb_spec (height f) (screen_height cfg));
    simpl negb in H; cbv iota in H; [| discriminate H].
  destruct (Z.leb_spec LTDC_MIN_FRAME_WIDTH_BYTES (bytes * width f));
    simpl negb in H; cbv iota in H; [| discriminate H].
  destruct (Z.leb_spec (bytes * width f) LTDC_MAX_FRAME_WIDTH_BYTES);
    simpl negb in H; cbv iota in H; [| discriminate H].
  destruct (Z.leb_spec LTDC_MIN_FRAME_HEIGHT_LINES (height f));
    simpl negb in H; cbv iota in H; [| discriminate H].
  destruct (Z.leb_spec (height f) LTDC_MAX_FRAME_HEIGHT_LINES);
    simpl negb in H; cbv iota in H; [| discriminate H].
  destruct (Z.leb_spec (bytes * width f) (pitch f));
    simpl negb in H; cbv iota in H; [| discriminate H].
  inversion H as [Hw']. clear H.
  (* the values stored *)
  assert (Hx : 0 <= bytes * width f + 3 < 2 ^ 13).
  { unfold is_u16 in Rw. split; [nia | lia]. }
  assert (Epitch : shl32 (u32 (pitch f)) 16 = Z.shiftl (pitch f) 16).
  { rewrite (u32_small _ Rp). unfold shl32. apply u32_small. unfold is_u32, is_u32 in *.
    rewrite Z.shiftl_mul_pow2 by lia. lia. }
  assert (Elen : u32 (bytes * width f + 3) = bytes * width f + 3).
  { apply u32_small. unfold is_u32. lia. }
  rewrite Epitch, Elen, (u32_small _ Rb).
  rewrite (u32_small (height f)) by (unfold is_u32, is_u16 in *; lia).
  rewrite (u32_small (fmt f)) by (unfold is_u32; lia).
  rewrite M1, M2, M3, M4, M5.
  (* the getters on the machine reached *)
  unfold ltdcLxGetFrameI, ltdcLxGetPixelFormatI, Lx_rd, gets, lift.
  unfold bind, ret.
  rewrite !layer_regs_upd_layer.
  cbn [CFBAR CFBLR CFBLNR PFCR set_CFBAR set_CFBLR set_CFBLNR set_PFCR].
  rewrite M1, M2, M3, M4, M5.
  rewrite format_field by lia.
  rewrite Hbytes.
  eexists. split; [reflexivity|].
  cbn [bufferp pitch width height fmt].
  split; [|split; [|split; [|split]]].
  - change 0xFFFFFFFF with (Z.ones 32). rewrite <- Z.land_assoc.
    change (Z.land (Z.ones 32) (Z.ones 32)) with (Z.ones 32).
    apply land_ones_small; [lia | exact Rb].
  - apply length_field_high; [unfold is_u32 in Rp; lia | exact Hx].
  - rewrite length_field_low by (unfold is_u32 in Rp; try lia; exact Hx).
    replace (bytes * width f + 3 - 3) with (width f * bytes) by lia.
    rewrite u32_small by (unfold is_u32, is_u16 in *; nia).
    rewrite Z.div_mul by lia.
    apply u16_small. exact Rw.
  - change 0x7FF with (Z.ones 11). rewrite <- Z.land_assoc.
    change (Z.land (Z.ones 11) (Z.ones 11)) with (Z.ones 11).
    rewrite land_ones_small by (unfold is_u16 in Rh; lia).
    apply u16_small. exact Rh.
  - reflexivity.
Qed.

End FrameRoundTrip.

(** The full-screen RGB-565 frame of 960 bytes a line on the started
    foreground layer is accepted and reads back. *)
Lemma frame_round_trip_witness :
  frame_fields_fit stm32f4_hw
  /\ frame_in_range full_screen_frame
  /\ pitch full_screen_frame < 2 ^ 13
  /\ exists g,
       ltdcLxGetFrameI (hw := stm32f4_hw) Fg (Some ltdc_invalid_frame)
         (snd (ltdcLxSetFrameI (hw := stm32f4_hw) Fg (Some full_screen_frame) world_480x272))
       = (Done g,
          snd (ltdcLxSetFrameI (hw := stm32f4_hw) Fg (Some full_screen_frame) world_480x272))
       /\ bufferp g = bufferp full_screen_frame
       /\ pitch g = pitch full_screen_frame
       /\ width g = width full_screen_frame
       /\ height g = height full_screen_frame
       /\ ltdcLxGetPixelFormatI (hw := stm32f4_hw) Fg
            (snd (ltdcLxSetFrameI (hw := stm32f4_hw) Fg (Some full_screen_frame)
                    world_480x272))
          = (Done (fmt full_screen_frame),
             snd (ltdcLxSetFrameI (hw := stm32f4_hw) Fg (Some full_screen_frame)
                    world_480x272)).
Proof.
  assert (H1 : frame_fields_fit stm32f4_hw).
  { unfold frame_fields_fit. cbv. repeat split; try reflexivity; discriminate. }
  assert (H2 : frame_in_range full_screen_frame).
  { unfold frame_in_range, is_u32, is_u16. cbv. repeat split; try reflexivity; discriminate. }
  assert (H3 : pitch full_screen_frame < 2 ^ 13) by (simpl; lia).
  split; [exact H1|]. split; [exact H2|]. split; [exact H3|].
  apply (frame_round_trip (hw := stm32f4_hw) Fg full_screen_frame ltdc_invalid_frame
           world_480x272 _ H1 H2); [vm_compute; reflexivity | exact H3].
Defined.

(** C2 as stated fails on the code.  On the 480x272 screen a one-pixel L-8
    frame with a pitch of 8192 bytes (or of 65536) is inside every bound the
    frame setter checks and has a pitch of at least one line; the background
    setter accepts it, and the getter returns a pitch of 0: the pitch field of
    the length register holds 13 bits. *)
Lemma frame_round_trip_counterexample :
  (width frame_pitch_8192 <= screen_width scenario_config
   /\ height frame_pitch_8192 <= screen_height scenario_config
   /\ @LTDC_MIN_FRAME_WIDTH_BYTES stm32f4_hw <= 1 * width frame_pitch_8192
      <= @LTDC_MAX_FRAME_WIDTH_BYTES stm32f4_hw
   /\ @LTDC_MIN_FRAME_HEIGHT_LINES stm32f4_hw <= height frame_pitch_8192
      <= @LTDC_MAX_FRAME_HEIGHT_LINES stm32f4_hw
   /\ ltdcBytesPerPixel (fmt frame_pitch_8192) = Done 1
   /\ 1 * width frame_pitch_8192 <= pitch frame_pitch_8192)
  /\ (exists g w',
        (ltdcBgSetFrameI (hw := stm32f4_hw) (Some frame_pitch_8192) ;;
         ltdcBgGetFrameI (hw := stm32f4_hw) (Some frame_pitch_8192)) world_480x272
        = (Done g, w')
        /\ pitch g = 0
        /\ pitch g <> pitch frame_pitch_8192)
  /\ (exists g w',
        (ltdcBgSetFrameI (hw := stm32f4_hw) (Some frame_pitch_65536) ;;
         ltdcBgGetFrameI (hw := stm32f4_hw) (Some frame_pitch_65536)) world_480x272
        = (Done g, w')
        /\ pitch g = 0
        /\ pitch g <> pitch frame_pitch_65536).
Proof.
  split; [|split].
  - vm_compute. repeat split; discriminate.
  - eexists. eexists. split; [vm_compute; reflexivity|].
    split; [reflexivity | discriminate].
  - eexists. eexists. split; [vm_compute; reflexivity|].
    split; [reflexivity | discriminate].
Qed.

(** ** The reload interrupt *)

Section ReloadInterrupt.
Context {hw : ltdc_hw}.
Variable isr_body : ltdcisr_t -> ltdc_machine -> ltdc_machine.

(** Runs the statements of a handler as far as the machine is known. *)
Ltac run_handler :=
  repeat progress
    (unfold bind, ret, chDbgAssert, chDbgPanic, gets, modify, when,
       LTDC_rd, LTDC_wr, drv_rd, drv_wr, emit, store_state, drv_config, call_isr,
       log_event, upd_driver, upd_LTDC, set_state, set_thread;
     cbn [mach events LTDCD1 LTDC state thread config ltdc_state_eqb andb]).

(** C5, amended: in the register-reload branch of the event handler, with
    the driver ACTIVE when the handler checks it, the reload callback (if
    any) is called first; then, inside the critical section, the parked task
    (if any) is made ready with the message [RDY_OK], and after that the
    driver state is set to READY; the critical section is left last.  With no
    line interrupt pending this is all the handler does besides
    acknowledging the flag. *)
Theorem reload_interrupt_order (w : ltdc_world) (cfg : LTDCConfig) :
  nonzero (Z.land (ISR (LTDC (mach w))) LTDC_ISR_RRIF) = true ->
  nonzero (Z.land (IER (LTDC (mach w))) LTDC_IER_RRIE) = true ->
  config (LTDCD1 (mach w)) = Some cfg ->
  state (LTDCD1 (match rr_isr cfg with
                 | Some f => isr_body f (mach w)
                 | None => mach w
                 end)) = LTDC_ACTIVE ->
  exists w',
    ev_register_reload isr_body w = (Done tt, w')
    /\ events w'
       = (events w
          ++ (match rr_isr cfg with Some f => [EvCallback f] | None => [] end)
          ++ [EvSysLockFromIsr]
          ++ (match thread (LTDCD1 (match rr_isr cfg with
                                    | Some f => isr_body f (mach w)
                                    | None => mach w
                                    end)) with
              | Some tp => [EvSchReadyI tp RDY_OK]
              | None => []
              end)
          ++ [EvState LTDC_READY; EvSysUnlockFromIsr])%list
    /\ state (LTDCD1 (mach w')) = LTDC_READY
    /\ thread (LTDCD1 (mach w')) = None
    /\ (nonzero (Z.land (ISR (LTDC (mach w))) LTDC_ISR_LIF)
        && nonzero (Z.land (IER (LTDC (mach w))) LTDC_IER_LIE) = false ->
        LTDC_EV_IRQHandler isr_body w = (Done tt, w')).
Proof.
  intros Hisr Hier Hcfg Hst.
  assert (Hrun : exists w', ev_register_reload isr_body w = (Done tt, w')
    /\ events w'
       = (events w
          ++ (match rr_isr cfg with Some f => [EvCallback f] | None => [] end)
          ++ [EvSysLockFromIsr]
          ++ (match thread (LTDCD1 (match rr_isr cfg with
                                    | Some f => isr_body f (mach w)
                                    | None => mach w
                                    end)) with
              | Some tp => [EvSchReadyI tp RDY_OK]
              | None => []
              end)
          ++ [EvState LTDC_READY; EvSysUnlockFromIsr])%list
    /\ state (LTDCD1 (mach w')) = LTDC_READY
    /\ thread (LTDCD1 (mach w')) = None).
  { destruct w as [m evs]. cbn [mach events] in *.
    unfold ev_register_reload.
    run_handler. rewrite Hisr, Hier. run_handler. rewrite Hcfg. run_handler.
    destruct (rr_isr cfg) as [f |]; run_handler; rewrite Hst; run_handler.
    - destruct (thread (LTDCD1 (isr_body f m))) as [tp |] eqn:Hth; run_handler;
        eexists; (split; [reflexivity|]); run_handler; rewrite ?Hth;
        (split; [rewrite <- !app_assoc; reflexivity | split; reflexivity]).
    - destruct (thread (LTDCD1 m)) as [tp |] eqn:Hth; run_handler;
        eexists; (split; [reflexivity|]); run_handler; rewrite ?Hth;
        (split; [rewrite <- !app_assoc; reflexivity | split; reflexivity]). }
  destruct Hrun as (w' & Hrun & Hev & Hs & Ht).
  exists w'. split; [exact Hrun|]. split; [exact Hev|]. split; [exact Hs|].
  split; [exact Ht|].
  intros Hline. unfold LTDC_EV_IRQHandler, ev_line_interrupt, LTDC_rd, gets.
  unfold bind at 1. unfold bind at 1. unfold bind at 1.
  rewrite Hline. unfold when, ret. exact Hrun.
Qed.

End ReloadInterrupt.

(** The deferred-reload scenario on the target silicon: the driver is ACTIVE
    with a task parked when the controller raises the reload flag, and the
    handler calls back, readies the task, then stores READY. *)
Lemma reload_interrupt_order_witness :
  state (LTDCD1 (mach world_reload_done)) = LTDC_ACTIVE
  /\ thread (LTDCD1 (mach world_reload_done)) = Some waiting_task
  /\ exists w',
       LTDC_EV_IRQHandler (hw := stm32f4_hw) idle_isr world_reload_done = (Done tt, w')
       /\ events w'
          = (events world_reload_done
             ++ [EvCallback reload_callback; EvSysLockFromIsr;
                 EvSchReadyI waiting_task RDY_OK;
                 EvState LTDC_READY; EvSysUnlockFromIsr])%list
       /\ state (LTDCD1 (mach w')) = LTDC_READY
       /\ thread (LTDCD1 (mach w')) = None.
Proof.
  split; [reflexivity|]. split; [reflexivity|].
  destruct (reload_interrupt_order (hw := stm32f4_hw) idle_isr world_reload_done
              scenario_config_rr)
    as (w' & _ & Hev & Hs & Ht & Hh);
    try (vm_compute; reflexivity).
  exists w'. split; [apply Hh; vm_compute; reflexivity|].
  split; [exact Hev|]. split; [exact Hs | exact Ht].
Defined.

(** C5 as stated fails on the code: in the deferred-reload scenario the
    events of the handler are the callback, the entry of the critical
    section, the wake-up of the parked task with [RDY_OK], the store of
    READY, the exit of the critical section.  The store of READY does not
    come before the wake-up; the wake-up comes before the store. *)
Lemma reload_interrupt_order_counterexample :
  state (LTDCD1 (mach world_reload_done)) = LTDC_ACTIVE
  /\ exists w',
       LTDC_EV_IRQHandler (hw := stm32f4_hw) idle_isr world_reload_done = (Done tt, w')
       /\ skipn (List.length (events world_reload_done)) (events w')
          = [EvCallback reload_callback; EvSysLockFromIsr;
             EvSchReadyI waiting_task RDY_OK;
             EvState LTDC_READY; EvSysUnlockFromIsr]
       /\ happens_before (EvCallback reload_callback) (EvState LTDC_READY)
            (skipn (List.length (events world_reload_done)) (events w')) = true
       /\ happens_before (EvState LTDC_READY) (EvSchReadyI waiting_task RDY_OK)
            (skipn (List.length (events world_reload_done)) (events w')) = false
       /\ happens_before (EvSchReadyI waiting_task RDY_OK) (EvState LTDC_READY)
            (skipn (List.length (events world_reload_done)) (events w')) = true.
Proof.
  split; [reflexivity|].
  eexists. split; [vm_compute; reflexivity|].
  repeat split; vm_compute; reflexivity.
Qed.
(** * Further properties of the two drivers *)

(** ** Runs that may halt *)

Lemma runs_Done {S A : Type} (m : M S A) QD QH (s s' : S) (a : A) :
  runs m QD QH s -> m s = (Done a, s') -> QD a s'.
Proof. unfold runs. intros H E. rewrite E in H. exact H. Qed.


Lemma runs_bind {S A B : Type} (m : M S A) (k : A -> M S B) QD QH (s : S) :
  runs m (fun a s1 => runs (k a) QD QH s1) QH s -> runs (bind m k) QD QH s.
Proof.
  unfold runs, bind. destruct (m s) as [[a | msg] s1]; intros H; exact H.
Qed.

Lemma runs_ret {S A : Type} (a : A) (QD : A -> S -> Prop) QH (s : S) :
  QD a s -> runs (ret a) QD QH s.
Proof. intros H. exact H. Qed.

Lemma runs_modify {S : Type} (f : S -> S) (QD : unit -> S -> Prop) QH (s : S) :
  QD tt (f s) -> runs (modify f) QD QH s.
Proof. intros H. exact H. Qed.

Lemma runs_gets {S A : Type} (f : S -> A) (QD : A -> S -> Prop) QH (s : S) :
  QD (f s) s -> runs (gets f) QD QH s.
Proof. intros H. exact H. Qed.

Lemma runs_panic {S A : Type} (msg : string) (QD : A -> S -> Prop)
    (QH : string -> S -> Prop) (s : S) :
  QH msg s -> runs (chDbgPanic msg) QD QH s.
Proof. intros H. exact H. Qed.

Lemma runs_assert {S : Type} (c : bool) (msg : string) (QD : unit -> S -> Prop)
    (QH : string -> S -> Prop) (s : S) :
  (c = true -> QD tt s) -> (c = false -> QH msg s) ->
  runs (chDbgAssert c msg) QD QH s.
Proof. intros HD HH. destruct c; [apply HD | apply HH]; reflexivity. Qed.

Lemma runs_check {S : Type} (c : bool) (msg : string) (QD : unit -> S -> Prop)
    (QH : string -> S -> Prop) (s : S) :
  (c = true -> QD tt s) -> (c = false -> QH msg s) ->
  runs (chDbgCheck c msg) QD QH s.
Proof. intros HD HH. destruct c; [apply HD | apply HH]; reflexivity. Qed.

Lemma runs_when {S : Type} (c : bool) (body : M S unit) (QD : unit -> S -> Prop)
    (QH : string -> S -> Prop) (s : S) :
  (c = true -> runs body QD QH s) -> (c = false -> QD tt s) ->
  runs (when c body) QD QH s.
Proof. intros HD HH. destruct c; [apply HD | apply HH]; reflexivity. Qed.

Lemma runs_weaken {S A : Type} (m : M S A) (QD QD' : A -> S -> Prop)
    (QH QH' : string -> S -> Prop) (s : S) :
  runs m QD QH s ->
  (forall a s', QD a s' -> QD' a s') ->
  (forall msg s', QH msg s' -> QH' msg s') ->
  runs m QD' QH' s.
Proof.
  unfold runs. destruct (m s) as [[a | msg] s1]; intros H HD HH; auto.
Qed.

(** The world a call leaves is a function of the world it is run from. *)
Lemma runs_exact {S A : Type} (m : M S A) (s : S) :
  runs m (fun a s' => m s = (Done a, s')) (fun msg s' => m s = (Halt msg, s')) s.
Proof. unfold runs. destruct (m s) as [[a | msg] s1]; reflexivity. Qed.

(** *** Calls that stay inside one layer's register block *)

Lemma same_but_layer_refl (l : ltdc_layer) (s : ltdc_world) : same_but_layer l s s.
Proof. repeat split. Qed.

Lemma same_but_layer_trans (l : ltdc_layer) (s1 s2 s3 : ltdc_world) :
  same_but_layer l s1 s2 -> same_but_layer l s2 s3 -> same_but_layer l s1 s3.
Proof.
  intros (A1 & B1 & C1 & D1) (A2 & B2 & C2 & D2).
  repeat split; congruence.
Qed.

Lemma same_but_layer_upd (l : ltdc_layer) (f : LTDC_Layer_TypeDef -> LTDC_Layer_TypeDef)
    (s : ltdc_world) :
  same_but_layer l s (upd_layer l f s).
Proof. destruct l; repeat split. Qed.

(** What such a call leaves is the world it started from with new contents
    in the one register block. *)
Lemma same_but_layer_inv (l : ltdc_layer) (s s' : ltdc_world) :
  same_but_layer l s s' ->
  s' = upd_layer l (fun _ => layer_regs l (mach s')) s.
Proof.
  intros (A & B & C & D).
  destruct s' as [[g' b' f' d'] e'], s as [[g b f d] e].
  destruct l; cbn in *; subst; reflexivity.
Qed.

Lemma touches_ret {A : Type} (l : ltdc_layer) (a : A) : touches_only_layer l (ret a).
Proof. intros s. apply same_but_layer_refl. Qed.

Lemma touches_bind {A B : Type} (l : ltdc_layer) (m : M ltdc_world A)
    (k : A -> M ltdc_world B) :
  touches_only_layer l m -> (forall a, touches_only_layer l (k a)) ->
  touches_only_layer l (bind m k).
Proof.
  intros Hm Hk s. unfold bind. specialize (Hm s).
  destruct (m s) as [[a | msg] s1]; cbn [snd] in *.
  - eapply same_but_layer_trans; [exact Hm | apply Hk].
  - exact Hm.
Qed.

Lemma touches_panic {A : Type} (l : ltdc_layer) (msg : string) :
  touches_only_layer l (@chDbgPanic ltdc_world A msg).
Proof. intros s. apply same_but_layer_refl. Qed.

Lemma touches_assert (l : ltdc_layer) (c : bool) (msg : string) :
  touches_only_layer l (chDbgAssert c msg).
Proof. intros s. destruct c; apply same_but_layer_refl. Qed.

Lemma touches_check (l : ltdc_layer) (c : bool) (msg : string) :
  touches_only_layer l (chDbgCheck c msg).
Proof. intros s. destruct c; apply same_but_layer_refl. Qed.

Lemma touches_gets {A : Type} (l : ltdc_layer) (f : ltdc_world -> A) :
  touches_only_layer l (gets f).
Proof. intros s. apply same_but_layer_refl. Qed.

Lemma touches_lift {A : Type} (l : ltdc_layer) (o : outcome A) :
  touches_only_layer l (lift o).
Proof. intros s. apply same_but_layer_refl. Qed.

Lemma touches_Lx_wr (l : ltdc_layer)
    (set_R : Z -> LTDC_Layer_TypeDef -> LTDC_Layer_TypeDef) (v : Z) :
  touches_only_layer l (Lx_wr l set_R v).
Proof. intros s. apply same_but_layer_upd. Qed.

Lemma touches_drv_config (l : ltdc_layer) : touches_only_layer l drv_config.
Proof.
  intros s. unfold drv_config, bind, drv_rd, gets, ret, chDbgPanic.
  destruct (config (LTDCD1 (mach s))); apply same_but_layer_refl.
Qed.

Lemma touches_when (l : ltdc_layer) (c : bool) (body : M ltdc_world unit) :
  touches_only_layer l body -> touches_only_layer l (when c body).
Proof. intros H. destruct c; [exact H | apply touches_ret]. Qed.

Lemma touches_palette_loop (l : ltdc_layer) (colors : list Z) (n : nat) (i : Z) :
  touches_only_layer l (palette_loop l colors i n).
Proof.
  revert i. induction n as [| n IH]; intros i; cbn [palette_loop].
  - apply touches_ret.
  - apply touches_bind.
    + unfold read_color. destruct (nth_error colors (Z.to_nat i));
        [apply touches_ret | apply touches_panic].
    + intros c. apply touches_bind; [apply touches_Lx_wr | intros _; apply IH].
Qed.

(** Decomposes a layer call into its statements, down to register accesses. *)
Ltac touches_step :=
  first
    [ apply touches_bind; [| intros ?]
    | apply touches_ret
    | apply touches_panic
    | apply touches_assert
    | apply touches_check
    | apply touches_gets
    | apply touches_lift
    | apply touches_Lx_wr
    | apply touches_drv_config
    | apply touches_palette_loop
    | apply touches_when
    | match goal with
      | |- touches_only_layer _ (match ?x with _ => _ end) => destruct x
      end ].

Ltac touches_tac := repeat touches_step.

Lemma runs_touches {A : Type} (l : ltdc_layer) (m : M ltdc_world A)
    (QD : A -> ltdc_world -> Prop) (QH : string -> ltdc_world -> Prop)
    (s : ltdc_world) :
  touches_only_layer l m ->
  (forall a r, QD a (upd_layer l (fun _ => r) s)) ->
  (forall msg r, QH msg (upd_layer l (fun _ => r) s)) ->
  runs m QD QH s.
Proof.
  intros T HD HH. unfold runs. specialize (T s).
  destruct (m s) as [[a | msg] s1]; cbn [snd] in T;
    rewrite (same_but_layer_inv _ _ _ T); [apply HD | apply HH].
Qed.

Section LayerFootprint.
Context {hw : ltdc_hw}.

Lemma touches_ltdcLxSetFrameI (l : ltdc_layer) (framep : option ltdc_frame_t) :
  touches_only_layer l (ltdcLxSetFrameI l framep).
Proof.
  unfold ltdcLxSetFrameI, ltdcLxSetPixelFormatI, Lx_rd. touches_tac.
Qed.

Lemma touches_ltdcLxSetWindowI (l : ltdc_layer) (windowp : option ltdc_window_t) :
  touches_only_layer l (ltdcLxSetWindowI l windowp).
Proof. unfold ltdcLxSetWindowI, drv_rd. touches_tac. Qed.

Lemma touches_ltdcLxSetPaletteI (l : ltdc_layer) (colors : option (list Z)) (n : Z) :
  touches_only_layer l (ltdcLxSetPaletteI l colors n).
Proof. unfold ltdcLxSetPaletteI, ltdcLxIsEnabledI, Lx_rd. touches_tac. Qed.

Lemma touches_ltdcLxSetConfigI (l : ltdc_layer) (cfgp : option ltdc_laycfg_t) :
  touches_only_layer l (ltdcLxSetConfigI l cfgp).
Proof.
  unfold ltdcLxSetConfigI.
  repeat (apply touches_bind; [| intros ?]);
    try apply touches_check;
    try apply touches_ltdcLxSetFrameI;
    try apply touches_ltdcLxSetWindowI;
    try (apply touches_when; apply touches_ltdcLxSetPaletteI);
    unfold ltdcLxSetDefaultColorI, ltdcLxSetKeyingColorI, ltdcLxSetConstantAlphaI,
      ltdcLxSetBlendingFactorsI, ltdcLxSetEnableFlagsI, Lx_rd;
    touches_tac.
Qed.

End LayerFootprint.

(** *** Running the statements of a call on a symbolic machine *)

(** Projections of updated worlds, reduced to the fields written. *)
Ltac world_simpl :=
  repeat progress
    (unfold upd_LTDC, upd_driver, log_event,
       set_SSCR, set_BPCR, set_AWCR, set_TWCR, set_GCR, set_SRCR, set_BCCR,
       set_IER, set_ISR, set_ICR,
       set_state, set_config, set_active_window, set_thread,
       set_hstart, set_hstop, set_vstart, set_vstop;
     cbn [mach events LTDC LTDC_Layer1 LTDC_Layer2 LTDCD1 upd_layer layer_regs
          SSCR BPCR AWCR TWCR GCR SRCR BCCR IER ISR ICR
          state config active_window thread hstart hstop vstart vstop]).

(** One statement of a call; [halted] closes the goal of a check that fails. *)
Ltac run_step halted :=
  lazymatch goal with
  | |- runs (bind _ _) _ _ _ => apply runs_bind
  | |- runs (ret _) _ _ _ => apply runs_ret
  | |- runs (chDbgAssert _ _) _ _ _ =>
      apply runs_assert; [intros ? | intros ?; halted]
  | |- runs (chDbgCheck _ _) _ _ _ =>
      apply runs_check; [intros ? | intros ?; halted]
  | |- runs (chDbgPanic _) _ _ _ => apply runs_panic; halted
  | |- runs (emit _) _ _ _ => apply runs_modify
  | |- runs (LTDC_wr _ _) _ _ _ => apply runs_modify
  | |- runs (LTDC_rd _) _ _ _ => apply runs_gets
  | |- runs (drv_wr _ _) _ _ _ => apply runs_modify
  | |- runs (drv_rd _) _ _ _ => apply runs_gets
  | |- runs (Lx_wr _ _ _) _ _ _ => apply runs_modify
  | |- runs (Lx_rd _ _) _ _ _ => apply runs_gets
  | |- runs (store_state _) _ _ _ => unfold store_state
  | |- runs poll_SRCR _ _ _ _ => unfold poll_SRCR
  | |- runs (poll_SRCR _) _ _ _ => unfold poll_SRCR
  | |- runs ltdc_force_reload_s _ _ _ => unfold ltdc_force_reload_s
  | |- runs (ltdcSetEnableFlagsI _) _ _ _ => unfold ltdcSetEnableFlagsI
  | |- runs (ltdcSetClearColorI _) _ _ _ => unfold ltdcSetClearColorI
  | |- runs drv_config _ _ _ => unfold drv_config
  | |- runs (call_isr _ _) _ _ _ => unfold call_isr
  | |- runs (modify _) _ _ _ => apply runs_modify
  | |- runs (gets _) _ _ _ => apply runs_gets
  | |- runs (when _ _) _ _ _ => apply runs_when; intros ?
  | |- runs (match ?x with _ => _ end) _ _ _ => destruct x eqn:?
  end; cbv beta iota zeta; world_simpl.

Lemma ltdc_state_eqb_eq (a b : ltdc_state_t) : ltdc_state_eqb a b = true <-> a = b.
Proof. destruct a, b; cbn; split; intros H; try reflexivity; discriminate H. Qed.

Lemma ltdc_state_eqb_neq (a b : ltdc_state_t) : ltdc_state_eqb a b = false <-> a <> b.
Proof.
  destruct a, b; cbn; split; intros H; try reflexivity; try discriminate H;
    try (intros E; discriminate E); exfalso; apply H; reflexivity.
Qed.

Section StartRun.
Context {hw : ltdc_hw}.

(** Every run of [ltdcStart] with a configuration: the global registers and
    the events of a completed run, and where a halted run leaves the
    machine. *)
Lemma ltdcStart_run (cfg : LTDCConfig) (w : ltdc_world) :
  runs (ltdcStart (Some cfg))
    (fun _ s' =>
       LTDC (mach s')
       = mk_LTDC
           (Z.lor (Z.land (shl32 (u32 (hsync_width cfg - 1)) 16) LTDC_SSCR_HSW)
                  (Z.land (shl32 (u32 (vsync_height cfg - 1)) 0) LTDC_SSCR_VSH))
           (Z.lor (Z.land (shl32 (u32 (u32 (hsync_width cfg - 1) + hbp_width cfg)) 16)
                          LTDC_BPCR_AHBP)
                  (Z.land (shl32 (u32 (u32 (vsync_height cfg - 1) + vbp_height cfg)) 0)
                          LTDC_BPCR_AVBP))
           (Z.lor (Z.land (shl32 (u32 (u32 (u32 (hsync_width cfg - 1) + hbp_width cfg)
                                        + screen_width cfg)) 16) LTDC_AWCR_AAW)
                  (Z.land (shl32 (u32 (u32 (u32 (vsync_height cfg - 1) + vbp_height cfg)
                                        + screen_height cfg)) 0) LTDC_AWCR_AAH))
           (Z.lor (Z.land (shl32 (u32 (u32 (u32 (u32 (hsync_width cfg - 1) + hbp_width cfg)
                                        + screen_width cfg) + hfp_width cfg)) 16)
                          LTDC_TWCR_TOTALW)
                  (Z.land (shl32 (u32 (u32 (u32 (u32 (vsync_height cfg - 1) + vbp_height cfg)
                                        + screen_height cfg) + vfp_height cfg)) 0)
                          LTDC_TWCR_TOTALH))
           (Z.lor (Z.land (Z.land (cfg_flags cfg) (not32 LTDC_EF_ENABLE)) LTDC_EF_MASK)
                  LTDC_GCR_LTDCEN)
           (after_forced_reload (after_forced_reload (after_forced_reload
              (SRCR (LTDC (mach w))))))
           (Z.lor (Z.land (BCCR (LTDC (mach w))) (not32 0x00FFFFFF))
                  (Z.land (clear_color cfg) 0x00FFFFFF))
           (let flags := LTDC_IER_RRIE in
            let flags := match line_isr cfg with
                         | Some _ => Z.lor flags LTDC_IER_LIE | None => flags end in
            let flags := match fuerr_isr cfg with
                         | Some _ => Z.lor flags LTDC_IER_FUIE | None => flags end in
            let flags := match terr_isr cfg with
                         | Some _ => Z.lor flags LTDC_IER_TERRIE | None => flags end in
            flags)
           (ISR (LTDC (mach w)))
           (ICR (LTDC (mach w)))
       /\ events s'
          = (events w ++ [EvSysLock; EvNvicEnableVector STM32_LTDC_EV_NUMBER;
                          EvNvicEnableVector STM32_LTDC_ER_NUMBER;
                          EvState LTDC_READY; EvSysUnlock])%list
       /\ state (LTDCD1 (mach w)) = LTDC_STOP
       /\ LTDCD1 (mach s')
          = mk_driver LTDC_READY (Some cfg)
              (mk_window
                 (u16 (u32 (u32 (hsync_width cfg - 1) + hbp_width cfg) + 1))
                 (u16 (u32 (u32 (u32 (hsync_width cfg - 1) + hbp_width cfg)
                            + screen_width cfg)))
                 (u16 (u32 (u32 (vsync_height cfg - 1) + vbp_height cfg) + 1))
                 (u16 (u32 (u32 (u32 (vsync_height cfg - 1) + vbp_height cfg)
                            + screen_height cfg))))
              (thread (LTDCD1 (mach w))))
    (fun msg s' =>
       (msg = "ltdcStart(), #1"
        /\ state (LTDCD1 (mach w)) <> LTDC_STOP
        /\ s' = log_event EvSysLock w)
       \/ (state (LTDCD1 (mach w)) = LTDC_STOP
           /\ state (LTDCD1 (mach s')) = LTDC_STOP
           /\ config (LTDCD1 (mach s')) = Some cfg
           /\ thread (LTDCD1 (mach s')) = thread (LTDCD1 (mach w))
           /\ events s' = (events w ++ [EvSysLock])%list
           /\ IER (LTDC (mach s')) = 0
           /\ (GCR (LTDC (mach s')) = 0
               \/ GCR (LTDC (mach s'))
                  = Z.land (Z.land (cfg_flags cfg) (not32 LTDC_EF_ENABLE)) LTDC_EF_MASK)))
    w.
Proof.
  unfold ltdcStart.
  repeat run_step fail.
  run_step ltac:(left; repeat split;
                 [ apply ltdc_state_eqb_neq; assumption ]).
  match goal with H : ltdc_state_eqb _ _ = true |- _ =>
    apply ltdc_state_eqb_eq in H; rename H into Hstop end.
  repeat run_step ltac:(right; repeat split; auto).
  - (* the background layer's configuration *)
    apply (runs_touches Bg); [apply touches_ltdcLxSetConfigI | |];
      [intros _ rb | intros msg rb; world_simpl; right; repeat split; auto].
    world_simpl.
    repeat run_step idtac.
    apply (runs_touches Fg); [apply touches_ltdcLxSetConfigI | |];
      [intros _ rf | intros msg rf; world_simpl; right; repeat split; auto].
    world_simpl.
    repeat run_step idtac.
    split; [unfold after_forced_reload; reflexivity|].
    split; [repeat rewrite <- app_assoc; reflexivity|].
    split; [exact Hstop | reflexivity].
Qed.

End StartRun.

(** ** Register fields *)

(** [(x & ~m) & m] is zero. *)
Lemma land_not32_self (x m : Z) : is_u32 m -> Z.land (Z.land x (not32 m)) m = 0.
Proof.
  intros Hm. apply Z.bits_inj'. intros i Hi.
  rewrite !Z.land_spec, Z.bits_0.
  destruct (Z.ltb_spec i 32).
  - rewrite not32_testbit by lia. destruct (Z.testbit m i), (Z.testbit x i); reflexivity.
  - rewrite (u32_testbit_high m i Hm) by lia. apply Bool.andb_false_r.
Qed.

(** [((r & ~m) | (x & m)) & m] is [x & m]: a field written is read back. *)
Lemma field_write_read (r x m : Z) :
  is_u32 m ->
  Z.land (Z.lor (Z.land r (not32 m)) (Z.land x m)) m = Z.land x m.
Proof.
  intros Hm. apply Z.bits_inj'. intros i Hi.
  rewrite !Z.land_spec, Z.lor_spec, !Z.land_spec.
  destruct (Z.ltb_spec i 32).
  - rewrite not32_testbit by lia.
    destruct (Z.testbit m i), (Z.testbit x i), (Z.testbit r i); reflexivity.
  - rewrite (u32_testbit_high m i Hm) by lia. rewrite !Bool.andb_false_r. reflexivity.
Qed.

(** [((r & ~m) | (x & m)) & ~m] is [r & ~m]: the other bits stay. *)
Lemma field_write_keeps (r x m : Z) :
  is_u32 m ->
  Z.land (Z.lor (Z.land r (not32 m)) (Z.land x m)) (not32 m) = Z.land r (not32 m).
Proof.
  intros Hm. apply Z.bits_inj'. intros i Hi.
  rewrite !Z.land_spec, Z.lor_spec, !Z.land_spec.
  destruct (Z.ltb_spec i 32).
  - rewrite not32_testbit by lia.
    destruct (Z.testbit m i), (Z.testbit x i), (Z.testbit r i); reflexivity.
  - pose proof (not32_range m Hm) as Hn.
    rewrite (u32_testbit_high (not32 m) i Hn) by lia.
    rewrite !Bool.andb_false_r. reflexivity.
Qed.

(** [(r | m) & m] is [m]. *)
Lemma lor_land_self (r m : Z) : Z.land (Z.lor r m) m = m.
Proof.
  apply Z.bits_inj'. intros i Hi. rewrite Z.land_spec, Z.lor_spec.
  destruct (Z.testbit m i), (Z.testbit r i); reflexivity.
Qed.

Lemma nonzero_true (x : Z) : nonzero x = true <-> x <> 0.
Proof.
  unfold nonzero. destruct (Z.eqb_spec x 0); cbn; split; intros H;
    try reflexivity; try discriminate H; try assumption. exfalso. apply H. assumption.
Qed.

Lemma nonzero_false (x : Z) : nonzero x = false <-> x = 0.
Proof.
  unfold nonzero. destruct (Z.eqb_spec x 0); cbn; split; intros H;
    try reflexivity; try discriminate H; try assumption. exfalso. apply n. assumption.
Qed.

(** ** Start: the registers, the events, and what a failed start leaves *)

Section StartProperties.
Context {hw : ltdc_hw}.


(** X2: a completed [ltdcStart] leaves in the four timing registers the
    accumulated values, each minus one: sync; sync plus back porch; plus the
    screen size; plus the front porch, horizontal in the high half and
    vertical in the low half, each cut to its field.  The global control
    register holds the configuration's flags without the enable flag, cut to
    [LTDC_EF_MASK], with the controller's enable bit or-ed in; the clear
    colour replaces the low 24 bits of [BCCR]; [ISR] and [ICR] are as
    before. *)
Theorem ltdcStart_programs_timings (cfg : LTDCConfig) (w w' : ltdc_world) :
  ltdcStart (Some cfg) w = (Done tt, w') ->
  let hsync := u32 (hsync_width cfg - 1) in
  let vsync := u32 (vsync_height cfg - 1) in
  let hbp := u32 (hsync + hbp_width cfg) in
  let vbp := u32 (vsync + vbp_height cfg) in
  let hact := u32 (hbp + screen_width cfg) in
  let vact := u32 (vbp + screen_height cfg) in
  let htot := u32 (hact + hfp_width cfg) in
  let vtot := u32 (vact + vfp_height cfg) in
  SSCR (LTDC (mach w'))
  = Z.lor (Z.land (shl32 hsync 16) LTDC_SSCR_HSW) (Z.land (shl32 vsync 0) LTDC_SSCR_VSH)
  /\ BPCR (LTDC (mach w'))
     = Z.lor (Z.land (shl32 hbp 16) LTDC_BPCR_AHBP) (Z.land (shl32 vbp 0) LTDC_BPCR_AVBP)
  /\ AWCR (LTDC (mach w'))
     = Z.lor (Z.land (shl32 hact 16) LTDC_AWCR_AAW) (Z.land (shl32 vact 0) LTDC_AWCR_AAH)
  /\ TWCR (LTDC (mach w'))
     = Z.lor (Z.land (shl32 htot 16) LTDC_TWCR_TOTALW)
             (Z.land (shl32 vtot 0) LTDC_TWCR_TOTALH)
  /\ GCR (LTDC (mach w'))
     = Z.lor (Z.land (Z.land (cfg_flags cfg) (not32 LTDC_EF_ENABLE)) LTDC_EF_MASK)
             LTDC_GCR_LTDCEN
  /\ BCCR (LTDC (mach w'))
     = Z.lor (Z.land (BCCR (LTDC (mach w))) (not32 0x00FFFFFF))
             (Z.land (clear_color cfg) 0x00FFFFFF)
  /\ ISR (LTDC (mach w')) = ISR (LTDC (mach w))
  /\ ICR (LTDC (mach w')) = ICR (LTDC (mach w)).
Proof.
  intros H.
  destruct (runs_Done _ _ _ _ _ _ (ltdcStart_run cfg w) H) as (HL & _).
  rewrite HL. cbn [SSCR BPCR AWCR TWCR GCR BCCR ISR ICR]. repeat split.
Qed.

Lemma after_forced_reload_idle (r : Z) :
  is_u32 LTDC_SRCR_IMR -> is_u32 LTDC_SRCR_VBR ->
  Z.land (after_forced_reload r) (Z.lor LTDC_SRCR_IMR LTDC_SRCR_VBR) = 0.
Proof.
  intros HI HV. unfold after_forced_reload. apply land_not32_self.
  unfold is_u32 in *. split.
  - apply Z.lor_nonneg. lia.
  - assert (E : Z.lor LTDC_SRCR_IMR LTDC_SRCR_VBR
                = Z.lor LTDC_SRCR_IMR LTDC_SRCR_VBR mod 2 ^ 32).
    { apply Z.bits_inj'. intros i Hi. rewrite Z.testbit_mod_pow2 by lia.
      destruct (Z.ltb_spec i 32); [reflexivity|].
      rewrite Z.lor_spec.
      rewrite (u32_testbit_high _ i HI), (u32_testbit_high _ i HV) by lia.
      reflexivity. }
    rewrite E. apply Z.mod_pos_bound. reflexivity.
Qed.

(** X3: when [ltdcStart] has completed no reload is pending: both request
    bits of [SRCR] are clear and [ltdcIsReloadingI] answers false, leaving
    the machine as it is. *)
Theorem ltdcStart_leaves_no_reload_pending (cfg : LTDCConfig) (w w' : ltdc_world) :
  is_u32 LTDC_SRCR_IMR -> is_u32 LTDC_SRCR_VBR ->
  ltdcStart (Some cfg) w = (Done tt, w') ->
  Z.land (SRCR (LTDC (mach w'))) (Z.lor LTDC_SRCR_IMR LTDC_SRCR_VBR) = 0
  /\ ltdcIsReloadingI w' = (Done false, w').
Proof.
  intros HI HV H.
  destruct (runs_Done _ _ _ _ _ _ (ltdcStart_run cfg w) H) as (HL & _).
  assert (E : Z.land (SRCR (LTDC (mach w'))) (Z.lor LTDC_SRCR_IMR LTDC_SRCR_VBR) = 0).
  { rewrite HL. cbn [SRCR]. apply after_forced_reload_idle; assumption. }
  split; [exact E|].
  unfold ltdcIsReloadingI, bind, LTDC_rd, gets, ret. rewrite E. reflexivity.
Qed.


End StartProperties.


Lemma ltdcStart_programs_timings_witness :
  SSCR (LTDC (mach world_480x272)) = 0x00280009
  /\ BPCR (LTDC (mach world_480x272)) = 0x002A000B
  /\ AWCR (LTDC (mach world_480x272)) = 0x020A011B
  /\ TWCR (LTDC (mach world_480x272)) = 0x020C011D
  /\ GCR (LTDC (mach world_480x272)) = 0x00000001.
Proof.
  destruct (ltdcStart_programs_timings (hw := stm32f4_hw)
              scenario_config world_after_init world_480x272)
    as (H1 & H2 & H3 & H4 & H5 & _).
  - vm_compute. reflexivity.
  - rewrite H1, H2, H3, H4, H5. vm_compute. repeat split.
Defined.

Lemma ltdcStart_leaves_no_reload_pending_witness :
  ltdcIsReloadingI (hw := stm32f4_hw) world_480x272 = (Done false, world_480x272).
Proof.
  apply (ltdcStart_leaves_no_reload_pending (hw := stm32f4_hw)
           scenario_config world_after_init world_480x272).
  - unfold is_u32. simpl. lia.
  - unfold is_u32. simpl. lia.
  - vm_compute. reflexivity.
Defined.


(** ** Reload, stop, and the thread parked in the driver *)

Lemma runs_completes {S A : Type} (m : M S A) (QD : A -> S -> Prop) (s : S) :
  runs m QD (fun _ _ => False) s ->
  exists a s', m s = (Done a, s') /\ QD a s'.
Proof.
  unfold runs. destruct (m s) as [[a | msg] s1]; intros H.
  - exists a, s1. split; [reflexivity | exact H].
  - contradiction.
Qed.

(** Unfolds the statements of a short call and the worlds they build. *)
Ltac run_all :=
  repeat progress
    (unfold runs, bind, ret, chDbgAssert, chDbgCheck, chDbgPanic, gets, modify, when,
       LTDC_rd, LTDC_wr, Lx_rd, Lx_wr, drv_rd, drv_wr, emit, store_state, drv_config,
       poll_SRCR;
     world_simpl;
     cbn [ltdc_state_eqb andb negb fst snd]).

Section Reload.
Context {hw : ltdc_hw}.

(** Every run of [ltdcStartReloadI]. *)
Lemma ltdcStartReloadI_run (immediately : bool) (w : ltdc_world) :
  runs (ltdcStartReloadI immediately)
    (fun _ s' =>
       state (LTDCD1 (mach w)) = LTDC_READY
       /\ s' = mk_world
                 (mk_machine
                    (set_SRCR (Z.lor (SRCR (LTDC (mach w)))
                                     (if immediately then LTDC_SRCR_IMR else LTDC_SRCR_VBR))
                              (LTDC (mach w)))
                    (LTDC_Layer1 (mach w)) (LTDC_Layer2 (mach w))
                    (set_state LTDC_ACTIVE (LTDCD1 (mach w))))
                 (events w ++ [EvState LTDC_ACTIVE]))
    (fun msg s' =>
       msg = "ltdcStartReloadI(), #1"
       /\ state (LTDCD1 (mach w)) <> LTDC_READY /\ s' = w)
    w.
Proof.
  unfold ltdcStartReloadI. run_all.
  destruct (state (LTDCD1 (mach w))) eqn:Hs; cbn [ltdc_state_eqb];
    try (repeat split; [discriminate]).
  destruct immediately; run_all; split; reflexivity.
Qed.

(** Every run of [ltdcReloadS]. *)
Lemma ltdcReloadS_run (self : Thread_ptr) (immediately : bool) (w : ltdc_world) :
  runs (ltdcReloadS self immediately)
    (fun _ s' =>
       state (LTDCD1 (mach w)) = LTDC_READY
       /\ thread (LTDCD1 (mach w)) = None
       /\ s' = if immediately
               then mk_world
                      (mk_machine
                         (set_SRCR (Z.land (Z.lor (SRCR (LTDC (mach w))) LTDC_SRCR_IMR)
                                           (not32 LTDC_SRCR_IMR))
                                   (LTDC (mach w)))
                         (LTDC_Layer1 (mach w)) (LTDC_Layer2 (mach w))
                         (set_state LTDC_READY (LTDCD1 (mach w))))
                      (events w ++ [EvState LTDC_ACTIVE; EvState LTDC_READY])
               else mk_world
                      (mk_machine
                         (set_SRCR (Z.lor (SRCR (LTDC (mach w))) LTDC_SRCR_VBR)
                                   (LTDC (mach w)))
                         (LTDC_Layer1 (mach w)) (LTDC_Layer2 (mach w))
                         (set_thread (Some self)
                            (set_state LTDC_ACTIVE (LTDCD1 (mach w)))))
                      (events w ++ [EvState LTDC_ACTIVE; EvSchGoSleepS self]))
    (fun msg s' =>
       (msg = "ltdcStartReloadI(), #1"
        /\ state (LTDCD1 (mach w)) <> LTDC_READY /\ s' = w)
       \/ (msg = "ltdcReloadS(), #1"
           /\ state (LTDCD1 (mach w)) = LTDC_READY
           /\ thread (LTDCD1 (mach w)) <> None
           /\ state (LTDCD1 (mach s')) = LTDC_ACTIVE
           /\ thread (LTDCD1 (mach s')) = thread (LTDCD1 (mach w))))
    w.
Proof.
  unfold ltdcReloadS, ltdcStartReloadI. run_all.
  destruct (state (LTDCD1 (mach w))) eqn:Hs; cbn [ltdc_state_eqb];
    try (left; repeat split; [discriminate]).
  destruct (thread (LTDCD1 (mach w))) as [tp |] eqn:Ht.
  - destruct immediately; run_all; right; repeat split; discriminate.
  - destruct immediately; run_all; repeat split;
      rewrite <- app_assoc; reflexivity.
Qed.

(** Every run of [ltdcStop]. *)
Lemma ltdcStop_run (self : Thread_ptr) (w : ltdc_world) :
  runs (ltdcStop self)
    (fun _ s' =>
       state (LTDCD1 (mach w)) = LTDC_READY
       /\ thread (LTDCD1 (mach w)) = None
       /\ s' = mk_world
                 (mk_machine
                    (set_SRCR (Z.land (Z.lor (SRCR (LTDC (mach w))) LTDC_SRCR_IMR)
                                      (not32 LTDC_SRCR_IMR))
                       (set_IER 0
                          (set_GCR (Z.land (GCR (LTDC (mach w))) (not32 LTDC_GCR_LTDCEN))
                                   (LTDC (mach w)))))
                    (LTDC_Layer1 (mach w)) (LTDC_Layer2 (mach w))
                    (set_state LTDC_STOP (LTDCD1 (mach w))))
                 (events w ++ [EvSysLock; EvState LTDC_ACTIVE; EvState LTDC_READY;
                               EvState LTDC_STOP; EvSysUnlock]))
    (fun msg s' =>
       (msg = "ltdcStop(), #1"
        /\ state (LTDCD1 (mach w)) <> LTDC_READY /\ s' = log_event EvSysLock w)
       \/ (msg = "ltdcReloadS(), #1"
           /\ state (LTDCD1 (mach w)) = LTDC_READY
           /\ thread (LTDCD1 (mach w)) <> None
           /\ state (LTDCD1 (mach s')) = LTDC_ACTIVE
           /\ thread (LTDCD1 (mach s')) = thread (LTDCD1 (mach w))))
    w.
Proof.
  unfold ltdcStop, ltdcReloadS, ltdcStartReloadI. run_all.
  destruct (state (LTDCD1 (mach w))) eqn:Hs; cbn [ltdc_state_eqb];
    try (left; repeat split; [discriminate]).
  run_all. rewrite Hs. run_all.
  destruct (thread (LTDCD1 (mach w))) as [tp |] eqn:Ht.
  - run_all. right. repeat split; discriminate.
  - run_all. repeat split. repeat rewrite <- app_assoc. reflexivity.
Qed.

End Reload.

Section ReloadProperties.
Context {hw : ltdc_hw}.


(** X6: a driver that is not READY refuses to stop and to reload:
    [ltdcStop] halts on its first assertion having done nothing but enter
    the critical section, [ltdcStartReloadI] and [ltdcReloadS] halt on the
    assertion of [ltdcStartReloadI] with the machine untouched.  In
    particular a second reload cannot be asked for while one is in flight
    (the driver is then ACTIVE). *)
Theorem reload_and_stop_need_ready (self : Thread_ptr) (immediately : bool)
    (w : ltdc_world) :
  state (LTDCD1 (mach w)) <> LTDC_READY ->
  ltdcStop self w = (Halt "ltdcStop(), #1", log_event EvSysLock w)
  /\ ltdcStartReloadI immediately w = (Halt "ltdcStartReloadI(), #1", w)
  /\ ltdcReloadS self immediately w = (Halt "ltdcStartReloadI(), #1", w).
Proof.
  intros Hs.
  pose proof (ltdcStop_run self w) as R1.
  pose proof (ltdcStartReloadI_run immediately w) as R2.
  pose proof (ltdcReloadS_run self immediately w) as R3.
  unfold runs in R1, R2, R3.
  destruct (ltdcStop self w) as [[[] | m1] w1];
    [destruct R1 as (E & _); contradiction|].
  destruct (ltdcStartReloadI immediately w) as [[[] | m2] w2];
    [destruct R2 as (E & _); contradiction|].
  destruct (ltdcReloadS self immediately w) as [[[] | m3] w3];
    [destruct R3 as (E & _); contradiction|].
  destruct R1 as [(-> & _ & ->) | (_ & E & _)]; [| contradiction].
  destruct R2 as (-> & _ & ->).
  destruct R3 as [(-> & _ & ->) | (_ & E & _)]; [| contradiction].
  repeat split.
Qed.

(** [(r | a) & (a | b)] keeps the bits of [a]. *)
Lemma request_bit_seen (r a b : Z) :
  a <> 0 -> nonzero (Z.land (Z.lor r a) (Z.lor a b)) = true.
Proof.
  intros Ha. apply nonzero_true. intros E. apply Ha.
  assert (H : Z.land (Z.land (Z.lor r a) (Z.lor a b)) a = a).
  { apply Z.bits_inj'. intros i Hi. rewrite !Z.land_spec, !Z.lor_spec.
    destruct (Z.testbit a i), (Z.testbit r i), (Z.testbit b i); reflexivity. }
  rewrite E in H. rewrite Z.land_0_l in H. symmetry. exact H.
Qed.

(** X7: on a READY driver [ltdcStartReloadI] completes, makes the driver
    ACTIVE and sets the request bit of the kind asked for, immediate or at
    the next vertical blank, in [SRCR], leaving its other bits; nothing else
    of the machine changes, and [ltdcIsReloadingI] then answers true. *)
Theorem ltdcStartReloadI_requests_reload (immediately : bool) (w : ltdc_world) :
  state (LTDCD1 (mach w)) = LTDC_READY ->
  (if immediately then LTDC_SRCR_IMR else LTDC_SRCR_VBR) <> 0 ->
  exists w',
    ltdcStartReloadI immediately w = (Done tt, w')
    /\ w' = mk_world
              (mk_machine
                 (set_SRCR (Z.lor (SRCR (LTDC (mach w)))
                                  (if immediately then LTDC_SRCR_IMR else LTDC_SRCR_VBR))
                           (LTDC (mach w)))
                 (LTDC_Layer1 (mach w)) (LTDC_Layer2 (mach w))
                 (set_state LTDC_ACTIVE (LTDCD1 (mach w))))
              (events w ++ [EvState LTDC_ACTIVE])
    /\ ltdcIsReloadingI w' = (Done true, w').
Proof.
  intros Hs Hm.
  pose proof (ltdcStartReloadI_run immediately w) as R. unfold runs in R.
  destruct (ltdcStartReloadI immediately w) as [[[] | msg] w'].
  - destruct R as (_ & ->). eexists. split; [reflexivity|]. split; [reflexivity|].
    unfold ltdcIsReloadingI, bind, LTDC_rd, gets, ret. world_simpl.
    destruct immediately.
    + rewrite request_bit_seen by exact Hm. reflexivity.
    + rewrite (Z.lor_comm LTDC_SRCR_IMR), request_bit_seen by exact Hm. reflexivity.
  - exfalso. destruct R as (_ & Hn & _). apply Hn. exact Hs.
Qed.


End ReloadProperties.


Lemma reload_and_stop_need_ready_witness :
  ltdcStop (hw := stm32f4_hw) waiting_task world_parked
  = (Halt "ltdcStop(), #1", log_event EvSysLock world_parked)
  /\ ltdcStartReloadI (hw := stm32f4_hw) true world_parked
     = (Halt "ltdcStartReloadI(), #1", world_parked)
  /\ ltdcReloadS (hw := stm32f4_hw) waiting_task true world_parked
     = (Halt "ltdcStartReloadI(), #1", world_parked).
Proof.
  apply (reload_and_stop_need_ready (hw := stm32f4_hw) waiting_task true world_parked).
  vm_compute. discriminate.
Defined.

Lemma ltdcStartReloadI_requests_reload_witness :
  exists w',
    ltdcStartReloadI (hw := stm32f4_hw) false world_480x272 = (Done tt, w')
    /\ SRCR (LTDC (mach w')) = 0x00000002
    /\ ltdcIsReloadingI (hw := stm32f4_hw) w' = (Done true, w').
Proof.
  destruct (ltdcStartReloadI_requests_reload (hw := stm32f4_hw) false world_480x272)
    as (w' & H & E & Hr).
  - vm_compute. reflexivity.
  - vm_compute. discriminate.
  - exists w'. split; [exact H|]. split; [| exact Hr].
    rewrite E. vm_compute. reflexivity.
Defined.


(** ** The interrupt handlers *)

Section Handlers.
Context {hw : ltdc_hw} {hwm : ltdc_hw_more}.
Variable isr_body : ltdcisr_t -> ltdc_machine -> ltdc_machine.

Lemma ev_line_interrupt_shape :
  ev_line_interrupt isr_body
  = callback_branch isr_body LTDC_ISR_LIF LTDC_IER_LIE line_isr
      "LTDC_EV_IRQHandler(), #1" LTDC_ICR_CLIF.
Proof. reflexivity. Qed.

Lemma er_fifo_underrun_shape :
  er_fifo_underrun isr_body
  = callback_branch isr_body LTDC_ISR_FUIF LTDC_IER_FUIE fuerr_isr
      "LTDC_ER_IRQHandler(), #1" LTDC_ICR_CFUIF.
Proof. reflexivity. Qed.

Lemma er_transfer_error_shape :
  er_transfer_error isr_body
  = callback_branch isr_body LTDC_ISR_TERRIF LTDC_IER_TERRIE terr_isr
      "LTDC_ER_IRQHandler(), #2" LTDC_ICR_CTERRIF.
Proof. reflexivity. Qed.

(** Every run of a callback branch on a driver that holds a configuration. *)
Lemma callback_branch_run (flag enable : Z) (sel : LTDCConfig -> option ltdcisr_t)
    (tag : string) (clear : Z) (w : ltdc_world) (cfg : LTDCConfig) :
  config (LTDCD1 (mach w)) = Some cfg ->
  runs (callback_branch isr_body flag enable sel tag clear)
    (fun _ s' =>
       (pending_and_enabled flag enable w = false /\ s' = w)
       \/ (pending_and_enabled flag enable w = true
           /\ exists f,
                sel cfg = Some f
                /\ s' = mk_world
                          (mk_machine
                             (set_ICR (Z.lor (ICR (LTDC (isr_body f (mach w)))) clear)
                                      (LTDC (isr_body f (mach w))))
                             (LTDC_Layer1 (isr_body f (mach w)))
                             (LTDC_Layer2 (isr_body f (mach w)))
                             (LTDCD1 (isr_body f (mach w))))
                          (events w ++ [EvCallback f])))
    (fun msg s' =>
       pending_and_enabled flag enable w = true
       /\ sel cfg = None /\ msg = tag /\ s' = w)
    w.
Proof.
  intros Hc. unfold callback_branch, pending_and_enabled. run_all.
  destruct (nonzero (Z.land (ISR (LTDC (mach w))) flag)
            && nonzero (Z.land (IER (LTDC (mach w))) enable)).
  - rewrite Hc. destruct (sel cfg) as [f |]; unfold call_isr; run_all.
    + right. split; [reflexivity|]. exists f. split; reflexivity.
    + repeat split.
  - left. split; reflexivity.
Qed.

(** Every run of the register reload branch on a driver that holds a
    configuration. *)
Lemma ev_register_reload_run (w : ltdc_world) (cfg : LTDCConfig) :
  config (LTDCD1 (mach w)) = Some cfg ->
  let m1 := match rr_isr cfg with Some f => isr_body f (mach w) | None => mach w end in
  let ev1 := (events w ++ callback_events (rr_isr cfg))%list in
  runs (ev_register_reload isr_body)
    (fun _ s' =>
       (pending_and_enabled LTDC_ISR_RRIF LTDC_IER_RRIE w = false /\ s' = w)
       \/ (pending_and_enabled LTDC_ISR_RRIF LTDC_IER_RRIE w = true
           /\ state (LTDCD1 m1) = LTDC_ACTIVE
           /\ s' = mk_world
                     (mk_machine
                        (set_ICR (Z.lor (ICR (LTDC m1)) LTDC_ICR_CRRIF) (LTDC m1))
                        (LTDC_Layer1 m1) (LTDC_Layer2 m1)
                        (mk_driver LTDC_READY (config (LTDCD1 m1))
                                   (active_window (LTDCD1 m1)) None))
                     (ev1 ++ [EvSysLockFromIsr]
                          ++ match thread (LTDCD1 m1) with
                             | Some tp => [EvSchReadyI tp RDY_OK]
                             | None => []
                             end
                          ++ [EvState LTDC_READY; EvSysUnlockFromIsr])))
    (fun msg s' =>
       pending_and_enabled LTDC_ISR_RRIF LTDC_IER_RRIE w = true
       /\ msg = "LTDC_EV_IRQHandler(), #2"
       /\ state (LTDCD1 m1) <> LTDC_ACTIVE
       /\ s' = mk_world m1 (ev1 ++ [EvSysLockFromIsr]))
    w.
Proof.
  intros Hc m1 ev1. subst m1 ev1.
  unfold ev_register_reload, pending_and_enabled, callback_events. run_all.
  destruct (nonzero (Z.land (ISR (LTDC (mach w))) LTDC_ISR_RRIF)
            && nonzero (Z.land (IER (LTDC (mach w))) LTDC_IER_RRIE));
    [| left; split; reflexivity].
  rewrite Hc.
  destruct (rr_isr cfg) as [f |]; unfold call_isr; run_all.
  - destruct (state (LTDCD1 (isr_body f (mach w)))) eqn:Hs; run_all.
    all: try (split; [reflexivity|]; split; [reflexivity|]; split;
              [discriminate | reflexivity]).
    destruct (thread (LTDCD1 (isr_body f (mach w)))) as [tp |] eqn:Ht; run_all;
      right; (split; [reflexivity|]); (split; [reflexivity|]);
      cbn [app]; repeat rewrite <- app_assoc; rewrite ?Ht; reflexivity.
  - destruct (state (LTDCD1 (mach w))) eqn:Hs; run_all.
    all: try (split; [reflexivity|]; split; [reflexivity|]; split;
              [discriminate | rewrite app_nil_r; reflexivity]).
    destruct (thread (LTDCD1 (mach w))) as [tp |] eqn:Ht; run_all;
      right; (split; [reflexivity|]); (split; [reflexivity|]);
      cbn [app]; rewrite app_nil_r; repeat rewrite <- app_assoc; rewrite ?Ht; reflexivity.
Qed.


Lemma runs_snd {S A : Type} (m : M S A) QD QH (P : S -> Prop) (s : S) :
  runs m QD QH s ->
  (forall a s', QD a s' -> P s') ->
  (forall msg s', QH msg s' -> P s') ->
  P (snd (m s)).
Proof.
  unfold runs. destruct (m s) as [[a | msg] s1]; cbn [snd]; intros H HD HH;
    [eapply HD | eapply HH]; exact H.
Qed.

Lemma keeps_call_isr (f : ltdcisr_t) :
  (forall g m, LTDCD1 (isr_body g m) = LTDCD1 m) ->
  keeps_driver (call_isr isr_body f).
Proof. intros Hcb s. unfold call_isr, bind, emit, modify. cbn. apply Hcb. Qed.

Lemma keeps_callback_branch (flag enable : Z) (sel : LTDCConfig -> option ltdcisr_t)
    (tag : string) (clear : Z) :
  (forall g m, LTDCD1 (isr_body g m) = LTDCD1 m) ->
  keeps_driver (callback_branch isr_body flag enable sel tag clear).
Proof.
  intros Hcb. unfold callback_branch, LTDC_rd.
  repeat (first [apply keeps_call_isr; exact Hcb | keeps_step]).
Qed.

Lemma keeps_LTDC_ER_IRQHandler :
  (forall g m, LTDCD1 (isr_body g m) = LTDCD1 m) ->
  keeps_driver (LTDC_ER_IRQHandler isr_body).
Proof.
  intros Hcb. unfold LTDC_ER_IRQHandler.
  rewrite er_fifo_underrun_shape, er_transfer_error_shape.
  apply keeps_bind; [| intros _]; apply keeps_callback_branch; exact Hcb.
Qed.

Lemma ev_register_reload_waiter (w : ltdc_world) :
  (forall g m, LTDCD1 (isr_body g m) = LTDCD1 m) ->
  waiter_only_when_active (LTDCD1 (mach w)) ->
  waiter_only_when_active (LTDCD1 (mach (snd (ev_register_reload isr_body w)))).
Proof.
  intros Hcb Hinv.
  destruct (config (LTDCD1 (mach w))) as [cfg |] eqn:Hc.
  - apply (runs_snd _ _ _ (fun s' => waiter_only_when_active (LTDCD1 (mach s')))
             _ (ev_register_reload_run w cfg Hc)).
    + intros _ s' [(_ & ->) | (_ & _ & ->)]; [exact Hinv|].
      cbn [mach LTDCD1]. intros H. cbn [thread] in H. contradiction.
    + intros msg s' (_ & _ & _ & ->). cbn [mach LTDCD1].
      destruct (rr_isr cfg); [rewrite Hcb|]; exact Hinv.
  - unfold ev_register_reload. run_all.
    destruct (nonzero (Z.land (ISR (LTDC (mach w))) LTDC_ISR_RRIF)
              && nonzero (Z.land (IER (LTDC (mach w))) LTDC_IER_RRIE));
      [rewrite Hc|]; cbn [snd]; exact Hinv.
Qed.

(** X9: a thread is parked in the driver object only while a reload is in
    flight.  [ltdcInit] establishes this, and every run, completed or
    halted, of [ltdcStart], [ltdcStop], [ltdcStartReloadI], [ltdcReloadS],
    of the two interrupt handlers (with callbacks that leave the driver
    object alone) and of the layer configuration keeps it. *)
Theorem parked_thread_invariant :
  (forall g m, LTDCD1 (isr_body g m) = LTDCD1 m) ->
  (forall w0, waiter_only_when_active (LTDCD1 (mach (snd (ltdcInit w0)))))
  /\ forall w,
       waiter_only_when_active (LTDCD1 (mach w)) ->
       (forall configp,
          waiter_only_when_active (LTDCD1 (mach (snd (ltdcStart configp w)))))
       /\ (forall self,
             waiter_only_when_active (LTDCD1 (mach (snd (ltdcStop self w)))))
       /\ (forall immediately,
             waiter_only_when_active
               (LTDCD1 (mach (snd (ltdcStartReloadI immediately w)))))
       /\ (forall self immediately,
             waiter_only_when_active
               (LTDCD1 (mach (snd (ltdcReloadS self immediately w)))))
       /\ waiter_only_when_active
            (LTDCD1 (mach (snd (LTDC_EV_IRQHandler isr_body w))))
       /\ waiter_only_when_active
            (LTDCD1 (mach (snd (LTDC_ER_IRQHandler isr_body w))))
       /\ (forall l cfgp,
             waiter_only_when_active
               (LTDCD1 (mach (snd (ltdcLxSetConfigI l cfgp w))))).
Proof.
  intros Hcb. split.
  { intros w0 H. cbn in H. contradiction. }
  intros w Hinv.
  assert (Hnone : state (LTDCD1 (mach w)) <> LTDC_ACTIVE ->
                  thread (LTDCD1 (mach w)) = None).
  { intros Hs. destruct (thread (LTDCD1 (mach w))) eqn:Ht; [| reflexivity].
    exfalso. apply Hs. apply Hinv. rewrite Ht. discriminate. }
  split; [| split; [| split; [| split; [| split; [| split]]]]].
  - intros [cfg |].
    + apply (runs_snd _ _ _ (fun s' => waiter_only_when_active (LTDCD1 (mach s')))
               _ (ltdcStart_run cfg w)).
      * intros _ s' (_ & _ & Hs & ->). intros H. cbn [thread] in H.
        exfalso. apply H. apply Hnone. rewrite Hs. discriminate.
      * intros msg s' [(_ & _ & ->) | (Hs & _ & _ & Ht & _)]; [exact Hinv|].
        intros H. exfalso. apply H. rewrite Ht. apply Hnone. rewrite Hs. discriminate.
    + exact Hinv.
  - intros self.
    apply (runs_snd _ _ _ (fun s' => waiter_only_when_active (LTDCD1 (mach s')))
             _ (ltdcStop_run self w)).
    + intros _ s' (_ & Ht & ->). intros H. cbn in H. rewrite Ht in H. contradiction.
    + intros msg s' [(_ & _ & ->) | (_ & _ & _ & Hs & _)]; [exact Hinv|].
      intros _. exact Hs.
  - intros immediately.
    apply (runs_snd _ _ _ (fun s' => waiter_only_when_active (LTDCD1 (mach s')))
             _ (ltdcStartReloadI_run immediately w)).
    + intros _ s' (_ & ->). intros _. reflexivity.
    + intros msg s' (_ & _ & ->). exact Hinv.
  - intros self immediately.
    apply (runs_snd _ _ _ (fun s' => waiter_only_when_active (LTDCD1 (mach s')))
             _ (ltdcReloadS_run self immediately w)).
    + intros _ s' (_ & Ht & ->). destruct immediately; intros H; cbn in H.
      * rewrite Ht in H. contradiction.
      * reflexivity.
    + intros msg s' [(_ & _ & ->) | (_ & _ & _ & Hs & _)]; [exact Hinv|].
      intros _. exact Hs.
  - unfold LTDC_EV_IRQHandler, bind.
    pose proof (keeps_callback_branch LTDC_ISR_LIF LTDC_IER_LIE line_isr
                  "LTDC_EV_IRQHandler(), #1" LTDC_ICR_CLIF Hcb w) as K.
    rewrite <- ev_line_interrupt_shape in K.
    destruct (ev_line_interrupt isr_body w) as [[[] | msg] s1]; cbn [snd] in *.
    + apply ev_register_reload_waiter; [exact Hcb | rewrite K; exact Hinv].
    + rewrite K. exact Hinv.
  - rewrite (keeps_LTDC_ER_IRQHandler Hcb w). exact Hinv.
  - intros l cfgp. rewrite (keeps_ltdcLxSetConfigI l cfgp w). exact Hinv.
Qed.


(** Every run of the event handler when no line interrupt is to be served:
    it is the run of the register reload branch. *)
Lemma LTDC_EV_IRQHandler_no_line (w : ltdc_world) (cfg : LTDCConfig) :
  config (LTDCD1 (mach w)) = Some cfg ->
  pending_and_enabled LTDC_ISR_LIF LTDC_IER_LIE w = false ->
  LTDC_EV_IRQHandler isr_body w = ev_register_reload isr_body w.
Proof.
  intros Hc Hl. unfold LTDC_EV_IRQHandler, bind.
  pose proof (callback_branch_run LTDC_ISR_LIF LTDC_IER_LIE line_isr
                "LTDC_EV_IRQHandler(), #1" LTDC_ICR_CLIF w cfg Hc) as R.
  rewrite <- ev_line_interrupt_shape in R. unfold runs in R.
  destruct (ev_line_interrupt isr_body w) as [[[] | msg] s1].
  - destruct R as [(_ & ->) | (E & _)]; [reflexivity | congruence].
  - destruct R as (E & _). congruence.
Qed.

(** X10: a deferred reload from request to wake-up.  On a READY driver with
    nobody parked, [ltdcReloadS] with [immediately] false parks the caller;
    when the controller then raises the reload flag (with the reload
    interrupt enabled, and no line interrupt to serve) the event handler
    completes: the reload callback, if any, is called, the thread made ready
    is the caller that was parked, the driver is READY again with nobody
    parked and with its configuration and active window intact; after that
    a new reload is accepted. *)
Theorem deferred_reload_wakes_the_caller
    (self : Thread_ptr) (w : ltdc_world) (cfg : LTDCConfig) (v : Z) :
  (forall g m, LTDCD1 (isr_body g m) = LTDCD1 m) ->
  state (LTDCD1 (mach w)) = LTDC_READY ->
  thread (LTDCD1 (mach w)) = None ->
  config (LTDCD1 (mach w)) = Some cfg ->
  nonzero (Z.land v LTDC_ISR_RRIF)
  && nonzero (Z.land (IER (LTDC (mach w))) LTDC_IER_RRIE) = true ->
  nonzero (Z.land v LTDC_ISR_LIF)
  && nonzero (Z.land (IER (LTDC (mach w))) LTDC_IER_LIE) = false ->
  exists w1 w3,
    ltdcReloadS self false w = (Done tt, w1)
    /\ LTDC_EV_IRQHandler isr_body (upd_LTDC (set_ISR v) w1) = (Done tt, w3)
    /\ LTDCD1 (mach w3)
       = mk_driver LTDC_READY (Some cfg) (active_window (LTDCD1 (mach w))) None
    /\ events w3
       = (events w ++ [EvState LTDC_ACTIVE; EvSchGoSleepS self]
            ++ callback_events (rr_isr cfg)
            ++ [EvSysLockFromIsr; EvSchReadyI self RDY_OK;
                EvState LTDC_READY; EvSysUnlockFromIsr])%list
    /\ forall immediately,
         exists w4, ltdcStartReloadI immediately w3 = (Done tt, w4).
Proof.
  intros Hcb Hs Ht Hc Hrr Hli.
  pose proof (ltdcReloadS_run self false w) as R1. unfold runs in R1.
  destruct (ltdcReloadS self false w) as [[[] | msg] w1];
    [| exfalso; destruct R1 as [(_ & Hn & _) | (_ & _ & Hn & _)]; apply Hn; assumption].
  destruct R1 as (_ & _ & Hw1).
  exists w1.
  set (w2 := upd_LTDC (set_ISR v) w1).
  assert (Hc2 : config (LTDCD1 (mach w2)) = Some cfg)
    by (subst w2; rewrite Hw1; exact Hc).
  assert (Hli2 : pending_and_enabled LTDC_ISR_LIF LTDC_IER_LIE w2 = false)
    by (subst w2; rewrite Hw1; exact Hli).
  assert (Hrr2 : pending_and_enabled LTDC_ISR_RRIF LTDC_IER_RRIE w2 = true)
    by (subst w2; rewrite Hw1; exact Hrr).
  pose proof (ev_register_reload_run w2 cfg Hc2) as R2. cbv zeta in R2. unfold runs in R2.
  rewrite <- (LTDC_EV_IRQHandler_no_line w2 cfg Hc2 Hli2) in R2.
  assert (Hd : LTDCD1 (match rr_isr cfg with
                       | Some f => isr_body f (mach w2)
                       | None => mach w2
                       end)
               = mk_driver LTDC_ACTIVE (config (LTDCD1 (mach w)))
                           (active_window (LTDCD1 (mach w))) (Some self)).
  { destruct (rr_isr cfg); [rewrite Hcb|]; subst w2; rewrite Hw1; reflexivity. }
  destruct (LTDC_EV_IRQHandler isr_body w2) as [[[] | msg] w3].
  - exists w3. split; [reflexivity|]. split; [reflexivity|].
    destruct R2 as [(E & _) | (_ & _ & ->)]; [congruence|].
    cbn [mach LTDCD1 events]. rewrite Hd. cbn [config active_window thread].
    split; [rewrite Hc; reflexivity|].
    split.
    + subst w2. rewrite Hw1. cbn [upd_LTDC mach events]. cbn [app].
      repeat rewrite <- app_assoc. reflexivity.
    + intros immediately.
      match goal with |- exists w4, ltdcStartReloadI _ ?W = _ => 
        pose proof (ltdcStartReloadI_run immediately W) as R3 end.
      unfold runs in R3.
      match type of R3 with match ?X with _ => _ end =>
        destruct X as [[[] | msg] w4] end.
      * exists w4. reflexivity.
      * exfalso. destruct R3 as (_ & Hn & _). apply Hn. reflexivity.
  - exfalso. destruct R2 as (_ & _ & Hn & _). apply Hn. rewrite Hd. reflexivity.
Qed.

(** X11: a reload interrupt served while the driver is not ACTIVE halts the
    system on the handler's state assertion, and only after the reload
    callback has been called: the critical section is entered and not left,
    no thread is made ready, the driver object is as the callback left it
    and the flag is not acknowledged. *)
Theorem reload_interrupt_outside_active_halts (w : ltdc_world) (cfg : LTDCConfig) :
  (forall g m, LTDCD1 (isr_body g m) = LTDCD1 m) ->
  config (LTDCD1 (mach w)) = Some cfg ->
  state (LTDCD1 (mach w)) <> LTDC_ACTIVE ->
  pending_and_enabled LTDC_ISR_RRIF LTDC_IER_RRIE w = true ->
  pending_and_enabled LTDC_ISR_LIF LTDC_IER_LIE w = false ->
  LTDC_EV_IRQHandler isr_body w
  = (Halt "LTDC_EV_IRQHandler(), #2",
     mk_world
       (match rr_isr cfg with Some f => isr_body f (mach w) | None => mach w end)
       (events w ++ callback_events (rr_isr cfg) ++ [EvSysLockFromIsr])).
Proof.
  intros Hcb Hc Hs Hrr Hli.
  rewrite (LTDC_EV_IRQHandler_no_line w cfg Hc Hli).
  pose proof (ev_register_reload_run w cfg Hc) as R. cbv zeta in R. unfold runs in R.
  destruct (ev_register_reload isr_body w) as [[[] | msg] w'].
  - exfalso. destruct R as [(E & _) | (_ & Ha & _)]; [congruence|].
    apply Hs. rewrite <- Ha. destruct (rr_isr cfg); [rewrite Hcb|]; reflexivity.
  - destruct R as (_ & -> & _ & ->). rewrite <- app_assoc. reflexivity.
Qed.


(** Every run of the error handler on a driver that holds a configuration,
    with callbacks that leave the driver object and the global registers
    alone. *)
Lemma LTDC_ER_IRQHandler_run (w : ltdc_world) (cfg : LTDCConfig) :
  (forall g m, LTDCD1 (isr_body g m) = LTDCD1 m /\ LTDC (isr_body g m) = LTDC m) ->
  config (LTDCD1 (mach w)) = Some cfg ->
  let pu := pending_and_enabled LTDC_ISR_FUIF LTDC_IER_FUIE w in
  let pt := pending_and_enabled LTDC_ISR_TERRIF LTDC_IER_TERRIE w in
  runs (LTDC_ER_IRQHandler isr_body)
    (fun _ w' =>
       (pu = true -> fuerr_isr cfg <> None)
       /\ (pt = true -> terr_isr cfg <> None)
       /\ events w'
          = (events w ++ (if pu then callback_events (fuerr_isr cfg) else [])
                      ++ (if pt then callback_events (terr_isr cfg) else []))%list
       /\ ICR (LTDC (mach w'))
          = Z.lor (Z.lor (ICR (LTDC (mach w))) (if pu then LTDC_ICR_CFUIF else 0))
                  (if pt then LTDC_ICR_CTERRIF else 0)
       /\ LTDCD1 (mach w') = LTDCD1 (mach w))
    (fun msg w' =>
       (pu = true /\ fuerr_isr cfg = None
        /\ msg = "LTDC_ER_IRQHandler(), #1" /\ w' = w)
       \/ (pt = true /\ terr_isr cfg = None
           /\ msg = "LTDC_ER_IRQHandler(), #2"
           /\ events w'
              = (events w ++ (if pu then callback_events (fuerr_isr cfg) else []))%list
           /\ ICR (LTDC (mach w'))
              = Z.lor (ICR (LTDC (mach w))) (if pu then LTDC_ICR_CFUIF else 0)))
    w.
Proof.
  intros Hcb Hc pu pt.
  remember (pending_and_enabled LTDC_ISR_FUIF LTDC_IER_FUIE w) as bu eqn:Ebu.
  remember (pending_and_enabled LTDC_ISR_TERRIF LTDC_IER_TERRIE w) as bt eqn:Ebt.
  subst pu pt.
  unfold LTDC_ER_IRQHandler. apply runs_bind.
  rewrite er_fifo_underrun_shape, er_transfer_error_shape.
  eapply runs_weaken; [apply (callback_branch_run _ _ _ _ _ w cfg Hc) | |].
  - intros u1 s1 H1. cbv beta.
    assert (F : config (LTDCD1 (mach s1)) = Some cfg
                /\ pending_and_enabled LTDC_ISR_TERRIF LTDC_IER_TERRIE s1 = bt
                /\ LTDCD1 (mach s1) = LTDCD1 (mach w)
                /\ events s1
                   = (events w ++ (if bu then callback_events (fuerr_isr cfg) else []))%list
                /\ ICR (LTDC (mach s1))
                   = Z.lor (ICR (LTDC (mach w))) (if bu then LTDC_ICR_CFUIF else 0)
                /\ (bu = true -> fuerr_isr cfg <> None)).
    { rewrite <- Ebu in H1. destruct H1 as [(E & ->) | (E & f & Hf & ->)]; rewrite E.
      - rewrite app_nil_r, Z.lor_0_r. repeat split; try assumption.
        + symmetry; assumption.
        + discriminate.
      - destruct (Hcb f (mach w)) as [Hd Hl]. rewrite Ebt.
        unfold pending_and_enabled. cbn [mach LTDC LTDCD1 events].
        unfold set_ICR. cbn [ISR IER ICR]. rewrite Hd, Hl, Hf.
        repeat split; try assumption. discriminate. }
    destruct F as (Hc1 & Hpt & Hd1 & He1 & Hi1 & Hfu).
    eapply runs_weaken; [apply (callback_branch_run _ _ _ _ _ s1 cfg Hc1) | |].
    + intros u2 s2 H2. cbv beta. rewrite Hpt in H2.
      split; [exact Hfu|].
      destruct H2 as [(E & ->) | (E & f & Hf & ->)]; rewrite E.
      * rewrite app_nil_r, Z.lor_0_r. split; [discriminate|].
        split; [exact He1|]. split; [exact Hi1 | exact Hd1].
      * destruct (Hcb f (mach s1)) as [Hd Hl].
        cbn [mach LTDC LTDCD1 events]. unfold set_ICR. cbn [ICR].
        rewrite Hd, Hl, Hf, He1, Hi1, Hd1. cbn [callback_events].
        split; [discriminate|]. rewrite <- app_assoc. repeat split.
    + intros msg s2 (E & Hn & -> & ->). cbv beta. rewrite Hpt in E. right.
      repeat split; assumption.
  - intros msg s1 (E & Hn & -> & ->). cbv beta. left. repeat split; congruence.
Qed.

(** X12: the error handler serves the FIFO underrun first and the transfer
    error second, each only when it is both pending and enabled: the
    callback is called and the source's clear bit is or-ed into [ICR].  A
    source to be served whose callback is [NULL] halts the handler, the
    underrun before anything is done, the transfer error after the underrun
    has been served.  The handler never stores to the driver object.  (The
    callbacks are taken to leave the driver object and the global registers
    alone.) *)
Theorem error_handler_dispatch (w : ltdc_world) (cfg : LTDCConfig) :
  (forall g m, LTDCD1 (isr_body g m) = LTDCD1 m /\ LTDC (isr_body g m) = LTDC m) ->
  config (LTDCD1 (mach w)) = Some cfg ->
  let pu := pending_and_enabled LTDC_ISR_FUIF LTDC_IER_FUIE w in
  let pt := pending_and_enabled LTDC_ISR_TERRIF LTDC_IER_TERRIE w in
  match LTDC_ER_IRQHandler isr_body w with
  | (Done _, w') =>
      (pu = true -> fuerr_isr cfg <> None)
      /\ (pt = true -> terr_isr cfg <> None)
      /\ events w'
         = (events w ++ (if pu then callback_events (fuerr_isr cfg) else [])
                     ++ (if pt then callback_events (terr_isr cfg) else []))%list
      /\ ICR (LTDC (mach w'))
         = Z.lor (Z.lor (ICR (LTDC (mach w))) (if pu then LTDC_ICR_CFUIF else 0))
                 (if pt then LTDC_ICR_CTERRIF else 0)
      /\ LTDCD1 (mach w') = LTDCD1 (mach w)
  | (Halt msg, w') =>
      (pu = true /\ fuerr_isr cfg = None
       /\ msg = "LTDC_ER_IRQHandler(), #1" /\ w' = w)
      \/ (pt = true /\ terr_isr cfg = None
          /\ msg = "LTDC_ER_IRQHandler(), #2"
          /\ events w'
             = (events w ++ (if pu then callback_events (fuerr_isr cfg) else []))%list
          /\ ICR (LTDC (mach w'))
             = Z.lor (ICR (LTDC (mach w))) (if pu then LTDC_ICR_CFUIF else 0))
  end.
Proof.
  intros Hcb Hc. exact (LTDC_ER_IRQHandler_run w cfg Hcb Hc).
Qed.

End Handlers.

Section StartedHandlers.
Context {hw : ltdc_hw} {hwm : ltdc_hw_more}.
Variable isr_body : ltdcisr_t -> ltdc_machine -> ltdc_machine.

(** The interrupt sources [ltdcStart] enables hold the enable bit of a
    source only when its callback is not [NULL]. *)
Lemma assigned_interrupts_only (cfg : LTDCConfig) :
  interrupt_bits_distinct hw ->
  let flags := LTDC_IER_RRIE in
  let flags := match line_isr cfg with
               | Some _ => Z.lor flags LTDC_IER_LIE | None => flags end in
  let flags := match fuerr_isr cfg with
               | Some _ => Z.lor flags LTDC_IER_FUIE | None => flags end in
  let flags := match terr_isr cfg with
               | Some _ => Z.lor flags LTDC_IER_TERRIE | None => flags end in
  (line_isr cfg = None -> Z.land flags LTDC_IER_LIE = 0)
  /\ (fuerr_isr cfg = None -> Z.land flags LTDC_IER_FUIE = 0)
  /\ (terr_isr cfg = None -> Z.land flags LTDC_IER_TERRIE = 0).
Proof.
  intros (_ & _ & _ & _ & H1 & H2 & H3 & H4 & H5 & H6). cbv zeta.
  pose proof H1 as H1'. rewrite Z.land_comm in H1'.
  pose proof H2 as H2'. rewrite Z.land_comm in H2'.
  pose proof H3 as H3'. rewrite Z.land_comm in H3'.
  pose proof H4 as H4'. rewrite Z.land_comm in H4'.
  pose proof H5 as H5'. rewrite Z.land_comm in H5'.
  pose proof H6 as H6'. rewrite Z.land_comm in H6'.
  destruct (line_isr cfg), (fuerr_isr cfg), (terr_isr cfg);
    repeat split; intros E; try discriminate E;
    rewrite ?Z.land_lor_distr_l,
      ?H1, ?H2, ?H3, ?H4, ?H5, ?H6, ?H1', ?H2', ?H3', ?H4', ?H5', ?H6';
    reflexivity.
Qed.

(** X13: after a completed [ltdcStart], as long as the driver object and
    the interrupt enable register are as the start left them, whatever flags
    the controller raises, neither the line interrupt part of the event
    handler nor the error handler can halt on a missing callback: the
    sources the start enabled are those whose callbacks the configuration
    assigns.  (The four enable bits are distinct bits; the callbacks leave
    the driver object and the global registers alone.) *)
Theorem started_driver_finds_its_callbacks (cfg : LTDCConfig) (w w' w2 : ltdc_world) :
  interrupt_bits_distinct hw ->
  (forall g m, LTDCD1 (isr_body g m) = LTDCD1 m /\ LTDC (isr_body g m) = LTDC m) ->
  ltdcStart (Some cfg) w = (Done tt, w') ->
  LTDCD1 (mach w2) = LTDCD1 (mach w') ->
  IER (LTDC (mach w2)) = IER (LTDC (mach w')) ->
  (exists s, ev_line_interrupt isr_body w2 = (Done tt, s))
  /\ (exists s, LTDC_ER_IRQHandler isr_body w2 = (Done tt, s)).
Proof.
  intros Hbits Hcb H Hd Hi.
  destruct (runs_Done _ _ _ _ _ _ (ltdcStart_run cfg w) H) as (HL & _ & _ & HD).
  assert (Hc : config (LTDCD1 (mach w2)) = Some cfg) by (rewrite Hd, HD; reflexivity).
  rewrite HL in Hi. cbn [IER] in Hi.
  destruct (assigned_interrupts_only cfg Hbits) as (A1 & A2 & A3). cbv zeta in A1, A2, A3.
  split.
  - pose proof (callback_branch_run isr_body LTDC_ISR_LIF LTDC_IER_LIE line_isr
                  "LTDC_EV_IRQHandler(), #1" LTDC_ICR_CLIF w2 cfg Hc) as R.
    rewrite <- ev_line_interrupt_shape in R. unfold runs in R.
    destruct (ev_line_interrupt isr_body w2) as [[[] | msg] s]; [eexists; reflexivity|].
    exfalso. destruct R as (E & Hn & _).
    unfold pending_and_enabled in E. rewrite Hi, (A1 Hn) in E.
    rewrite Bool.andb_false_r in E. discriminate E.
  - pose proof (LTDC_ER_IRQHandler_run isr_body w2 cfg Hcb Hc) as R.
    cbv zeta in R. unfold runs in R.
    destruct (LTDC_ER_IRQHandler isr_body w2) as [[[] | msg] s]; [eexists; reflexivity|].
    exfalso. destruct R as [(E & Hn & _) | (E & Hn & _)];
      unfold pending_and_enabled in E; rewrite Hi in E.
    + rewrite (A2 Hn) in E. rewrite Bool.andb_false_r in E. discriminate E.
    + rewrite (A3 Hn) in E. rewrite Bool.andb_false_r in E. discriminate E.
Qed.

End StartedHandlers.

Lemma parked_thread_invariant_witness :
  waiter_only_when_active
    (LTDCD1 (mach (snd (ltdcReloadS (hw := stm32f4_hw) waiting_task false world_480x272))))
  /\ waiter_only_when_active
       (LTDCD1 (mach (snd (LTDC_EV_IRQHandler (hw := stm32f4_hw) idle_isr
                             world_reload_done)))).
Proof.
  destruct (parked_thread_invariant (hw := stm32f4_hw) (hwm := stm32f4_hw_more) idle_isr)
    as [_ H].
  - intros g m. reflexivity.
  - split.
    + assert (I : waiter_only_when_active (LTDCD1 (mach world_480x272))).
      { intros E. exfalso. apply E. vm_compute. reflexivity. }
      destruct (H world_480x272 I) as (_ & _ & _ & HR & _).
      exact (HR waiting_task false).
    + assert (I : waiter_only_when_active (LTDCD1 (mach world_reload_done))).
      { intros _. vm_compute. reflexivity. }
      destruct (H world_reload_done I) as (_ & _ & _ & _ & HE & _).
      exact HE.
Defined.

Lemma deferred_reload_wakes_the_caller_witness :
  exists w1 w3,
    ltdcReloadS (hw := stm32f4_hw) waiting_task false world_started_rr = (Done tt, w1)
    /\ LTDC_EV_IRQHandler (hw := stm32f4_hw) idle_isr
         (upd_LTDC (set_ISR (@LTDC_ISR_RRIF stm32f4_hw)) w1) = (Done tt, w3)
    /\ LTDCD1 (mach w3)
       = mk_driver LTDC_READY (Some scenario_config_rr)
                   (active_window (LTDCD1 (mach world_started_rr))) None
    /\ events w3
       = (events world_started_rr ++ [EvState LTDC_ACTIVE; EvSchGoSleepS waiting_task]
            ++ callback_events (rr_isr scenario_config_rr)
            ++ [EvSysLockFromIsr; EvSchReadyI waiting_task RDY_OK;
                EvState LTDC_READY; EvSysUnlockFromIsr])%list
    /\ forall immediately,
         exists w4, ltdcStartReloadI (hw := stm32f4_hw) immediately w3 = (Done tt, w4).
Proof.
  apply (deferred_reload_wakes_the_caller (hw := stm32f4_hw) idle_isr
           waiting_task world_started_rr scenario_config_rr
           (@LTDC_ISR_RRIF stm32f4_hw)).
  - intros g m. reflexivity.
  - vm_compute. reflexivity.
  - vm_compute. reflexivity.
  - vm_compute. reflexivity.
  - vm_compute. reflexivity.
  - vm_compute. reflexivity.
Defined.

Lemma reload_interrupt_outside_active_halts_witness :
  LTDC_EV_IRQHandler (hw := stm32f4_hw) idle_isr
    (upd_LTDC (set_ISR (@LTDC_ISR_RRIF stm32f4_hw)) world_started_rr)
  = (Halt "LTDC_EV_IRQHandler(), #2",
     mk_world
       (match rr_isr scenario_config_rr with
        | Some f =>
            idle_isr f (mach (upd_LTDC (set_ISR (@LTDC_ISR_RRIF stm32f4_hw))
                                world_started_rr))
        | None => mach (upd_LTDC (set_ISR (@LTDC_ISR_RRIF stm32f4_hw)) world_started_rr)
        end)
       (events (upd_LTDC (set_ISR (@LTDC_ISR_RRIF stm32f4_hw)) world_started_rr)
        ++ callback_events (rr_isr scenario_config_rr) ++ [EvSysLockFromIsr])).
Proof.
  apply (reload_interrupt_outside_active_halts (hw := stm32f4_hw) idle_isr
           (upd_LTDC (set_ISR (@LTDC_ISR_RRIF stm32f4_hw)) world_started_rr)
           scenario_config_rr).
  - intros g m. reflexivity.
  - vm_compute. reflexivity.
  - vm_compute. discriminate.
  - vm_compute. reflexivity.
  - vm_compute. reflexivity.
Defined.

Lemma error_handler_dispatch_witness :
  events (snd (LTDC_ER_IRQHandler (hw := stm32f4_hw) (hwm := stm32f4_hw_more) idle_isr
                 (upd_LTDC (set_ISR 0x06) world_started_callbacks)))
  = (events world_started_callbacks ++ [EvCallback transfer_error_callback])%list.
Proof.
  pose proof (error_handler_dispatch (hw := stm32f4_hw) (hwm := stm32f4_hw_more) idle_isr
                (upd_LTDC (set_ISR 0x06) world_started_callbacks)
                scenario_config_callbacks) as H.
  cbv zeta in H.
  assert (E : LTDC_ER_IRQHandler (hw := stm32f4_hw) (hwm := stm32f4_hw_more) idle_isr
                (upd_LTDC (set_ISR 0x06) world_started_callbacks)
              = (Done tt,
                 snd (LTDC_ER_IRQHandler (hw := stm32f4_hw) (hwm := stm32f4_hw_more)
                        idle_isr (upd_LTDC (set_ISR 0x06) world_started_callbacks))))
    by (vm_compute; reflexivity).
  rewrite E in H.
  destruct H as (_ & _ & Hev & _).
  - intros g m. split; reflexivity.
  - vm_compute. reflexivity.
  - rewrite Hev. vm_compute. reflexivity.
Defined.

Lemma started_driver_finds_its_callbacks_witness :
  (exists s, ev_line_interrupt (hw := stm32f4_hw) idle_isr
               (upd_LTDC (set_ISR 0x0F) world_started_callbacks) = (Done tt, s))
  /\ (exists s, LTDC_ER_IRQHandler (hw := stm32f4_hw) (hwm := stm32f4_hw_more) idle_isr
                  (upd_LTDC (set_ISR 0x0F) world_started_callbacks) = (Done tt, s)).
Proof.
  apply (started_driver_finds_its_callbacks (hw := stm32f4_hw) (hwm := stm32f4_hw_more)
           idle_isr scenario_config_callbacks world_after_init world_started_callbacks
           (upd_LTDC (set_ISR 0x0F) world_started_callbacks)).
  - unfold interrupt_bits_distinct. vm_compute.
    repeat (split; [first [discriminate | reflexivity]|]). reflexivity.
  - intros g m. split; reflexivity.
  - vm_compute. reflexivity.
  - vm_compute. reflexivity.
  - vm_compute. reflexivity.
Defined.

(** ** Layer registers *)



Section LayerProperties.
Context {hw : ltdc_hw} {hwm : ltdc_hw_more}.

(** X14: every setter of a layer, whether it completes or halts, stores to
    the registers of its own layer and to nothing else: the global
    registers, the registers of the other layer, the driver object and the
    record of kernel events are as before. *)
Theorem layer_setters_touch_one_layer (l : ltdc_layer) :
  (forall cfgp, touches_only_layer l (ltdcLxSetConfigI l cfgp))
  /\ (forall framep, touches_only_layer l (ltdcLxSetFrameI l framep))
  /\ (forall addr, touches_only_layer l (ltdcLxSetFrameAddressI l addr))
  /\ (forall pf, touches_only_layer l (ltdcLxSetPixelFormatI l pf))
  /\ (forall windowp, touches_only_layer l (ltdcLxSetWindowI l windowp))
  /\ touches_only_layer l (ltdcLxSetInvalidWindowI l)
  /\ (forall colors n, touches_only_layer l (ltdcLxSetPaletteI l colors n))
  /\ (forall slot c, touches_only_layer l (ltdcLxSetPaletteColorI l slot c))
  /\ (forall c, touches_only_layer l (ltdcLxSetKeyingColorI l c))
  /\ (forall a, touches_only_layer l (ltdcLxSetConstantAlphaI l a))
  /\ (forall c, touches_only_layer l (ltdcLxSetDefaultColorI l c))
  /\ (forall bf, touches_only_layer l (ltdcLxSetBlendingFactorsI l bf))
  /\ (forall f, touches_only_layer l (ltdcLxSetEnableFlagsI l f))
  /\ touches_only_layer l (ltdcLxEnableI l)
  /\ touches_only_layer l (ltdcLxDisableI l)
  /\ touches_only_layer l (ltdcLxEnablePaletteI l)
  /\ touches_only_layer l (ltdcLxDisablePaletteI l)
  /\ touches_only_layer l (ltdcLxEnableKeyingI l)
  /\ touches_only_layer l (ltdcLxDisableKeyingI l).
Proof.
  repeat match goal with |- _ /\ _ => split end; intros;
    first [ apply touches_ltdcLxSetConfigI
          | apply touches_ltdcLxSetFrameI
          | apply touches_ltdcLxSetWindowI
          | apply touches_ltdcLxSetPaletteI
          | unfold ltdcLxSetInvalidWindowI; apply touches_ltdcLxSetWindowI
          | unfold ltdcLxSetFrameAddressI, ltdcLxSetPixelFormatI, ltdcLxSetPaletteColorI,
              ltdcLxSetKeyingColorI, ltdcLxSetConstantAlphaI, ltdcLxSetDefaultColorI,
              ltdcLxSetBlendingFactorsI, ltdcLxSetEnableFlagsI,
              ltdcLxEnableI, ltdcLxDisableI, ltdcLxEnablePaletteI, ltdcLxDisablePaletteI,
              ltdcLxEnableKeyingI, ltdcLxDisableKeyingI, ltdcLxIsEnabledI, Lx_rd;
            touches_tac ].
Qed.



(** [(r | m) & ~m] is [r & ~m]. *)
Lemma lor_keeps_others (r m : Z) :
  is_u32 m -> Z.land (Z.lor r m) (not32 m) = Z.land r (not32 m).
Proof.
  intros Hm. apply Z.bits_inj'. intros i Hi.
  rewrite !Z.land_spec, Z.lor_spec.
  destruct (Z.ltb_spec i 32).
  - rewrite not32_testbit by lia.
    destruct (Z.testbit m i), (Z.testbit r i); reflexivity.
  - pose proof (not32_range m Hm) as Hn.
    rewrite (u32_testbit_high (not32 m) i Hn) by lia.
    rewrite !Bool.andb_false_r. reflexivity.
Qed.

Lemma or_sets_bits (r m : Z) : is_u32 m -> sets_bits m r (Z.lor r m).
Proof. intros Hm. split; [apply lor_land_self | apply lor_keeps_others; exact Hm]. Qed.

Lemma and_not_clears_bits (r m : Z) : is_u32 m -> clears_bits m r (Z.land r (not32 m)).
Proof.
  intros Hm. split; [apply land_not32_self; exact Hm|].
  rewrite <- Z.land_assoc, Z.land_diag. reflexivity.
Qed.

(** X16: what the getters of a layer return after its setters.  The colour
    key comes back cut to its low 24 bits, and the setter keeps the top byte
    of [CKCR]; the default colour comes back as a 32-bit word; the constant
    alpha comes back cut to the field [LTDC_LxCACR_CONSTA] and to 8 bits; the
    enable flags come back cut to [LTDC_LEF_MASK], and the setter keeps the
    bits of [CR] outside that mask; a pixel format within
    [LTDC_MIN_PIXFMT_ID .. LTDC_MAX_PIXFMT_ID] comes back cut to the field
    [LTDC_LxPFCR_PF], and one outside is refused with the machine
    untouched. *)
Theorem layer_attributes_read_back (l : ltdc_layer) (w : ltdc_world) :
  is_u32 LTDC_LxCACR_CONSTA -> is_u32 LTDC_LEF_MASK -> is_u32 LTDC_LxPFCR_PF ->
  (forall c, exists w1,
      ltdcLxSetKeyingColorI l c w = (Done tt, w1)
      /\ ltdcLxGetKeyingColorI l w1 = (Done (Z.land (u32 c) 0x00FFFFFF), w1)
      /\ Z.land (CKCR (layer_regs l (mach w1))) 0xFF000000
         = Z.land (CKCR (layer_regs l (mach w))) 0xFF000000)
  /\ (forall c, exists w1,
         ltdcLxSetDefaultColorI l c w = (Done tt, w1)
         /\ ltdcLxGetDefaultColorI l w1 = (Done (u32 c), w1))
  /\ (forall a, exists w1,
         ltdcLxSetConstantAlphaI l a w = (Done tt, w1)
         /\ ltdcLxGetConstantAlphaI l w1
            = (Done (u8 (Z.land (u32 a) LTDC_LxCACR_CONSTA)), w1))
  /\ (forall f, exists w1,
         ltdcLxSetEnableFlagsI l f w = (Done tt, w1)
         /\ ltdcLxGetEnableFlagsI l w1 = (Done (Z.land (u32 f) LTDC_LEF_MASK), w1)
         /\ Z.land (CR (layer_regs l (mach w1))) (not32 LTDC_LEF_MASK)
            = Z.land (CR (layer_regs l (mach w))) (not32 LTDC_LEF_MASK))
  /\ (forall pf,
         LTDC_MIN_PIXFMT_ID <= pf <= LTDC_MAX_PIXFMT_ID ->
         exists w1,
           ltdcLxSetPixelFormatI l pf w = (Done tt, w1)
           /\ ltdcLxGetPixelFormatI l w1 = (Done (Z.land (u32 pf) LTDC_LxPFCR_PF), w1))
  /\ (forall pf,
         pf < LTDC_MIN_PIXFMT_ID \/ LTDC_MAX_PIXFMT_ID < pf ->
         exists msg, ltdcLxSetPixelFormatI l pf w = (Halt msg, w)).
Proof.
  intros HA HF HP.
  assert (H24 : is_u32 0x00FFFFFF) by (unfold is_u32; lia).
  split; [| split; [| split; [| split; [| split]]]].
  - intros c. eexists. split; [reflexivity|].
    unfold ltdcLxGetKeyingColorI, bind, Lx_rd, gets, ret.
    rewrite layer_regs_upd_layer. unfold set_CKCR. cbn [CKCR].
    split.
    + rewrite field_write_read by exact H24. reflexivity.
    + change 0xFF000000 with (not32 0x00FFFFFF).
      apply field_write_keeps. exact H24.
  - intros c. eexists. split; [reflexivity|].
    unfold ltdcLxGetDefaultColorI, Lx_rd, gets.
    rewrite layer_regs_upd_layer. reflexivity.
  - intros a. eexists. split; [reflexivity|].
    unfold ltdcLxGetConstantAlphaI, bind, Lx_rd, gets, ret.
    rewrite layer_regs_upd_layer. unfold set_CACR. cbn [CACR].
    rewrite field_write_read by exact HA. reflexivity.
  - intros f. eexists. split; [reflexivity|].
    unfold ltdcLxGetEnableFlagsI, bind, Lx_rd, gets, ret.
    rewrite layer_regs_upd_layer. unfold set_CR. cbn [CR].
    split.
    + rewrite field_write_read by exact HF. reflexivity.
    + apply field_write_keeps. exact HF.
  - intros pf [Hlo Hhi]. unfold ltdcLxSetPixelFormatI, bind, chDbgAssert.
    replace (pf >=? LTDC_MIN_PIXFMT_ID) with true by (symmetry; apply Z.geb_le; lia).
    replace (pf <=? LTDC_MAX_PIXFMT_ID) with true by (symmetry; apply Z.leb_le; lia).
    eexists. split; [reflexivity|].
    unfold ltdcLxGetPixelFormatI, bind, Lx_rd, gets, ret.
    rewrite layer_regs_upd_layer. unfold set_PFCR. cbn [PFCR].
    rewrite field_write_read by exact HP. reflexivity.
  - intros pf Hout. unfold ltdcLxSetPixelFormatI, bind, chDbgAssert, ret, chDbgPanic.
    destruct (pf >=? LTDC_MIN_PIXFMT_ID) eqn:E1; [| eexists; reflexivity].
    destruct (pf <=? LTDC_MAX_PIXFMT_ID) eqn:E2; [| eexists; reflexivity].
    exfalso. apply Z.geb_le in E1. apply Z.leb_le in E2. lia.
Qed.

(** X17: the six functions that switch a layer, its palette or its colour
    keying on or off always complete; those that enable set the one control
    bit of [CR] and keep every other bit, those that disable clear it and
    keep every other bit. *)
Theorem layer_switches_change_one_bit (l : ltdc_layer) (w : ltdc_world) :
  is_u32 LTDC_LxCR_LEN -> is_u32 LTDC_LxCR_CLUTEN -> is_u32 LTDC_LxCR_COLKEN ->
  let cr := CR (layer_regs l (mach w)) in
  (exists w1, ltdcLxEnableI l w = (Done tt, w1)
              /\ sets_bits LTDC_LxCR_LEN cr (CR (layer_regs l (mach w1))))
  /\ (exists w1, ltdcLxDisableI l w = (Done tt, w1)
                 /\ clears_bits LTDC_LxCR_LEN cr (CR (layer_regs l (mach w1))))
  /\ (exists w1, ltdcLxEnablePaletteI l w = (Done tt, w1)
                 /\ sets_bits LTDC_LxCR_CLUTEN cr (CR (layer_regs l (mach w1))))
  /\ (exists w1, ltdcLxDisablePaletteI l w = (Done tt, w1)
                 /\ clears_bits LTDC_LxCR_CLUTEN cr (CR (layer_regs l (mach w1))))
  /\ (exists w1, ltdcLxEnableKeyingI l w = (Done tt, w1)
                 /\ sets_bits LTDC_LxCR_COLKEN cr (CR (layer_regs l (mach w1))))
  /\ (exists w1, ltdcLxDisableKeyingI l w = (Done tt, w1)
                 /\ clears_bits LTDC_LxCR_COLKEN cr (CR (layer_regs l (mach w1)))).
Proof.
  intros H1 H2 H3 cr. subst cr.
  repeat match goal with |- _ /\ _ => split end;
    (eexists; split; [reflexivity|]);
    rewrite layer_regs_upd_layer; unfold set_CR; cbn [CR];
    first [apply or_sets_bits; assumption | apply and_not_clears_bits; assumption].
Qed.

(** X18: changing the frame buffer address alone.  [ltdcLxSetFrameAddressI]
    always completes; the address getter then returns the address as a
    32-bit word, and the frame getter returns the frame it returned before
    with only the buffer address replaced (cut to the address field): pitch,
    width and height are as they were. *)
Theorem frame_address_setter_keeps_geometry
    (l : ltdc_layer) (addr : Z) (w w0 : ltdc_world) (fp g : ltdc_frame_t) :
  ltdcLxGetFrameI l (Some fp) w = (Done g, w0) ->
  exists w1,
    ltdcLxSetFrameAddressI l addr w = (Done tt, w1)
    /\ ltdcLxGetFrameAddressI l w1 = (Done (u32 addr), w1)
    /\ ltdcLxGetFrameI l (Some fp) w1
       = (Done (mk_frame (Z.land (u32 addr) LTDC_LxCFBAR_CFBADD)
                         (pitch g) (width g) (height g) (fmt g)), w1).
Proof.
  intros H. eexists. split; [reflexivity|]. split.
  - unfold ltdcLxGetFrameAddressI, Lx_rd, gets. rewrite layer_regs_upd_layer. reflexivity.
  - revert H.
    unfold ltdcLxGetFrameI, ltdcLxGetPixelFormatI, bind, Lx_rd, gets, ret, lift.
    rewrite !layer_regs_upd_layer. unfold set_CFBAR. cbn [CFBAR CFBLR PFCR CFBLNR].
    destruct (ltdcBytesPerPixel
                (Z.land (PFCR (layer_regs l (mach w))) LTDC_LxPFCR_PF)) as [bytes | msg];
      intros H; inversion H; subst. reflexivity.
Qed.

End LayerProperties.


Lemma layer_attributes_read_back_witness :
  exists w1,
    ltdcLxSetConstantAlphaI (hw := stm32f4_hw) Fg 0x80 world_480x272 = (Done tt, w1)
    /\ ltdcLxGetConstantAlphaI (hw := stm32f4_hw) Fg w1
       = (Done (u8 (Z.land (u32 0x80) (@LTDC_LxCACR_CONSTA stm32f4_hw))), w1).
Proof.
  destruct (layer_attributes_read_back (hw := stm32f4_hw) Fg world_480x272)
    as (_ & _ & H & _).
  - unfold is_u32. vm_compute. split; [discriminate | reflexivity].
  - unfold is_u32. vm_compute. split; [discriminate | reflexivity].
  - unfold is_u32. vm_compute. split; [discriminate | reflexivity].
  - exact (H 0x80).
Defined.

Lemma layer_switches_change_one_bit_witness :
  exists w1,
    ltdcLxEnableKeyingI (hw := stm32f4_hw) Bg world_480x272 = (Done tt, w1)
    /\ sets_bits (@LTDC_LxCR_COLKEN stm32f4_hw)
         (CR (layer_regs Bg (mach world_480x272))) (CR (layer_regs Bg (mach w1))).
Proof.
  destruct (layer_switches_change_one_bit (hw := stm32f4_hw) Bg world_480x272)
    as (_ & _ & _ & _ & H & _).
  - unfold is_u32. vm_compute. split; [discriminate | reflexivity].
  - unfold is_u32. vm_compute. split; [discriminate | reflexivity].
  - unfold is_u32. vm_compute. split; [discriminate | reflexivity].
  - exact H.
Defined.

Lemma frame_address_setter_keeps_geometry_witness :
  exists w1,
    ltdcLxSetFrameAddressI Bg 0x20010000 world_480x272 = (Done tt, w1)
    /\ ltdcLxGetFrameAddressI Bg w1 = (Done (u32 0x20010000), w1)
    /\ ltdcLxGetFrameI (hw := stm32f4_hw) Bg (Some ltdc_invalid_frame) w1
       = (Done (mk_frame (Z.land (u32 0x20010000) (@LTDC_LxCFBAR_CFBADD stm32f4_hw))
                         (pitch ltdc_invalid_frame) (width ltdc_invalid_frame)
                         (height ltdc_invalid_frame) (fmt ltdc_invalid_frame)), w1).
Proof.
  apply (frame_address_setter_keeps_geometry (hw := stm32f4_hw) Bg 0x20010000
           world_480x272 world_480x272 ltdc_invalid_frame ltdc_invalid_frame).
  vm_compute. reflexivity.
Defined.

(** ** Palette words and the layer configuration *)

Lemma palette_words_length (colors : list Z) :
  forall i, List.length (palette_words colors i) = List.length colors.
Proof.
  induction colors as [| c cs IH]; intros i; cbn [palette_words List.length].
  - reflexivity.
  - rewrite IH. reflexivity.
Qed.

Lemma palette_words_nth (colors : list Z) :
  forall (i : Z) (k : nat),
    0 <= i ->
    i + Z.of_nat (List.length colors) <= 2 ^ 16 ->
    (k < List.length colors)%nat ->
    nth k (palette_words colors i) 0
    = Z.lor (shl32 (u32 (i + Z.of_nat k)) 24) (Z.land (nth k colors 0) 0x00FFFFFF).
Proof.
  induction colors as [| c cs IH]; intros i k Hi Hlen Hk; cbn [List.length] in *.
  - lia.
  - cbn [palette_words]. destruct k as [| k].
    + cbn [nth]. rewrite Z.add_0_r. reflexivity.
    + cbn [nth].
      assert (E : u16 (i + 1) = i + 1) by (apply u16_small; lia).
      rewrite E. rewrite IH by lia.
      replace (i + 1 + Z.of_nat k) with (i + Z.of_nat (S k)) by lia. reflexivity.
Qed.

(** A palette word for a slot below 256: the slot is read back from the
    bits 31..24, the low 24 bits of the colour from the bits 23..0. *)
Lemma palette_word_fields (k c : Z) :
  0 <= k < 256 ->
  Z.shiftr (Z.lor (shl32 (u32 k) 24) (Z.land c 0x00FFFFFF)) 24 = k
  /\ Z.land (Z.lor (shl32 (u32 k) 24) (Z.land c 0x00FFFFFF)) 0x00FFFFFF
     = Z.land c 0x00FFFFFF.
Proof.
  intros Hk.
  assert (E : shl32 (u32 k) 24 = Z.shiftl k 24).
  { unfold shl32. rewrite (u32_small k) by (unfold is_u32; lia).
    apply u32_small. unfold is_u32. rewrite Z.shiftl_mul_pow2 by lia. lia. }
  rewrite E. change 0x00FFFFFF with (Z.ones 24). split.
  - apply Z.bits_inj'. intros i Hi.
    rewrite Z.shiftr_spec by lia. rewrite Z.lor_spec, Z.land_spec.
    rewrite Z.shiftl_spec by lia. replace (i + 24 - 24) with i by lia.
    rewrite (Z.testbit_ones_nonneg 24 (i + 24)) by lia.
    replace (i + 24 <? 24) with false by (symmetry; apply Z.ltb_ge; lia).
    rewrite Bool.andb_false_r, Bool.orb_false_r. reflexivity.
  - apply Z.bits_inj'. intros i Hi.
    rewrite !Z.land_spec, Z.lor_spec, Z.land_spec.
    rewrite (Z.testbit_ones_nonneg 24 i) by lia.
    destruct (Z.ltb_spec i 24).
    + rewrite Z.shiftl_spec_low by lia. rewrite !Bool.andb_true_r. reflexivity.
    + rewrite !Bool.andb_false_r. reflexivity.
Qed.

Section PaletteProperties.
Context {hw : ltdc_hw} {hwm : ltdc_hw_more}.

(** X19: loading a whole palette.  With a non-empty array of at most 256
    colours, on a layer whose control register passes the guard of the
    setter, [ltdcLxSetPaletteI] completes having stored one word per colour
    to [CLUTWR], in the order of the array, and nothing else: the word of
    the entry [k] carries [k] in its bits 31..24 and the low 24 bits of the
    colour below; whatever the top byte of a colour holds is dropped. *)
Theorem palette_setter_loads_slots (l : ltdc_layer) (colors : list Z) (w : ltdc_world) :
  colors <> [] ->
  Z.of_nat (List.length colors) <= LTDC_MAX_PALETTE_LENGTH ->
  nonzero (Z.land (CR (layer_regs l (mach w))) (not32 LTDC_LxCR_LEN)) = false ->
  exists ws,
    ltdcLxSetPaletteI l (Some colors) (Z.of_nat (List.length colors)) w
    = (Done tt, upd_layer l (stores_CLUTWR ws) w)
    /\ List.length ws = List.length colors
    /\ forall k, (k < List.length colors)%nat ->
         Z.shiftr (nth k ws 0) 24 = Z.of_nat k
         /\ Z.land (nth k ws 0) 0x00FFFFFF = Z.land (nth k colors 0) 0x00FFFFFF.
Proof.
  intros Hne Hlen Hg. exists (palette_words colors 0).
  rewrite (ltdcLxSetPaletteI_spec l colors w Hne Hlen), Hg.
  split; [reflexivity|]. split; [apply palette_words_length|].
  intros k Hk. unfold LTDC_MAX_PALETTE_LENGTH in Hlen.
  rewrite palette_words_nth by lia. rewrite Z.add_0_l.
  apply palette_word_fields. lia.
Qed.

(** X20: the argument checks of the palette setter.  A [NULL] array with a
    length other than 0, or an array with length 0, fails the check of the
    function; a length above [LTDC_MAX_PALETTE_LENGTH] fails its first
    assertion; in both cases nothing is stored.  A [NULL] array with length
    0 passes both, and when the guard on the control register passes as well
    the call completes with the machine untouched. *)
Theorem palette_setter_checks_arguments (l : ltdc_layer) (colors : option (list Z))
    (n : Z) (w : ltdc_world) :
  (Bool.eqb (match colors with None => true | Some _ => false end) (n =? 0) = false ->
   ltdcLxSetPaletteI l colors n w = (Halt (fn l "SetPaletteI"), w))
  /\ (Bool.eqb (match colors with None => true | Some _ => false end) (n =? 0) = true ->
      LTDC_MAX_PALETTE_LENGTH < n ->
      ltdcLxSetPaletteI l colors n w = (Halt (fn l "SetPaletteI(), #1"), w))
  /\ ltdcLxSetPaletteI l None 0 w
     = if nonzero (Z.land (CR (layer_regs l (mach w))) (not32 LTDC_LxCR_LEN))
       then (Halt (fn l "SetPaletteI(), #2"), w)
       else (Done tt, w).
Proof.
  split; [| split].
  - intros E. unfold ltdcLxSetPaletteI, bind, chDbgCheck. rewrite E. reflexivity.
  - intros E Hn. unfold ltdcLxSetPaletteI, bind, chDbgCheck, chDbgAssert. rewrite E.
    replace (n <=? LTDC_MAX_PALETTE_LENGTH) with false
      by (symmetry; apply Z.leb_gt; exact Hn).
    reflexivity.
  - unfold ltdcLxSetPaletteI, ltdcLxIsEnabledI, bind, chDbgCheck, chDbgAssert,
      Lx_rd, gets, ret, chDbgPanic.
    unfold LTDC_MAX_PALETTE_LENGTH.
    cbn [Z.eqb Bool.eqb Z.to_nat palette_loop Z.leb Z.compare].
    destruct (nonzero (Z.land (CR (layer_regs l (mach w))) (not32 LTDC_LxCR_LEN)));
      reflexivity.
Qed.

End PaletteProperties.

Lemma palette_setter_loads_slots_witness :
  exists ws,
    ltdcLxSetPaletteI (hw := stm32f4_hw) Fg (Some sixteen_colors)
      (Z.of_nat (List.length sixteen_colors)) world_480x272
    = (Done tt, upd_layer Fg (stores_CLUTWR ws) world_480x272)
    /\ List.length ws = List.length sixteen_colors
    /\ Z.shiftr (nth 9 ws 0) 24 = Z.of_nat 9
    /\ Z.land (nth 9 ws 0) 0x00FFFFFF = Z.land (nth 9 sixteen_colors 0) 0x00FFFFFF.
Proof.
  destruct (palette_setter_loads_slots (hw := stm32f4_hw) Fg sixteen_colors world_480x272)
    as (ws & H & Hl & Hk).
  - discriminate.
  - vm_compute. discriminate.
  - vm_compute. reflexivity.
  - exists ws. split; [exact H|]. split; [exact Hl|].
    apply (Hk 9%nat). vm_compute. repeat constructor.
Defined.

(** *** The layer configuration, statement by statement *)

Lemma runs_lift {S A : Type} (o : outcome A) (QD : A -> S -> Prop)
    (QH : string -> S -> Prop) (s : S) :
  (forall a, o = Done a -> QD a s) -> (forall msg, o = Halt msg -> QH msg s) ->
  runs (lift o) QD QH s.
Proof. intros HD HH. destruct o as [a | msg]; [apply HD | apply HH]; reflexivity. Qed.

(** Whether it completes or halts, the palette setter only adds words to the
    palette write port. *)
Lemma palette_loop_stores (l : ltdc_layer) (colors : list Z) (n : nat) :
  forall (i : Z) (s : ltdc_world),
    exists ws, snd (palette_loop l colors i n s) = upd_layer l (stores_CLUTWR ws) s.
Proof.
  induction n as [| n IH]; intros i s; cbn [palette_loop].
  - exists []. rewrite stores_CLUTWR_nil. reflexivity.
  - unfold bind at 1. unfold read_color.
    destruct (nth_error colors (Z.to_nat i)) as [c |].
    + unfold ret at 1. unfold bind, Lx_wr, modify.
      destruct (IH (u16 (i + 1))
                  (upd_layer l (store_CLUTWR
                                  (Z.lor (shl32 (u32 i) 24) (Z.land c 0x00FFFFFF))) s))
        as [ws E].
      destruct (palette_loop l colors (u16 (i + 1)) n _) as [[[] | msg] s1];
        cbn [snd] in *; rewrite E, stores_CLUTWR_cons; eexists; reflexivity.
    + exists []. rewrite stores_CLUTWR_nil. reflexivity.
Qed.

Section ConfigRun.
Context {hw : ltdc_hw} {hwm : ltdc_hw_more}.

Lemma ltdcLxSetPaletteI_stores (l : ltdc_layer) (colors : option (list Z)) (n : Z)
    (s : ltdc_world) :
  exists ws, snd (ltdcLxSetPaletteI l colors n s) = upd_layer l (stores_CLUTWR ws) s.
Proof.
  unfold ltdcLxSetPaletteI, ltdcLxIsEnabledI, bind, chDbgCheck, chDbgAssert, Lx_rd, gets,
    ret, chDbgPanic.
  destruct (Bool.eqb _ _);
    [| exists []; rewrite stores_CLUTWR_nil; reflexivity].
  destruct (n <=? LTDC_MAX_PALETTE_LENGTH);
    [| exists []; rewrite stores_CLUTWR_nil; reflexivity].
  destruct (negb _);
    [| exists []; rewrite stores_CLUTWR_nil; reflexivity].
  apply palette_loop_stores.
Qed.

Lemma runs_ltdcLxSetPaletteI (l : ltdc_layer) (colors : option (list Z)) (n : Z)
    (QD : unit -> ltdc_world -> Prop) (QH : string -> ltdc_world -> Prop)
    (s : ltdc_world) :
  (forall ws, QD tt (upd_layer l (stores_CLUTWR ws) s)) ->
  (forall msg ws, QH msg (upd_layer l (stores_CLUTWR ws) s)) ->
  runs (ltdcLxSetPaletteI l colors n) QD QH s.
Proof.
  intros HD HH. unfold runs.
  destruct (ltdcLxSetPaletteI_stores l colors n s) as [ws E].
  destruct (ltdcLxSetPaletteI l colors n s) as [[[] | msg] s1]; cbn [snd] in E;
    rewrite E; [apply HD | apply HH].
Qed.

End ConfigRun.

(** Projections of updated layer register blocks, reduced. *)
Ltac layer_simpl :=
  repeat progress
    (world_simpl;
     unfold set_CR, set_WHPCR, set_WVPCR, set_CKCR, set_PFCR, set_CACR, set_DCCR,
       set_BFCR, set_CFBAR, set_CFBLR, set_CFBLNR, store_CLUTWR, stores_CLUTWR;
     cbn [CR WHPCR WVPCR CKCR PFCR CACR DCCR BFCR CFBAR CFBLR CFBLNR CLUTWR]).

(** One statement of a layer call, on a layer that is known. *)
Ltac run_layer_step halted :=
  first
    [ run_step halted
    | lazymatch goal with
      | |- runs (lift _) _ _ _ =>
          apply runs_lift; [intros ? ? | intros ? ?; halted]
      | |- runs (ltdcLxSetFrameI _ _) _ _ _ => unfold ltdcLxSetFrameI
      | |- runs (ltdcLxSetPixelFormatI _ _) _ _ _ => unfold ltdcLxSetPixelFormatI
      | |- runs (ltdcLxSetWindowI _ _) _ _ _ => unfold ltdcLxSetWindowI
      | |- runs (ltdcLxSetDefaultColorI _ _) _ _ _ => unfold ltdcLxSetDefaultColorI
      | |- runs (ltdcLxSetKeyingColorI _ _) _ _ _ => unfold ltdcLxSetKeyingColorI
      | |- runs (ltdcLxSetConstantAlphaI _ _) _ _ _ => unfold ltdcLxSetConstantAlphaI
      | |- runs (ltdcLxSetBlendingFactorsI _ _) _ _ _ => unfold ltdcLxSetBlendingFactorsI
      | |- runs (ltdcLxSetEnableFlagsI _ _) _ _ _ => unfold ltdcLxSetEnableFlagsI
      | |- runs (ltdcLxSetPaletteI _ _ _) _ _ _ =>
          apply runs_ltdcLxSetPaletteI; [intros ? | intros ? ?; halted]
      end; cbv beta iota zeta ];
  layer_simpl.

Section ConfigProperties.
Context {hw : ltdc_hw} {hwm : ltdc_hw_more}.

(** The registers a completed layer configuration leaves. *)
Lemma ltdcLxSetConfigI_run (l : ltdc_layer) (c : ltdc_laycfg_t) (w : ltdc_world) :
  runs (ltdcLxSetConfigI l (Some c))
    (fun _ w' =>
       exists f win,
         frame c = Some f /\ window c = Some win
         /\ DCCR (layer_regs l (mach w')) = u32 (def_color c)
         /\ CKCR (layer_regs l (mach w'))
            = Z.lor (Z.land (CKCR (layer_regs l (mach w))) (not32 0x00FFFFFF))
                    (Z.land (u32 (key_color c)) 0x00FFFFFF)
         /\ CACR (layer_regs l (mach w'))
            = Z.lor (Z.land (CACR (layer_regs l (mach w))) (not32 LTDC_LxCACR_CONSTA))
                    (Z.land (u32 (const_alpha c)) LTDC_LxCACR_CONSTA)
         /\ BFCR (layer_regs l (mach w'))
            = Z.lor (Z.land (BFCR (layer_regs l (mach w))) (not32 LTDC_LxBFCR_BF))
                    (Z.land (u32 (blending c)) LTDC_LxBFCR_BF)
         /\ CR (layer_regs l (mach w'))
            = Z.lor (Z.land (CR (layer_regs l (mach w))) (not32 LTDC_LEF_MASK))
                    (Z.land (u32 (flags c)) LTDC_LEF_MASK)
         /\ PFCR (layer_regs l (mach w'))
            = Z.lor (Z.land (PFCR (layer_regs l (mach w))) (not32 LTDC_LxPFCR_PF))
                    (Z.land (u32 (fmt f)) LTDC_LxPFCR_PF)
         /\ CFBAR (layer_regs l (mach w'))
            = Z.land (u32 (bufferp f)) LTDC_LxCFBAR_CFBADD
         /\ CFBLNR (layer_regs l (mach w'))
            = Z.land (u32 (height f)) LTDC_LxCFBLNR_CFBLNBR)
    (fun _ _ => True)
    w.
Proof.
  unfold ltdcLxSetConfigI. cbv zeta.
  destruct l.
  - repeat run_layer_step ltac:(exact I);
      eexists; eexists; repeat split; reflexivity.
  - repeat run_layer_step ltac:(exact I);
      eexists; eexists; repeat split; reflexivity.
Qed.


(** X21: reading a layer back after configuring it.  When
    [ltdcLxSetConfigI] has completed, with [NULL] standing for the default
    configuration, the configuration had a frame and a window, and the
    getters answer from it: the default colour as a 32-bit word, the colour
    key cut to 24 bits, the constant alpha and the pixel format cut to their
    fields, the enable flags cut to [LTDC_LEF_MASK], the frame address cut
    to its field; the blending factors stand in their field of [BFCR]. *)
Theorem layer_configuration_reads_back
    (l : ltdc_layer) (cfgp : option ltdc_laycfg_t) (w w' : ltdc_world) :
  is_u32 LTDC_LxCACR_CONSTA -> is_u32 LTDC_LEF_MASK -> is_u32 LTDC_LxPFCR_PF ->
  is_u32 LTDC_LxBFCR_BF ->
  ltdcLxSetConfigI l cfgp w = (Done tt, w') ->
  let c := match cfgp with None => ltdc_default_laycfg | Some c => c end in
  exists f win,
    frame c = Some f /\ window c = Some win
    /\ ltdcLxGetDefaultColorI l w' = (Done (u32 (def_color c)), w')
    /\ ltdcLxGetKeyingColorI l w' = (Done (Z.land (u32 (key_color c)) 0x00FFFFFF), w')
    /\ ltdcLxGetConstantAlphaI l w'
       = (Done (u8 (Z.land (u32 (const_alpha c)) LTDC_LxCACR_CONSTA)), w')
    /\ ltdcLxGetEnableFlagsI l w' = (Done (Z.land (u32 (flags c)) LTDC_LEF_MASK), w')
    /\ ltdcLxGetPixelFormatI l w' = (Done (Z.land (u32 (fmt f)) LTDC_LxPFCR_PF), w')
    /\ ltdcLxGetFrameAddressI l w'
       = (Done (Z.land (u32 (bufferp f)) LTDC_LxCFBAR_CFBADD), w')
    /\ Z.land (BFCR (layer_regs l (mach w'))) LTDC_LxBFCR_BF
       = Z.land (u32 (blending c)) LTDC_LxBFCR_BF.
Proof.
  intros HA HF HP HB H c.
  assert (H' : ltdcLxSetConfigI l (Some c) w = (Done tt, w'))
    by (destruct cfgp; exact H).
  destruct (runs_Done _ _ _ _ _ _ (ltdcLxSetConfigI_run l c w) H')
    as (f & win & Ef & Ew & E1 & E2 & E3 & E4 & E5 & E6 & E7 & _).
  exists f, win. split; [exact Ef|]. split; [exact Ew|].
  assert (H24 : is_u32 0x00FFFFFF) by (unfold is_u32; lia).
  unfold ltdcLxGetDefaultColorI, ltdcLxGetKeyingColorI, ltdcLxGetConstantAlphaI,
    ltdcLxGetEnableFlagsI, ltdcLxGetPixelFormatI, ltdcLxGetFrameAddressI,
    bind, Lx_rd, gets, ret.
  rewrite E1, E2, E3, E4, E5, E6, E7.
  rewrite !field_write_read by assumption.
  repeat split.
Qed.

End ConfigProperties.

Lemma layer_configuration_reads_back_witness :
  exists f win,
    frame (@ltdc_default_laycfg stm32f4_hw) = Some f
    /\ window (@ltdc_default_laycfg stm32f4_hw) = Some win
    /\ ltdcLxGetDefaultColorI Bg world_reconfigured
       = (Done (u32 (def_color (@ltdc_default_laycfg stm32f4_hw))), world_reconfigured)
    /\ ltdcLxGetKeyingColorI Bg world_reconfigured
       = (Done (Z.land (u32 (key_color (@ltdc_default_laycfg stm32f4_hw))) 0x00FFFFFF),
          world_reconfigured).
Proof.
  destruct (layer_configuration_reads_back (hw := stm32f4_hw) Bg None
              world_480x272 world_reconfigured)
    as (f & win & Ef & Ew & E1 & E2 & _).
  - unfold is_u32. vm_compute. split; [discriminate | reflexivity].
  - unfold is_u32. vm_compute. split; [discriminate | reflexivity].
  - unfold is_u32. vm_compute. split; [discriminate | reflexivity].
  - unfold is_u32. vm_compute. split; [discriminate | reflexivity].
  - vm_compute. reflexivity.
  - exists f, win. split; [exact Ef|]. split; [exact Ew|]. split; [exact E1 | exact E2].
Defined.

(** ** The global attributes *)

Section GlobalProperties.
Context {hw : ltdc_hw} {hwm : ltdc_hw_more}.

(** X22: dithering and the line interrupt are switched by one bit each.
    The four functions always complete and store to one global register,
    [GCR] for dithering and [IER] for the line interrupt: the enabling ones
    set the bit and keep every other bit, the disabling ones clear it and
    keep every other bit; the rest of the machine is as before.  After a
    disable the predicate answers false; after an enable it answers true as
    soon as the mask is not 0. *)
Theorem global_switches_change_one_bit (w : ltdc_world) :
  is_u32 LTDC_GCR_DTEN -> is_u32 LTDC_IER_LIE ->
  let gcr := GCR (LTDC (mach w)) in
  let ier := IER (LTDC (mach w)) in
  (exists v, ltdcEnableDitheringI w = (Done tt, upd_LTDC (set_GCR v) w)
             /\ sets_bits LTDC_GCR_DTEN gcr v
             /\ ltdcIsDitheringEnabledI (upd_LTDC (set_GCR v) w)
                = (Done (nonzero LTDC_GCR_DTEN), upd_LTDC (set_GCR v) w))
  /\ (exists v, ltdcDisableDitheringI w = (Done tt, upd_LTDC (set_GCR v) w)
                /\ clears_bits LTDC_GCR_DTEN gcr v
                /\ ltdcIsDitheringEnabledI (upd_LTDC (set_GCR v) w)
                   = (Done false, upd_LTDC (set_GCR v) w))
  /\ (exists v, ltdcEnableLineInterruptI w = (Done tt, upd_LTDC (set_IER v) w)
                /\ sets_bits LTDC_IER_LIE ier v
                /\ ltdcIsLineInterruptEnabledI (upd_LTDC (set_IER v) w)
                   = (Done (nonzero LTDC_IER_LIE), upd_LTDC (set_IER v) w))
  /\ (exists v, ltdcDisableLineInterruptI w = (Done tt, upd_LTDC (set_IER v) w)
                /\ clears_bits LTDC_IER_LIE ier v
                /\ ltdcIsLineInterruptEnabledI (upd_LTDC (set_IER v) w)
                   = (Done false, upd_LTDC (set_IER v) w)).
Proof.
  intros HD HL gcr ier. subst gcr ier.
  split; [| split; [| split]].
  - eexists. split; [reflexivity|]. split; [apply or_sets_bits; exact HD|].
    unfold ltdcIsDitheringEnabledI, bind, LTDC_rd, gets, ret.
    world_simpl. rewrite lor_land_self. reflexivity.
  - eexists. split; [reflexivity|]. split; [apply and_not_clears_bits; exact HD|].
    unfold ltdcIsDitheringEnabledI, bind, LTDC_rd, gets, ret.
    world_simpl. rewrite land_not32_self by exact HD. reflexivity.
  - eexists. split; [reflexivity|]. split; [apply or_sets_bits; exact HL|].
    unfold ltdcIsLineInterruptEnabledI, bind, LTDC_rd, gets, ret.
    world_simpl. rewrite lor_land_self. reflexivity.
  - eexists. split; [reflexivity|]. split; [apply and_not_clears_bits; exact HL|].
    unfold ltdcIsLineInterruptEnabledI, bind, LTDC_rd, gets, ret.
    world_simpl. rewrite land_not32_self by exact HL. reflexivity.
Qed.

(** X23: the global enable flags and the clear colour.
    [ltdcSetEnableFlagsI] overwrites [GCR] with the flags cut to
    [LTDC_EF_MASK]: every bit of [GCR] outside the mask is cleared, whatever
    it held, and [ltdcGetEnableFlagsI] then returns the flags cut to the
    mask.  [ltdcSetClearColorI] replaces the low 24 bits of [BCCR] and keeps
    its top byte, and [ltdcGetClearColorI] then returns the colour cut to 24
    bits: the alpha of the colour given is dropped.  All four complete, and
    the setters store to their one register only. *)
Theorem global_flags_and_clear_color (w : ltdc_world) :
  is_u32 LTDC_EF_MASK ->
  (forall f,
      ltdcSetEnableFlagsI f w = (Done tt, upd_LTDC (set_GCR (Z.land f LTDC_EF_MASK)) w)
      /\ Z.land (Z.land f LTDC_EF_MASK) (not32 LTDC_EF_MASK) = 0
      /\ ltdcGetEnableFlagsI (upd_LTDC (set_GCR (Z.land f LTDC_EF_MASK)) w)
         = (Done (Z.land f LTDC_EF_MASK), upd_LTDC (set_GCR (Z.land f LTDC_EF_MASK)) w))
  /\ (forall c, exists v,
         ltdcSetClearColorI c w = (Done tt, upd_LTDC (set_BCCR v) w)
         /\ Z.land v 0x00FFFFFF = Z.land c 0x00FFFFFF
         /\ Z.land v (not32 0x00FFFFFF)
            = Z.land (BCCR (LTDC (mach w))) (not32 0x00FFFFFF)
         /\ ltdcGetClearColorI (upd_LTDC (set_BCCR v) w)
            = (Done (Z.land c 0x00FFFFFF), upd_LTDC (set_BCCR v) w)).
Proof.
  intros HM. split.
  - intros f. split; [reflexivity|]. split.
    + apply Z.bits_inj'. intros i Hi.
      rewrite !Z.land_spec, Z.bits_0.
      destruct (Z.ltb_spec i 32).
      * rewrite not32_testbit by lia.
        destruct (Z.testbit LTDC_EF_MASK i), (Z.testbit f i); reflexivity.
      * rewrite (u32_testbit_high (not32 LTDC_EF_MASK) i (not32_range _ HM)) by lia.
        rewrite !Bool.andb_false_r. reflexivity.
    + unfold ltdcGetEnableFlagsI, bind, LTDC_rd, gets, ret. world_simpl.
      rewrite <- Z.land_assoc, Z.land_diag. reflexivity.
  - intros c.
    assert (H24 : is_u32 0x00FFFFFF) by (unfold is_u32; lia).
    eexists. split; [reflexivity|].
    assert (E : Z.land (Z.lor (Z.land (BCCR (LTDC (mach w))) (not32 0x00FFFFFF))
                              (Z.land c 0x00FFFFFF)) 0x00FFFFFF
                = Z.land c 0x00FFFFFF).
    { rewrite Z.land_lor_distr_l.
      rewrite <- !Z.land_assoc, Z.land_diag.
      replace (Z.land (not32 0x00FFFFFF) 0x00FFFFFF) with 0 by reflexivity.
      rewrite Z.land_0_r. reflexivity. }
    split; [exact E|]. split.
    + rewrite Z.land_lor_distr_l.
      rewrite <- !Z.land_assoc, Z.land_diag.
      replace (Z.land 0x00FFFFFF (not32 0x00FFFFFF)) with 0 by reflexivity.
      rewrite Z.land_0_r, Z.lor_0_r. reflexivity.
    + unfold ltdcGetClearColorI, bind, LTDC_rd, gets, ret. world_simpl.
      rewrite E. reflexivity.
Qed.

End GlobalProperties.

Lemma global_switches_change_one_bit_witness :
  exists v,
    ltdcEnableDitheringI (hwm := stm32f4_hw_more) world_480x272
    = (Done tt, upd_LTDC (set_GCR v) world_480x272)
    /\ sets_bits (@LTDC_GCR_DTEN stm32f4_hw_more) (GCR (LTDC (mach world_480x272))) v
    /\ ltdcIsDitheringEnabledI (hwm := stm32f4_hw_more)
         (upd_LTDC (set_GCR v) world_480x272)
       = (Done (nonzero (@LTDC_GCR_DTEN stm32f4_hw_more)),
          upd_LTDC (set_GCR v) world_480x272).
Proof.
  destruct (global_switches_change_one_bit (hw := stm32f4_hw) (hwm := stm32f4_hw_more)
              world_480x272) as (H & _).
  - unfold is_u32. vm_compute. split; [discriminate | reflexivity].
  - unfold is_u32. vm_compute. split; [discriminate | reflexivity].
  - exact H.
Defined.

Lemma global_flags_and_clear_color_witness :
  exists v,
    ltdcSetClearColorI 0xFF123456 world_480x272
    = (Done tt, upd_LTDC (set_BCCR v) world_480x272)
    /\ Z.land v 0x00FFFFFF = Z.land 0xFF123456 0x00FFFFFF
    /\ Z.land v (not32 0x00FFFFFF)
       = Z.land (BCCR (LTDC (mach world_480x272))) (not32 0x00FFFFFF)
    /\ ltdcGetClearColorI (upd_LTDC (set_BCCR v) world_480x272)
       = (Done (Z.land 0xFF123456 0x00FFFFFF), upd_LTDC (set_BCCR v) world_480x272).
Proof.
  destruct (global_flags_and_clear_color (hw := stm32f4_hw) world_480x272) as (_ & H).
  - unfold is_u32. vm_compute. split; [discriminate | reflexivity].
  - exact (H 0xFF123456).
Defined.

(** ** The colour conversions over all formats *)

Lemma format_cases (fmt : Z) :
  LTDC_MIN_PIXFMT_ID <= fmt <= LTDC_MAX_PIXFMT_ID ->
  fmt = 0 \/ fmt = 1 \/ fmt = 2 \/ fmt = 3 \/ fmt = 4 \/ fmt = 5 \/ fmt = 6 \/ fmt = 7.
Proof. unfold LTDC_MIN_PIXFMT_ID, LTDC_MAX_PIXFMT_ID. lia. Qed.

Lemma unknown_format_halts (c fmt : Z) :
  fmt < LTDC_MIN_PIXFMT_ID \/ LTDC_MAX_PIXFMT_ID < fmt ->
  ltdcFromARGB8888 c fmt = Halt "invalid format"
  /\ ltdcToARGB8888 c fmt = Halt "(), #1".
Proof.
  unfold LTDC_MIN_PIXFMT_ID, LTDC_MAX_PIXFMT_ID. intros H.
  destruct fmt as [| p | p]; [lia | | split; reflexivity].
  destruct p as [[[q | q |] | [q | q |] |] | [[q | q |] | [q | q |] |] |];
    first [lia | split; reflexivity].
Qed.

(** The raw colours of 16 bits, in the four formats of that size they have
    (RGB-565, ARGB-1555, ARGB-4444, AL-88). *)
Lemma round_trips_below_65536 :
  all_from (Z.to_nat 65536) 0
    (fun c => color_round_trips LTDC_FMT_RGB565 c
              && color_round_trips LTDC_FMT_ARGB1555 c
              && color_round_trips LTDC_FMT_ARGB4444 c
              && color_round_trips LTDC_FMT_AL88 c) = true.
Proof. vm_compute. reflexivity. Qed.

(** The raw colours of 8 bits, in the two formats of that size (L-8, AL-44). *)
Lemma round_trips_below_256 :
  all_from (Z.to_nat 256) 0
    (fun c => color_round_trips LTDC_FMT_L8 c
              && color_round_trips LTDC_FMT_AL44 c) = true.
Proof. vm_compute. reflexivity. Qed.

Lemma round_trips_rgb888 (c : Z) :
  0 <= c < 2 ^ 24 -> color_round_trips LTDC_FMT_RGB888 c = true.
Proof.
  intros Hc. unfold color_round_trips, LTDC_FMT_RGB888.
  cbn [ltdcToARGB8888 ltdcFromARGB8888].
  apply Z.eqb_eq.
  rewrite Z.land_lor_distr_l, <- Z.land_assoc.
  change (Z.land 0x00FFFFFF 0x00FFFFFF) with 0x00FFFFFF.
  change (Z.land 0xFF000000 0x00FFFFFF) with 0.
  rewrite Z.lor_0_r.
  change 0x00FFFFFF with (Z.ones 24). rewrite Z.land_ones by lia.
  apply Z.mod_small. exact Hc.
Qed.

Lemma color_round_trips_spec (fmt c : Z) :
  color_round_trips fmt c = true ->
  exists x, ltdcToARGB8888 c fmt = Done x /\ ltdcFromARGB8888 x fmt = Done c.
Proof.
  unfold color_round_trips.
  destruct (ltdcToARGB8888 c fmt) as [x | msg]; [| discriminate].
  destruct (ltdcFromARGB8888 x fmt) as [y | msg] eqn:E; [| discriminate].
  intros H. apply Z.eqb_eq in H. subst y. exists x. split; [reflexivity | exact E].
Qed.

(** X24: a raw colour survives the way to ARGB-8888 and back.  In each of
    the eight pixel formats, a raw colour that fits the bits of the format
    (the entry of the table [ltdc_bpp]: 32, 24, 16, 16, 16, 8, 8, 16) is
    converted by [ltdcToARGB8888] and the result is converted back by
    [ltdcFromARGB8888] to the same raw colour; both calls complete. *)
Theorem color_conversions_round_trip (fmt c : Z) :
  LTDC_MIN_PIXFMT_ID <= fmt <= LTDC_MAX_PIXFMT_ID ->
  0 <= c < 2 ^ nth (Z.to_nat fmt) ltdc_bpp 0 ->
  exists x, ltdcToARGB8888 c fmt = Done x /\ ltdcFromARGB8888 x fmt = Done c.
Proof.
  intros Hf Hc. apply color_round_trips_spec.
  pose proof (all_from_spec _ _ 0 round_trips_below_65536 c) as H16.
  pose proof (all_from_spec _ _ 0 round_trips_below_256 c) as H8.
  destruct (format_cases fmt Hf) as [E | [E | [E | [E | [E | [E | [E | E]]]]]]];
    subst fmt; simpl (nth _ _ _) in Hc.
  - unfold color_round_trips. cbn [ltdcToARGB8888 ltdcFromARGB8888]. apply Z.eqb_refl.
  - apply round_trips_rgb888. exact Hc.
  - assert (H : 0 <= c < 0 + Z.of_nat (Z.to_nat 65536)) by lia.
    apply H16 in H. repeat (apply Bool.andb_true_iff in H; destruct H as [H ?]).
    assumption.
  - assert (H : 0 <= c < 0 + Z.of_nat (Z.to_nat 65536)) by lia.
    apply H16 in H. repeat (apply Bool.andb_true_iff in H; destruct H as [H ?]).
    assumption.
  - assert (H : 0 <= c < 0 + Z.of_nat (Z.to_nat 65536)) by lia.
    apply H16 in H. repeat (apply Bool.andb_true_iff in H; destruct H as [H ?]).
    assumption.
  - assert (H : 0 <= c < 0 + Z.of_nat (Z.to_nat 256)) by lia.
    apply H8 in H. repeat (apply Bool.andb_true_iff in H; destruct H as [H ?]).
    assumption.
  - assert (H : 0 <= c < 0 + Z.of_nat (Z.to_nat 256)) by lia.
    apply H8 in H. repeat (apply Bool.andb_true_iff in H; destruct H as [H ?]).
    assumption.
  - assert (H : 0 <= c < 0 + Z.of_nat (Z.to_nat 65536)) by lia.
    apply H16 in H. repeat (apply Bool.andb_true_iff in H; destruct H as [H ?]).
    assumption.
Qed.

(** X25: which formats the conversions accept, and what they do to alpha.
    Both conversions complete exactly on the format ids 0..7, AL-88
    included (that [ltdcBitsPerPixel] refuses); on any other id
    [ltdcFromARGB8888] halts with "invalid format" and [ltdcToARGB8888] on
    its assertion.  ARGB-8888 is passed through unchanged in both
    directions.  The formats with no alpha are expanded to an opaque colour:
    RGB-888 and L-8 come out with alpha [0xFF], and reduced with the alpha
    dropped.  The reduction loses the low bits of a channel:
    [0xFF010203] in RGB-565 is [0], which expands to [0xFF000000]. *)
Theorem color_conversions_accept_eight_formats :
  (forall c fmt,
      ((exists x, ltdcFromARGB8888 c fmt = Done x)
       <-> LTDC_MIN_PIXFMT_ID <= fmt <= LTDC_MAX_PIXFMT_ID)
      /\ ((exists x, ltdcToARGB8888 c fmt = Done x)
          <-> LTDC_MIN_PIXFMT_ID <= fmt <= LTDC_MAX_PIXFMT_ID))
  /\ (forall c fmt,
         fmt < LTDC_MIN_PIXFMT_ID \/ LTDC_MAX_PIXFMT_ID < fmt ->
         ltdcFromARGB8888 c fmt = Halt "invalid format"
         /\ ltdcToARGB8888 c fmt = Halt "(), #1")
  /\ (forall c, ltdcFromARGB8888 c LTDC_FMT_ARGB8888 = Done c
                /\ ltdcToARGB8888 c LTDC_FMT_ARGB8888 = Done c)
  /\ (forall c, exists x y,
         ltdcToARGB8888 c LTDC_FMT_RGB888 = Done x
         /\ Z.land x 0xFF000000 = 0xFF000000
         /\ ltdcToARGB8888 c LTDC_FMT_L8 = Done y
         /\ Z.land y 0xFF000000 = 0xFF000000)
  /\ (forall c, exists x y,
         ltdcFromARGB8888 c LTDC_FMT_RGB888 = Done x
         /\ Z.land x 0xFF000000 = 0
         /\ ltdcFromARGB8888 c LTDC_FMT_L8 = Done y
         /\ Z.land y 0xFFFFFF00 = 0)
  /\ ltdcFromARGB8888 0xFF010203 LTDC_FMT_RGB565 = Done 0
  /\ ltdcToARGB8888 0 LTDC_FMT_RGB565 = Done 0xFF000000
  /\ ltdcBitsPerPixel LTDC_FMT_AL88 = Halt "ltdcBitsPerPixel(), #1".
Proof.
  split; [| split; [exact unknown_format_halts |]].
  - intros c fmt.
    assert (D : LTDC_MIN_PIXFMT_ID <= fmt <= LTDC_MAX_PIXFMT_ID
                \/ (fmt < LTDC_MIN_PIXFMT_ID \/ LTDC_MAX_PIXFMT_ID < fmt)) by lia.
    destruct D as [Hin | Hout].
    + destruct (format_cases fmt Hin) as [E | [E | [E | [E | [E | [E | [E | E]]]]]]];
        subst fmt; split; split; intros _; try exact Hin; eexists; reflexivity.
    + destruct (unknown_format_halts c fmt Hout) as [E1 E2]. rewrite E1, E2.
      split; split; intros H; try lia; destruct H as [x H]; discriminate H.
  - split; [intros c; split; reflexivity |].
    split.
    { intros c. eexists. eexists.
      split; [reflexivity|]. split; [apply lor_land_self|].
      split; [reflexivity | apply lor_land_self]. }
    split.
    { intros c. eexists. eexists.
      split; [reflexivity|]. split.
      - rewrite <- Z.land_assoc. change (Z.land 0x00FFFFFF 0xFF000000) with 0.
        apply Z.land_0_r.
      - split; [reflexivity|].
        rewrite <- Z.land_assoc. change (Z.land 0x000000FF 0xFFFFFF00) with 0.
        apply Z.land_0_r. }
    repeat split.
Qed.

Lemma color_conversions_round_trip_witness :
  exists x, ltdcToARGB8888 0x8421 LTDC_FMT_ARGB1555 = Done x
            /\ ltdcFromARGB8888 x LTDC_FMT_ARGB1555 = Done 0x8421.
Proof.
  apply (color_conversions_round_trip LTDC_FMT_ARGB1555 0x8421).
  - vm_compute. split; discriminate.
  - vm_compute. split; [discriminate | reflexivity].
Defined.

(** ** The life cycle of the panel driver *)

(** Unfolds the statements of a call of the panel driver. *)
Ltac ili_run :=
  repeat progress
  (unfold panel_session, ili9341ObjectInit, ili9341Start, ili9341Stop,
    ili9341Select, ili9341SelectI, ili9341Unselect, ili9341UnselectI,
    ili9341WriteCommand, ili9341WriteByte, ili9341ReadByte,
    ili9341WriteChunk, ili9341ReadChunk, spiSend, ili_deref_config,
    ili_set_state, ili_set_config, ili_set_value, ili_emit, ili_rd,
    bind, ret, gets, modify, chDbgAssert, chDbgCheck, chDbgPanic;
  cbn [driver bus miso rx_count ili_state ili_config value spi dcx_port dcx_pad
       ili9341state_eqb fst snd List.length Z.of_nat Z.leb Z.compare Pos.compare
       Pos.compare_cont Pos.of_succ_nat firstn Z.to_nat Pos.to_nat Pos.iter_op
       Nat.add]).

(** X26: starting and stopping the panel driver.  [ili9341ObjectInit]
    leaves the object stopped with no configuration, whatever it held.
    [ili9341Start] with a configuration whose SPI endpoint is not [NULL], on
    a stopped driver, completes: inside one critical section the endpoint is
    selected and unselected once, the configuration is stored and the driver
    made READY.  With a [NULL] configuration, a [NULL] endpoint or a driver
    that is not stopped it halts inside the critical section, with the
    driver object as before and nothing done to the endpoint.
    [ili9341Stop] on a READY driver makes it stopped and keeps its
    configuration; on any other state it halts, on an assertion that names
    [ili9341Start], with the driver object as before. *)
Theorem ili9341_start_and_stop (w : ili_world) :
  ili9341ObjectInit w
  = (Done tt, mk_iliworld (mk_ilidriver ILI9341_STOP None (value (driver w)))
                          (bus w) (miso w) (rx_count w))
  /\ (forall cfg s,
         spi cfg = Some s -> ili_state (driver w) = ILI9341_STOP ->
         ili9341Start (Some cfg) w
         = (Done tt,
            mk_iliworld (mk_ilidriver ILI9341_READY (Some cfg) (value (driver w)))
                        (bus w ++ [IliSysLock; SpiSelectI (Some s);
                                   SpiUnselectI (Some s); IliSysUnlock])
                        (miso w) (rx_count w)))
  /\ ili9341Start None w
     = (Halt "ili9341Start",
        mk_iliworld (driver w) (bus w ++ [IliSysLock]) (miso w) (rx_count w))
  /\ (forall cfg,
         spi cfg = None ->
         ili9341Start (Some cfg) w
         = (Halt "ili9341Start",
            mk_iliworld (driver w) (bus w ++ [IliSysLock]) (miso w) (rx_count w)))
  /\ (forall cfg s,
         spi cfg = Some s -> ili_state (driver w) <> ILI9341_STOP ->
         ili9341Start (Some cfg) w
         = (Halt "ili9341Start(), #1",
            mk_iliworld (driver w) (bus w ++ [IliSysLock]) (miso w) (rx_count w)))
  /\ (ili_state (driver w) = ILI9341_READY ->
      ili9341Stop w
      = (Done tt,
         mk_iliworld (mk_ilidriver ILI9341_STOP (ili_config (driver w))
                                   (value (driver w)))
                     (bus w ++ [IliSysLock; IliSysUnlock]) (miso w) (rx_count w)))
  /\ (ili_state (driver w) <> ILI9341_READY ->
      ili9341Stop w
      = (Halt "ili9341Start(), #1",
         mk_iliworld (driver w) (bus w ++ [IliSysLock]) (miso w) (rx_count w))).
Proof.
  destruct w as [[st c v] b m k]. cbn [driver bus miso rx_count ili_state ili_config value].
  split; [reflexivity|].
  split.
  { intros cfg s Hs Hst. subst st. ili_run. rewrite Hs. ili_run.
    repeat rewrite <- app_assoc. reflexivity. }
  split; [reflexivity|].
  split.
  { intros cfg Hs. ili_run. rewrite Hs. reflexivity. }
  split.
  { intros cfg s Hs Hst. ili_run. rewrite Hs. ili_run.
    destruct st; try reflexivity. contradiction. }
  split.
  { intros Hst. subst st. ili_run. repeat rewrite <- app_assoc. reflexivity. }
  intros Hst. ili_run. destruct st; try reflexivity. contradiction.
Qed.

(** X27: selecting and unselecting the panel.  With a configuration in
    place, [ili9341Select] on a READY driver makes it ACTIVE and selects the
    SPI endpoint, and [ili9341Unselect] on an ACTIVE driver unselects the
    endpoint and makes the driver READY again, each inside its own critical
    section and with the rest of the driver object untouched.  A select on a
    driver that is not READY (one that is already selected, for one) and an
    unselect on a driver that is not ACTIVE halt on the assertion of the
    I-class function, with the driver object as before and the endpoint
    left alone. *)
Theorem ili9341_select_and_unselect (w : ili_world) (cfg : ILI9341Config) :
  ili_config (driver w) = Some cfg ->
  (ili_state (driver w) = ILI9341_READY ->
   ili9341Select w
   = (Done tt,
      mk_iliworld (mk_ilidriver ILI9341_ACTIVE (Some cfg) (value (driver w)))
                  (bus w ++ [IliSysLock; SpiSelectI (spi cfg); IliSysUnlock])
                  (miso w) (rx_count w)))
  /\ (ili_state (driver w) = ILI9341_ACTIVE ->
      ili9341Unselect w
      = (Done tt,
         mk_iliworld (mk_ilidriver ILI9341_READY (Some cfg) (value (driver w)))
                     (bus w ++ [IliSysLock; SpiUnselectI (spi cfg); IliSysUnlock])
                     (miso w) (rx_count w)))
  /\ (ili_state (driver w) <> ILI9341_READY ->
      ili9341Select w
      = (Halt "ili9341SelectI(), #1",
         mk_iliworld (driver w) (bus w ++ [IliSysLock]) (miso w) (rx_count w)))
  /\ (ili_state (driver w) <> ILI9341_ACTIVE ->
      ili9341Unselect w
      = (Halt "ili9341UnselectI(), #1",
         mk_iliworld (driver w) (bus w ++ [IliSysLock]) (miso w) (rx_count w))).
Proof.
  destruct w as [[st c v] b m k]. cbn [driver bus miso rx_count ili_state ili_config value].
  intros Hc. subst c.
  split; [| split; [| split]].
  - intros Hst. subst st. ili_run. repeat rewrite <- app_assoc. reflexivity.
  - intros Hst. subst st. ili_run. repeat rewrite <- app_assoc. reflexivity.
  - intros Hst. ili_run. destruct st; try reflexivity. contradiction.
  - intros Hst. ili_run. destruct st; try reflexivity. contradiction.
Qed.

(** X28: what the panel driver refuses in every state.  [ili9341ReadByte]
    never returns: its first statement is an assertion of [FALSE], so it
    halts on it even on an ACTIVE driver, with nothing read and nothing
    changed.  [ili9341WriteChunk] and [ili9341ReadChunk] given a [NULL]
    chunk fail their check, whatever the length, with nothing changed. *)
Theorem ili9341_refused_calls (w : ili_world) :
  ili9341ReadByte w = (Halt "ili9341ReadByte()", w)
  /\ (forall n, ili9341WriteChunk None n w = (Halt "ili9341WriteChunk", w))
  /\ (forall n, ili9341ReadChunk None n w = (Halt "ili9341ReadChunk", w)).
Proof. repeat split. Qed.

(** X29: one whole session of the panel driver.  From any driver object,
    with a configuration whose SPI endpoint is not [NULL]: initialising,
    starting, selecting, sending one command and one byte of data,
    unselecting and stopping all complete, and the bus has seen, in this
    order, the select and unselect of the start, the select, the D/CX pad
    driven low and the command byte sent, the pad driven high and the data
    byte sent, the unselect; every critical section entered is left; the
    driver ends stopped with its configuration kept and the data byte, cut
    to 8 bits, in its buffer. *)
Theorem panel_session_trace (w : ili_world) (cfg : ILI9341Config) (s cmd data : Z) :
  spi cfg = Some s ->
  panel_session cfg cmd data w
  = (Done tt,
     mk_iliworld (mk_ilidriver ILI9341_STOP (Some cfg) (u8 data))
       (bus w ++ [IliSysLock; SpiSelectI (Some s); SpiUnselectI (Some s); IliSysUnlock;
                  IliSysLock; SpiSelectI (Some s); IliSysUnlock;
                  PalClearPad (dcx_port cfg) (dcx_pad cfg); SpiSend (Some s) 1 [u8 cmd];
                  PalSetPad (dcx_port cfg) (dcx_pad cfg); SpiSend (Some s) 1 [u8 data];
                  IliSysLock; SpiUnselectI (Some s); IliSysUnlock;
                  IliSysLock; IliSysUnlock])
       (miso w) (rx_count w)).
Proof.
  destruct w as [[st c v] b m k]. cbn [driver bus miso rx_count ili_state ili_config value].
  intros Hs. ili_run. rewrite Hs. ili_run. rewrite Hs. ili_run.
  repeat rewrite <- app_assoc. reflexivity.
Qed.

Lemma ili9341_start_and_stop_witness :
  ili9341ObjectInit panel_fresh
  = (Done tt, mk_iliworld (mk_ilidriver ILI9341_STOP None (value (driver panel_fresh)))
                          (bus panel_fresh) (miso panel_fresh) (rx_count panel_fresh))
  /\ ili9341Start None panel_fresh
     = (Halt "ili9341Start",
        mk_iliworld (driver panel_fresh) (bus panel_fresh ++ [IliSysLock])
                    (miso panel_fresh) (rx_count panel_fresh)).
Proof.
  destruct (ili9341_start_and_stop panel_fresh) as (H1 & _ & H3 & _).
  split; [exact H1 | exact H3].
Defined.

Lemma ili9341_select_and_unselect_witness :
  ili9341Select
    (mk_iliworld (mk_ilidriver ILI9341_READY (Some panel_config) 0) [] (fun _ => 0x5A) 0)
  = (Done tt,
     mk_iliworld (mk_ilidriver ILI9341_ACTIVE (Some panel_config) 0)
                 ([] ++ [IliSysLock; SpiSelectI (spi panel_config); IliSysUnlock])
                 (fun _ => 0x5A) 0).
Proof.
  destruct (ili9341_select_and_unselect
              (mk_iliworld (mk_ilidriver ILI9341_READY (Some panel_config) 0)
                           [] (fun _ => 0x5A) 0)
              panel_config eq_refl) as (H & _).
  exact (H eq_refl).
Defined.

Lemma panel_session_trace_witness :
  panel_session panel_config 0x2C 0x1FF panel_fresh
  = (Done tt,
     mk_iliworld (mk_ilidriver ILI9341_STOP (Some panel_config) (u8 0x1FF))
       (bus panel_fresh
        ++ [IliSysLock; SpiSelectI (Some 1); SpiUnselectI (Some 1); IliSysUnlock;
            IliSysLock; SpiSelectI (Some 1); IliSysUnlock;
            PalClearPad (dcx_port panel_config) (dcx_pad panel_config);
            SpiSend (Some 1) 1 [u8 0x2C];
            PalSetPad (dcx_port panel_config) (dcx_pad panel_config);
            SpiSend (Some 1) 1 [u8 0x1FF];
            IliSysLock; SpiUnselectI (Some 1); IliSysUnlock;
            IliSysLock; IliSysUnlock])
       (miso panel_fresh) (rx_count panel_fresh)).
Proof.
  apply (panel_session_trace panel_fresh panel_config 1 0x2C 0x1FF).
  reflexivity.
Defined.
